(** * The property-embedding pipeline, embedded in Rocq

    A shallow embedding of the embedding generator of the repository: the
    TypeScript script (description builder, embedding client with retry,
    worker loop, worker process, primary process) and the Go port of the
    same script ([script-golang-version/main.go]).

    Strings are byte strings, the UTF-8 encoding of the text; a JavaScript
    string is taken to be well formed (no lone surrogate), so that
    [endsWith], [includes] and [trim] on the text and on its encoding
    agree.  Integers are [Z], delays are rationals, and the numbers of a
    document are the doubles of the interface [Float64]. *)

From Stdlib Require Import ZArith List String Ascii Bool Lia ZifyBool QArith Lqa
  Permutation FinFun DecimalString DecimalPos.
Import ListNotations.

Open Scope string_scope.
Open Scope Z_scope.

(** ** String primitives of the two host languages *)

Module Str.

(** [String.prototype.endsWith]: [s] ends with [suffix] when it is the
    suffix itself or when its tail ends with it. *)
Fixpoint endsWith (s suffix : string) : bool :=
  (s =? suffix)%string ||
  match s with
  | EmptyString => false
  | String _ s' => endsWith s' suffix
  end.

(** [String.prototype.includes] and Go's [strings.Contains]. *)
Fixpoint includes (s sub : string) : bool :=
  String.prefix sub s ||
  match s with
  | EmptyString => false
  | String _ s' => includes s' sub
  end.

(** The two languages do not strip the same white space: U+0085 is white
    space for Go's [unicode.IsSpace] and not for JavaScript, U+FEFF is
    white space for JavaScript and not for Go. *)
Inductive Language : Type :=
| JavaScript
| Golang.

(** A byte below 128: a character of its own in UTF-8, and part of no
    longer encoding. *)
Definition isAscii (c : ascii) : bool := Nat.ltb (nat_of_ascii c) 128.

(** White space of one byte, in both languages: tab, line feed, vertical
    tab, form feed, carriage return and space. *)
Definition isSpace (c : ascii) : bool :=
  let n := nat_of_ascii c in
  (Nat.eqb n 32 || (Nat.leb 9 n && Nat.leb n 13))%bool.

(** White space of two bytes: U+00A0 (C2 A0) in both languages, U+0085
    (C2 85) in Go. *)
Definition isSpace2 (l : Language) (a b : ascii) : bool :=
  (Nat.eqb (nat_of_ascii a) 194 &&
   (Nat.eqb (nat_of_ascii b) 160 ||
    match l with
    | Golang => Nat.eqb (nat_of_ascii b) 133
    | JavaScript => false
    end))%bool.

(** White space of three bytes, in both languages: U+1680 (E1 9A 80),
    U+2000 to U+200A (E2 80 80 to E2 80 8A), U+2028 and U+2029 (E2 80 A8,
    E2 80 A9), U+202F (E2 80 AF), U+205F (E2 81 9F) and U+3000 (E3 80 80);
    in JavaScript also U+FEFF (EF BB BF). *)
Definition isSpace3 (l : Language) (a b c : ascii) : bool :=
  let x := nat_of_ascii a in
  let y := nat_of_ascii b in
  let z := nat_of_ascii c in
  ((Nat.eqb x 225 && Nat.eqb y 154 && Nat.eqb z 128)
   || (Nat.eqb x 226 && Nat.eqb y 128 &&
       ((Nat.leb 128 z && Nat.leb z 138) || Nat.eqb z 168 || Nat.eqb z 169
        || Nat.eqb z 175))
   || (Nat.eqb x 226 && Nat.eqb y 129 && Nat.eqb z 159)
   || (Nat.eqb x 227 && Nat.eqb y 128 && Nat.eqb z 128)
   || match l with
      | JavaScript => Nat.eqb x 239 && Nat.eqb y 187 && Nat.eqb z 191
      | Golang => false
      end)%bool.

(** Strips, from the front, the characters that [w1], [w2] and [w3]
    recognise by their one, two or three bytes. *)
Fixpoint strip (w1 : ascii -> bool) (w2 : ascii -> ascii -> bool)
    (w3 : ascii -> ascii -> ascii -> bool) (s : string) : string :=
  match s with
  | EmptyString => EmptyString
  | String a s1 =>
      if w1 a then strip w1 w2 w3 s1
      else
        match s1 with
        | EmptyString => s
        | String b s2 =>
            if w2 a b then strip w1 w2 w3 s2
            else
              match s2 with
              | EmptyString => s
              | String c s3 => if w3 a b c then strip w1 w2 w3 s3 else s
              end
        end
  end.

Fixpoint reverse (s : string) : string :=
  match s with
  | EmptyString => EmptyString
  | String c s' => reverse s' ++ String c EmptyString
  end.

Definition trimStartOf (l : Language) (s : string) : string :=
  strip isSpace (isSpace2 l) (isSpace3 l) s.

(** From the end, the bytes of a character are met last byte first. *)
Definition trimEndOf (l : Language) (s : string) : string :=
  reverse
    (strip isSpace (fun b a => isSpace2 l a b) (fun c b a => isSpace3 l a b c)
       (reverse s)).

(** [String.prototype.trim] *)
Definition trim (s : string) : string :=
  trimEndOf JavaScript (trimStartOf JavaScript s).

(** [strings.TrimSpace] *)
Definition TrimSpace (s : string) : string :=
  trimEndOf Golang (trimStartOf Golang s).

(** [strings.ToLower] on the ASCII letters.  The letters outside ASCII that
    [ToLower] maps as well never become one of r, e, n, t, the only letters
    the one use of [ToLower] in the program looks for. *)
Definition lowerChar (c : ascii) : ascii :=
  let n := nat_of_ascii c in
  if (Nat.leb 65 n && Nat.leb n 90)%bool then ascii_of_nat (n + 32) else c.

Fixpoint toLower (s : string) : string :=
  match s with
  | EmptyString => EmptyString
  | String c s' => String (lowerChar c) (toLower s')
  end.

(** [Array.prototype.join] and [strings.Join]. *)
Definition join (sep : string) (parts : list string) : string :=
  String.concat sep parts.

(** Decimal rendering of an integer: [%d] in Go. *)
Definition ofZ (z : Z) : string := NilZero.string_of_int (Z.to_int z).

End Str.

(** ** Numbers

    The numbers of a document ([area], [totalArea], [rentPrice],
    [askingPrice] and the four room counts) are JavaScript numbers in the
    TypeScript script, that is IEEE doubles.  The Go struct declares the
    first four [float64] and the room counts [int].  What the programs do
    with a double is to test it, to print it, and, in the Go port, to read
    it into an [int] field; these operations are the interface below, with
    the two facts about [String(x)] that the statements rely on. *)

(** [Number.MAX_SAFE_INTEGER], 2^53 - 1. *)
Definition MAX_SAFE_INTEGER : Z := 9007199254740991.

Class Float64 (F : Type) : Type := {
  (** JavaScript truthiness of a number: neither zero nor NaN. *)
  truthy : F -> bool;
  (** [String(x)], as spliced into a template literal. *)
  jsToString : F -> string;
  (** Go's [x > 0]. *)
  greaterThanZero : F -> bool;
  (** Go's [fmt.Sprintf("%.2f", x)]. *)
  fmt2f : F -> string;
  (** The zero value a Go struct field has when the document lacks it. *)
  zero : F;
  (** The whole number that the Go driver reads into an [int] field; it
      refuses a fraction, NaN and a number beyond the range of [int]. *)
  toInt : F -> option Z;
  (** [String(x)] is never empty and never ends in a space: it is one of
      NaN, Infinity, -Infinity or a numeral. *)
  jsToString_text :
    forall x, jsToString x <> "" /\ Str.endsWith (jsToString x) " " = false;
  (** A whole number of magnitude at most 2^53 - 1 is printed by JavaScript
      as its decimal numeral, and is falsy only when it is zero. *)
  toInt_exact :
    forall x n,
      toInt x = Some n -> Z.abs n <= MAX_SAFE_INTEGER ->
      jsToString x = Str.ofZ n /\ truthy x = negb (n =? 0)
}.

(** The doubles that are whole numbers of magnitude at most 2^53 - 1 (and
    not the negative zero): on these every operation above is the operation
    on the integer. *)
Record SafeInteger : Type := {
  value : Z;
  isSafeInteger : (Z.abs value <=? MAX_SAFE_INTEGER) = true
}.

#[export, refine] Instance Float64_safeInteger : Float64 SafeInteger := {
  truthy x := negb (value x =? 0);
  jsToString x := Str.ofZ (value x);
  greaterThanZero x := 0 <? value x;
  fmt2f x := Str.ofZ (value x) ++ ".00";
  zero := {| value := 0; isSafeInteger := eq_refl |};
  toInt x := Some (value x)
}.
Proof.
  - intros x. generalize (value x). clear x. intros n.
    assert (D : forall d,
               NilEmpty.string_of_uint d <> "" ->
               Str.endsWith (NilEmpty.string_of_uint d) " " = false).
    { induction d; cbn [NilEmpty.string_of_uint]; intros N;
        try congruence;
        cbn [Str.endsWith String.eqb Ascii.eqb Bool.eqb];
        (destruct d; [reflexivity | apply IHd; discriminate ..]). }
    assert (U : forall d,
               NilZero.string_of_uint d <> "" /\
               Str.endsWith (NilZero.string_of_uint d) " " = false).
    { intros d. destruct d; cbn [NilZero.string_of_uint];
        (split; [discriminate | try reflexivity; apply D; discriminate]). }
    unfold Str.ofZ.
    destruct n as [|p|p]; cbn [Z.to_int NilZero.string_of_int].
    + split; [discriminate | reflexivity].
    + apply U.
    + split; [discriminate|]. cbn [Str.endsWith String.eqb Ascii.eqb Bool.eqb].
      destruct (U (Pos.to_uint p)) as [N E].
      destruct (NilZero.string_of_uint (Pos.to_uint p)); [congruence | exact E].
  - intros x n E _. injection E as <-. split; reflexivity.
Defined.

(** A literal of [SafeInteger]. *)
Abbreviation whole n := {| value := n; isSafeInteger := eq_refl |}.

(** ** Data model *)

Definition ObjectId := string.

(** [property.ad] *)
Record Advertisement : Type := {
  title : option string;
  description : option string;
  transactionType : option string
}.

(** The TypeScript [Property] interface.  Every field but [_id] is optional;
    the fields the pipeline never reads (company, agent, images, fees, ...)
    travel in [attributes]. *)
Record Property (F : Type) : Type := {
  _id : ObjectId;
  region : option string;
  city : option string;
  state : option string;
  ad : option Advertisement;
  area : option F;
  rentPrice : option F;
  askingPrice : option F;
  totalArea : option F;
  suites : option F;
  bedrooms : option F;
  bathrooms : option F;
  parkingSpots : option F;
  isExclusive : option bool;
  building : option string;
  features : option (list string);
  propertyType : option string;
  attributes : list (string * string)
}.

Arguments _id {F}.
Arguments region {F}.
Arguments city {F}.
Arguments state {F}.
Arguments ad {F}.
Arguments area {F}.
Arguments rentPrice {F}.
Arguments askingPrice {F}.
Arguments totalArea {F}.
Arguments suites {F}.
Arguments bedrooms {F}.
Arguments bathrooms {F}.
Arguments parkingSpots {F}.
Arguments isExclusive {F}.
Arguments building {F}.
Arguments features {F}.
Arguments propertyType {F}.
Arguments attributes {F}.

(** A document that has an identifier and nothing else. *)
Definition bareProperty {F : Type} (id : ObjectId) : Property F :=
  {| _id := id; region := None; city := None; state := None; ad := None;
     area := None; rentPrice := None; askingPrice := None; totalArea := None;
     suites := None; bedrooms := None; bathrooms := None; parkingSpots := None;
     isExclusive := None; building := None; features := None;
     propertyType := None; attributes := [] |}.

(** ** Description builder, TypeScript *)

Module TS.
Section Builder.
Context {F : Type} `{Float64 F}.

(** [s || ""] *)
Definition orEmpty (s : option string) : string :=
  match s with
  | Some v => v
  | None => ""
  end.

(** [${x || 0}] *)
Definition showOrZero (x : option F) : string :=
  match x with
  | Some v => if truthy v then jsToString v else "0"
  | None => "0"
  end.

(** [property.ad?.f] *)
Definition adField (f : Advertisement -> option string) (p : Property F) : option string :=
  match ad p with
  | Some a => f a
  | None => None
  end.

(** [property.ad?.transactionType?.includes("rent")], as the condition of
    [? :]: an undefined value is falsy. *)
Definition isRent (p : Property F) : bool :=
  match adField transactionType p with
  | Some t => Str.includes t "rent"
  | None => false
  end.

(** [property.features?.join(", ") || ""] *)
Definition featuresText (p : Property F) : string :=
  match features p with
  | Some fs => Str.join ", " fs
  | None => ""
  end.

(** The array literal of [createPropertyDescription], before [filter].
    The unit of the two area lines is spelled with the bytes the script
    holds after the letter m: C3 82 C2 B2. *)
Definition templateLines (p : Property F) : list string :=
  [ "Title: " ++ orEmpty (adField title p);
    "Description: " ++ orEmpty (adField description p);
    "Location: " ++ orEmpty (region p) ++ ", " ++ orEmpty (city p) ++ ", "
      ++ orEmpty (state p);
    "Property Type: " ++ orEmpty (propertyType p);
    "Transaction Type: " ++ orEmpty (adField transactionType p);
    "Area: " ++ showOrZero (area p) ++ " mÂ²";
    "Total Area: " ++ showOrZero (totalArea p) ++ " mÂ²";
    "Price: " ++ (if isRent p
                  then "Rent $" ++ showOrZero (rentPrice p)
                  else "Sale $" ++ showOrZero (askingPrice p));
    "Bedrooms: " ++ showOrZero (bedrooms p);
    "Suites: " ++ showOrZero (suites p);
    "Bathrooms: " ++ showOrZero (bathrooms p);
    "Parking Spots: " ++ showOrZero (parkingSpots p);
    "Building: " ++ orEmpty (building p);
    "Exclusive: " ++ (match isExclusive p with
                      | Some true => "Yes"
                      | _ => "No"
                      end);
    "Features: " ++ featuresText p ].

(** [line => line.trim() !== "" && !line.endsWith(": ")] *)
Definition keepLine (line : string) : bool :=
  negb (Str.trim line =? "")%string && negb (Str.endsWith line ": ").

Definition descriptionLines (p : Property F) : list string :=
  filter keepLine (templateLines p).

Definition createPropertyDescription (p : Property F) : string :=
  Str.join (String (ascii_of_nat 10) "") (descriptionLines p).

End Builder.
End TS.

(** ** Description builder, Go *)

Module Go.

(** [type Ad struct] *)
Record AdStruct : Type := {
  Title : string;
  Description : string;
  TransactionType : string
}.

(** [type Property struct], on the fields the builder reads.  [Ad] is a
    pointer and [Features] a slice: both may be nil. *)
Record PropertyStruct (F : Type) : Type := {
  ID : ObjectId;
  Region : string;
  City : string;
  State : string;
  Ad : option AdStruct;
  Area : F;
  RentPrice : F;
  AskingPrice : F;
  TotalArea : F;
  Suites : Z;
  Bedrooms : Z;
  Bathrooms : Z;
  ParkingSpots : Z;
  IsExclusive : bool;
  Building : string;
  Features : option (list string);
  PropertyType : string
}.

Arguments ID {F}.
Arguments Region {F}.
Arguments City {F}.
Arguments State {F}.
Arguments Ad {F}.
Arguments Area {F}.
Arguments RentPrice {F}.
Arguments AskingPrice {F}.
Arguments TotalArea {F}.
Arguments Suites {F}.
Arguments Bedrooms {F}.
Arguments Bathrooms {F}.
Arguments ParkingSpots {F}.
Arguments IsExclusive {F}.
Arguments Building {F}.
Arguments Features {F}.
Arguments PropertyType {F}.

Section Builder.
Context {F : Type} `{Float64 F}.

(** [cursor.Decode(&property)]: a field the document lacks keeps the zero
    value of its type, and a room count that is not a whole number makes
    the call fail. *)
Definition decodeAd (a : Advertisement) : AdStruct :=
  {| Title := TS.orEmpty (title a);
     Description := TS.orEmpty (description a);
     TransactionType := TS.orEmpty (transactionType a) |}.

Definition orZero (x : option F) : F :=
  match x with
  | Some v => v
  | None => zero
  end.

Definition countOrZero (n : option F) : option Z :=
  match n with
  | Some v => toInt v
  | None => Some 0
  end.

Definition decode (p : Property F) : option (PropertyStruct F) :=
  match countOrZero (suites p), countOrZero (bedrooms p),
        countOrZero (bathrooms p), countOrZero (parkingSpots p) with
  | Some nSuites, Some nBedrooms, Some nBathrooms, Some nParkingSpots =>
      Some
        {| ID := _id p;
           Region := TS.orEmpty (region p);
           City := TS.orEmpty (city p);
           State := TS.orEmpty (state p);
           Ad := option_map decodeAd (ad p);
           Area := orZero (area p);
           RentPrice := orZero (rentPrice p);
           AskingPrice := orZero (askingPrice p);
           TotalArea := orZero (totalArea p);
           Suites := nSuites;
           Bedrooms := nBedrooms;
           Bathrooms := nBathrooms;
           ParkingSpots := nParkingSpots;
           IsExclusive := match isExclusive p with Some b => b | None => false end;
           Building := TS.orEmpty (building p);
           Features := features p;
           PropertyType := TS.orEmpty (propertyType p) |}
  | _, _, _, _ => None
  end.

Definition boolToYesNo (value : bool) : string :=
  if value then "Yes" else "No".

(** [if cond { lines = append(lines, line) }] *)
Definition appendIf (cond : bool) (line : string) : list string :=
  if cond then [line] else [].

(** [property.Ad != nil && property.Ad.f != ""], with the field read. *)
Definition adText (f : AdStruct -> string) (p : PropertyStruct F) : string :=
  match Ad p with
  | Some a => f a
  | None => ""
  end.

Definition nonEmpty (s : string) : bool := negb (s =? "")%string.

Definition isRent (p : PropertyStruct F) : bool :=
  match Ad p with
  | Some a =>
      if nonEmpty (TransactionType a)
      then Str.includes (Str.toLower (TransactionType a)) "rent"
      else false
  | None => false
  end.

Definition descriptionLines (p : PropertyStruct F) : list string :=
  let features :=
    match Features p with
    | Some fs => Str.join ", " fs
    | None => ""
    end in
  let location :=
    Str.TrimSpace (Region p ++ ", " ++ City p ++ ", " ++ State p) in
  appendIf (nonEmpty (adText Title p)) ("Title: " ++ adText Title p)
  ++ appendIf (nonEmpty (adText Description p))
       ("Description: " ++ adText Description p)
  ++ appendIf (negb (location =? ",,")%string) ("Location: " ++ location)
  ++ appendIf (nonEmpty (PropertyType p)) ("Property Type: " ++ PropertyType p)
  ++ appendIf (nonEmpty (adText TransactionType p))
       ("Transaction Type: " ++ adText TransactionType p)
  ++ appendIf (greaterThanZero (Area p)) ("Area: " ++ fmt2f (Area p) ++ " m²")
  ++ appendIf (greaterThanZero (TotalArea p))
       ("Total Area: " ++ fmt2f (TotalArea p) ++ " m²")
  ++ (if isRent p && greaterThanZero (RentPrice p)
      then ["Price: Rent $" ++ fmt2f (RentPrice p)]
      else appendIf (greaterThanZero (AskingPrice p))
             ("Price: Sale $" ++ fmt2f (AskingPrice p)))
  ++ appendIf (0 <? Bedrooms p) ("Bedrooms: " ++ Str.ofZ (Bedrooms p))
  ++ appendIf (0 <? Suites p) ("Suites: " ++ Str.ofZ (Suites p))
  ++ appendIf (0 <? Bathrooms p) ("Bathrooms: " ++ Str.ofZ (Bathrooms p))
  ++ appendIf (0 <? ParkingSpots p)
       ("Parking Spots: " ++ Str.ofZ (ParkingSpots p))
  ++ appendIf (nonEmpty (Building p)) ("Building: " ++ Building p)
  ++ ["Exclusive: " ++ boolToYesNo (IsExclusive p)]
  ++ appendIf (nonEmpty features) ("Features: " ++ features).

Definition createPropertyDescription (p : PropertyStruct F) : string :=
  Str.join (String (ascii_of_nat 10) "") (descriptionLines p).

End Builder.
End Go.

(** ** The world of a worker

    A worker talks to the embedding provider, to the MongoDB driver, to the
    clock and to the console.  The provider, the random source and the
    outcome of the driver's calls are oracles indexed by the number of
    earlier calls; the world records what was called, in order. *)

Open Scope list_scope.

Definition Vector := list Q.

(** [interface PropertyWithEmbedding] *)
Record PropertyWithEmbedding (F : Type) : Type := {
  metadata : Property F;
  embeddings : Vector
}.

Arguments metadata {F}.
Arguments embeddings {F}.

(** The lines written with [console.error] and [console.warn], and the
    error lines of the Go port's [log.Printf]. *)
Inductive ErrorLine : Type :=
| FailedAfterAttempts (maxRetries : Z)
| ErrorInsertingBatch (workerId : Z)
| ErrorInsertingFinalBatch (workerId : Z)
| FailedToGenerateEmbedding (workerId : Z) (id : ObjectId)
| ErrorProcessingProperties (workerId : Z)
| WorkerFailed
| ErrorDecodingProperty (workerId : Z)
| ErrorCheckingExisting (workerId : Z)
| ErrorGeneratingEmbedding (workerId : Z).

(** The calls of the MongoDB driver that may fail, [insertMany] apart:
    [client.connect()], [client.close()], [createIndex], the Go port's
    [Find], and [findOne] by identifier. *)
Inductive DriverCall : Type :=
| Connect
| Close
| CreateIndex
| Find
| FindOne (id : ObjectId).

(** How a call of the driver ends: a promise resolves or rejects, a Go call
    returns its value or an error. *)
Inductive Settled (A : Type) : Type :=
| Resolved (result : A)
| Rejected (reason : string).

Arguments Resolved {A}.
Arguments Rejected {A}.

Record Env : Type := {
  (** [embedModel.embedContent(text)], n-th call: the vector, or a throw. *)
  embedContent : nat -> string -> option Vector;
  (** [Math.random()], n-th draw: a number in [0, 1). *)
  mathRandom : nat -> Q;
  (** [time.Now().Nanosecond()], n-th reading: 0 to 999999999. *)
  nanosecond : nat -> Z;
  (** Whether the n-th [insertMany] resolves. *)
  insertSucceeds : nat -> bool;
  (** The error of the n-th call of the driver other than [insertMany],
      when that call fails. *)
  driverError : nat -> DriverCall -> option string
}.

Record World (F : Type) : Type := {
  (** the target collection *)
  target : list (PropertyWithEmbedding F);
  (** the texts sent to the provider, one per call *)
  embedCalls : list string;
  (** the number of random draws *)
  draws : nat;
  (** the delays slept, in milliseconds *)
  sleeps : list Q;
  (** the argument and the outcome of every [insertMany] *)
  insertCalls : list (list (PropertyWithEmbedding F) * bool);
  (** the other calls of the driver *)
  driverCalls : list DriverCall;
  (** the documents pushed onto [batchDocuments] *)
  handed : list (PropertyWithEmbedding F);
  (** standard error *)
  stderr : list ErrorLine
}.

Arguments target {F}.
Arguments embedCalls {F}.
Arguments draws {F}.
Arguments sleeps {F}.
Arguments insertCalls {F}.
Arguments driverCalls {F}.
Arguments handed {F}.
Arguments stderr {F}.

(** A world in which nothing has happened yet. *)
Definition freshWorld {F : Type} (t : list (PropertyWithEmbedding F)) : World F :=
  {| target := t; embedCalls := []; draws := 0%nat; sleeps := [];
     insertCalls := []; driverCalls := []; handed := []; stderr := [] |}.

(** ** The monad of the scripts: state, and running out of fuel *)

Definition M (F A : Type) : Type := World F -> option (A * World F).

Definition ret {F A : Type} (a : A) : M F A := fun w => Some (a, w).

Definition bind {F A B : Type} (c : M F A) (k : A -> M F B) : M F B :=
  fun w =>
    match c w with
    | Some (a, w') => k a w'
    | None => None
    end.

Definition outOfFuel {F A : Type} : M F A := fun _ => None.

Notation "x <- c1 ;; c2" := (bind c1 (fun x => c2))
  (at level 61, c1 at next level, right associativity).
Notation "c1 ;; c2" := (bind c1 (fun _ => c2))
  (at level 61, right associativity).

(** The marks the effects leave on the world. *)

Definition called {F : Type} (text : string) (w : World F) : World F :=
  {| target := target w; embedCalls := embedCalls w ++ [text];
     draws := draws w; sleeps := sleeps w; insertCalls := insertCalls w;
     driverCalls := driverCalls w; handed := handed w; stderr := stderr w |}.

Definition drew {F : Type} (w : World F) : World F :=
  {| target := target w; embedCalls := embedCalls w; draws := S (draws w);
     sleeps := sleeps w; insertCalls := insertCalls w;
     driverCalls := driverCalls w; handed := handed w; stderr := stderr w |}.

Definition slept {F : Type} (delay : Q) (w : World F) : World F :=
  {| target := target w; embedCalls := embedCalls w; draws := draws w;
     sleeps := sleeps w ++ [delay]; insertCalls := insertCalls w;
     driverCalls := driverCalls w; handed := handed w; stderr := stderr w |}.

Definition logged {F : Type} (line : ErrorLine) (w : World F) : World F :=
  {| target := target w; embedCalls := embedCalls w; draws := draws w;
     sleeps := sleeps w; insertCalls := insertCalls w;
     driverCalls := driverCalls w; handed := handed w;
     stderr := stderr w ++ [line] |}.

Definition inserted {F : Type} (docs : list (PropertyWithEmbedding F))
    (ok : bool) (w : World F) : World F :=
  {| target := if ok then target w ++ docs else target w;
     embedCalls := embedCalls w; draws := draws w; sleeps := sleeps w;
     insertCalls := insertCalls w ++ [(docs, ok)];
     driverCalls := driverCalls w; handed := handed w; stderr := stderr w |}.

Definition requested {F : Type} (call : DriverCall) (w : World F) : World F :=
  {| target := target w; embedCalls := embedCalls w; draws := draws w;
     sleeps := sleeps w; insertCalls := insertCalls w;
     driverCalls := driverCalls w ++ [call]; handed := handed w;
     stderr := stderr w |}.

Definition pushed {F : Type} (doc : PropertyWithEmbedding F) (w : World F)
    : World F :=
  {| target := target w; embedCalls := embedCalls w; draws := draws w;
     sleeps := sleeps w; insertCalls := insertCalls w;
     driverCalls := driverCalls w; handed := handed w ++ [doc];
     stderr := stderr w |}.

Section Effects.
Context {F : Type}.
Variable env : Env.

Definition callEmbedContent (text : string) : M F (option Vector) :=
  fun w =>
    Some (embedContent env (List.length (embedCalls w)) text, called text w).

Definition random : M F Q :=
  fun w => Some (mathRandom env (draws w), drew w).

(** [await new Promise(resolve => setTimeout(resolve, delay))] *)
Definition sleep (delay : Q) : M F unit :=
  fun w => Some (tt, slept delay w).

Definition consoleError (line : ErrorLine) : M F unit :=
  fun w => Some (tt, logged line w).

(** A call of the driver: the error it fails with, if it fails. *)
Definition driverCall (call : DriverCall) : M F (option string) :=
  fun w =>
    Some (driverError env (List.length (driverCalls w)) call, requested call w).

(** [client.connect()], [client.close()] and
    [targetCollection.createIndex({ "metadata._id": 1 })] *)
Definition perform (call : DriverCall) : M F (Settled unit) :=
  failure <- driverCall call ;;
  match failure with
  | Some reason => ret (Rejected reason)
  | None => ret (Resolved tt)
  end.

(** [targetCollection.findOne({ "metadata._id": id })]: the first entry
    with that identifier, or none; or the call fails. *)
Definition findOne (id : ObjectId)
    : M F (Settled (option (PropertyWithEmbedding F))) :=
  failure <- driverCall (FindOne id) ;;
  match failure with
  | Some reason => ret (Rejected reason)
  | None =>
      fun w =>
        Some (Resolved
                (find (fun d => (_id (metadata d) =? id)%string) (target w)),
              w)
  end.

(** [targetCollection.insertMany(docs)]: all of [docs] or none; the result
    is whether the call resolved. *)
Definition insertMany (docs : list (PropertyWithEmbedding F)) : M F bool :=
  fun w =>
    let ok := insertSucceeds env (List.length (insertCalls w)) in
    Some (ok, inserted docs ok w).

(** [batchDocuments.push(doc)]; the result is the array after the push. *)
Definition push (batch : list (PropertyWithEmbedding F))
    (doc : PropertyWithEmbedding F) : M F (list (PropertyWithEmbedding F)) :=
  fun w => Some (batch ++ [doc], pushed doc w).

End Effects.

(** ** Embedding client, TypeScript *)

Module Client.
Section Retry.
Context {F : Type}.
Variable env : Env.

Definition initialBackoff : Q := 1000.

(** [initialBackoff * Math.pow(2, retries - 1) * (0.5 + Math.random())],
    read over the rationals; [retries] is at least 1 where it is used. *)
Definition backoff (retries : Z) (r : Q) : Q :=
  initialBackoff * inject_Z (2 ^ (retries - 1)) * ((1 # 2) + r).

(** The [while (retries < maxRetries)] loop; each turn of the loop takes
    one unit of fuel. *)
Fixpoint retryLoop (fuel : nat) (text : string) (maxRetries retries : Z)
    : M F (option Vector) :=
  match fuel with
  | O => outOfFuel
  | S fuel' =>
      if retries <? maxRetries then
        result <- callEmbedContent env text ;;
        match result with
        | Some values => ret (Some values)
        | None =>
            let retries := retries + 1 in
            if retries >=? maxRetries then
              consoleError (FailedAfterAttempts maxRetries) ;;
              ret None
            else
              r <- random env ;;
              let delay := backoff retries r in
              sleep delay ;;
              retryLoop fuel' text maxRetries retries
        end
      else ret None
  end.

Definition generateEmbeddingWithRetry (text : string) (maxRetries : Z)
    : M F (option Vector) :=
  retryLoop (S (Z.to_nat maxRetries)) text maxRetries 0.

End Retry.
End Client.

(** ** Worker, TypeScript *)

Module Worker.

Definition BATCH_SIZE : Z := 50.

(** [a % b] on integers: the sign follows the dividend, and the result
    is NaN, here [None], when [b] is zero. *)
Definition remainder (a b : Z) : option Z :=
  if b =? 0 then None else Some (Z.rem a b).

(** The partition test on a 0-based scan index:
    [index % totalWorkers === workerId - 1]. *)
Definition ownedBy (index workerId totalWorkers : Z) : bool :=
  match remainder index totalWorkers with
  | Some r => r =? workerId - 1
  | None => false
  end.

(** The variables of the scan loop. *)
Record Loop (F : Type) : Type := {
  currentIndex : Z;
  propertiesProcessed : Z;
  batchDocuments : list (PropertyWithEmbedding F)
}.

Arguments currentIndex {F}.
Arguments propertiesProcessed {F}.
Arguments batchDocuments {F}.

(** How a call ends: it returns its count, or it throws. *)
Inductive Completion : Type :=
| Returned (count : Z)
| Thrown (reason : string).

(** The cursor of [sourceCollection.find()]: the documents it delivers,
    and the error it then fails with, if it does not simply end. *)
Record Cursor (F : Type) : Type := {
  documents : list (Property F);
  fault : option string
}.

Arguments documents {F}.
Arguments fault {F}.

Section Scan.
Context {F : Type} `{Float64 F}.
Variable env : Env.
Variables workerId totalWorkers : Z.

(** The body of [for await (const property of cursor)]: the variables
    after the turn, or the error of a rejected [findOne], which leaves the
    loop. *)
Definition scanOne (st : Loop F) (property : Property F)
    : M F (Settled (Loop F)) :=
  let currentIndex := currentIndex st + 1 in
  if negb (ownedBy (currentIndex - 1) workerId totalWorkers) then
    ret (Resolved {| currentIndex := currentIndex;
                     propertiesProcessed := propertiesProcessed st;
                     batchDocuments := batchDocuments st |})
  else
    let propertiesProcessed := propertiesProcessed st + 1 in
    existing <- findOne env (_id property) ;;
    match existing with
    | Rejected reason => ret (Rejected reason)
    | Resolved (Some _) =>
        ret (Resolved {| currentIndex := currentIndex;
                         propertiesProcessed := propertiesProcessed;
                         batchDocuments := batchDocuments st |})
    | Resolved None =>
        let description := TS.createPropertyDescription property in
        embedding <- Client.generateEmbeddingWithRetry env description 5 ;;
        match embedding with
        | Some values =>
            let documentWithEmbedding :=
              {| metadata := property; embeddings := values |} in
            batch <- push (batchDocuments st) documentWithEmbedding ;;
            if Z.of_nat (List.length batch) >=? BATCH_SIZE then
              ok <- insertMany env batch ;;
              if ok then
                ret (Resolved {| currentIndex := currentIndex;
                                 propertiesProcessed := propertiesProcessed;
                                 batchDocuments := [] |})
              else
                consoleError (ErrorInsertingBatch workerId) ;;
                ret (Resolved {| currentIndex := currentIndex;
                                 propertiesProcessed := propertiesProcessed;
                                 batchDocuments := batch |})
            else
              ret (Resolved {| currentIndex := currentIndex;
                               propertiesProcessed := propertiesProcessed;
                               batchDocuments := batch |})
        | None =>
            consoleError
              (FailedToGenerateEmbedding workerId (_id property)) ;;
            ret (Resolved {| currentIndex := currentIndex;
                             propertiesProcessed := propertiesProcessed;
                             batchDocuments := batchDocuments st |})
        end
    end.

Fixpoint scan (st : Loop F) (docs : list (Property F))
    : M F (Settled (Loop F)) :=
  match docs with
  | [] => ret (Resolved st)
  | property :: rest =>
      turn <- scanOne st property ;;
      match turn with
      | Resolved st' => scan st' rest
      | Rejected reason => ret (Rejected reason)
      end
  end.

(** The variables as they are when the loop is entered. *)
Definition start : Loop F :=
  {| currentIndex := 0; propertiesProcessed := 0; batchDocuments := [] |}.

(** The body of the [try] of [processProperties]: the index, the scan, the
    fault of the cursor if it has one, the final bulk insert. *)
Definition attempt (cursor : Cursor F) : M F (Settled Z) :=
  index <- perform env CreateIndex ;;
  match index with
  | Rejected reason => ret (Rejected reason)
  | Resolved _ =>
      scanned <- scan start (documents cursor) ;;
      match scanned with
      | Rejected reason => ret (Rejected reason)
      | Resolved st =>
          match fault cursor with
          | Some reason => ret (Rejected reason)
          | None =>
              (if Z.of_nat (List.length (batchDocuments st)) >? 0 then
                 ok <- insertMany env (batchDocuments st) ;;
                 if ok then ret tt
                 else consoleError (ErrorInsertingFinalBatch workerId)
               else ret tt) ;;
              ret (Resolved (propertiesProcessed st))
          end
      end
  end.

(** [processProperties(workerId, totalWorkers, client)]: the [catch] logs
    the error and throws it again. *)
Definition processProperties (cursor : Cursor F) : M F Completion :=
  outcome <- attempt cursor ;;
  match outcome with
  | Resolved count => ret (Returned count)
  | Rejected reason =>
      consoleError (ErrorProcessingProperties workerId) ;;
      ret (Thrown reason)
  end.

End Scan.

(** The calls of [processProperties] of one run, started by the primary
    with [WORKER_ID = 1 .. maxWorkers] and [TOTAL_WORKERS = maxWorkers],
    each over a cursor of its own; here one after the other. *)
Fixpoint runWorkers {F : Type} `{Float64 F} (env : Env)
    (workerIds : list Z) (totalWorkers : Z) (cursor : Cursor F)
    : M F (list Completion) :=
  match workerIds with
  | [] => ret []
  | workerId :: rest =>
      c <- processProperties env workerId totalWorkers cursor ;;
      cs <- runWorkers env rest totalWorkers cursor ;;
      ret (c :: cs)
  end.

Definition workerIds (maxWorkers : nat) : list Z :=
  map Z.of_nat (seq 1 maxWorkers).

Definition pipeline {F : Type} `{Float64 F} (env : Env) (maxWorkers : nat)
    (cursor : Cursor F) : M F (list Completion) :=
  runWorkers env (workerIds maxWorkers) (Z.of_nat maxWorkers) cursor.

End Worker.

(** ** Primary process, TypeScript *)

Module Primary.

(** [interface WorkerMessage] *)
Record WorkerMessage : Type := {
  type : string;
  workerId : Z;
  propertiesProcessed : option Z;
  error : option string
}.

(** What a worker sends when its [try] block ends ([workerProcess]). *)
Definition report (id : Z) (c : Worker.Completion) : WorkerMessage :=
  match c with
  | Worker.Returned n =>
      {| type := "complete"; workerId := id;
         propertiesProcessed := Some n; error := None |}
  | Worker.Thrown reason =>
      {| type := "error"; workerId := id;
         propertiesProcessed := None; error := Some reason |}
  end.

(** The console of the primary. *)
Inductive Line : Type :=
| WorkerCompleted (workerId : Z) (count : option Z)
| AllWorkersCompleted (total : Z)
| ImportCompleted
| WorkerError (workerId : Z) (error : option string)
| WorkerDied (workerId code : Z).

(** The variables the handlers close over, the console, and the exit that
    the last handler schedules. *)
Record State : Type := {
  completedWorkers : Z;
  totalProcessed : Z;
  console : list Line;
  exited : option Z
}.

(** The events the cluster delivers to the primary. *)
Inductive Event : Type :=
| Message (message : WorkerMessage)
| Exit (workerId code : Z).

Section Handlers.
Variable maxWorkers : Z.

(** [cluster.on('message', ...)] *)
Definition onMessage (st : State) (message : WorkerMessage) : State :=
  if (type message =? "complete")%string then
    let console1 :=
      console st ++
      [WorkerCompleted (workerId message) (propertiesProcessed message)] in
    let totalProcessed :=
      totalProcessed st +
      match propertiesProcessed message with
      | Some n => n
      | None => 0
      end in
    let completedWorkers := completedWorkers st + 1 in
    if completedWorkers =? maxWorkers then
      {| completedWorkers := completedWorkers;
         totalProcessed := totalProcessed;
         console := console1 ++
                    [AllWorkersCompleted totalProcessed; ImportCompleted];
         exited := Some 0 |}
    else
      {| completedWorkers := completedWorkers;
         totalProcessed := totalProcessed;
         console := console1;
         exited := exited st |}
  else if (type message =? "error")%string then
    {| completedWorkers := completedWorkers st;
       totalProcessed := totalProcessed st;
       console := console st ++
                  [WorkerError (workerId message) (error message)];
       exited := exited st |}
  else st.

(** [cluster.on('exit', ...)] *)
Definition onExit (st : State) (id code : Z) : State :=
  if negb (code =? 0) then
    {| completedWorkers := completedWorkers st;
       totalProcessed := totalProcessed st;
       console := console st ++ [WorkerDied id code];
       exited := exited st |}
  else st.

Definition handle (st : State) (e : Event) : State :=
  match e with
  | Message m => onMessage st m
  | Exit id code => onExit st id code
  end.

(** [primaryProcess] from the point where the handlers are installed:
    the state after the given events. *)
Definition primaryProcess (events : list Event) : State :=
  fold_left handle events
    {| completedWorkers := 0; totalProcessed := 0; console := [];
       exited := None |}.

End Handlers.
End Primary.

(** ** The Go port: embedding client, worker and [main] *)

Module GoPort.

Definition batchSize : Z := 50.

Section Worker.
Context {F : Type} `{Float64 F}.
Variable env : Env.

Definition now : M F Z :=
  fun w => Some (nanosecond env (draws w), drew w).

(** [0.5 + 0.5*float64(time.Now().Nanosecond())/1e9] *)
Definition jitter (nanos : Z) : Q :=
  (1 # 2) + (1 # 2) * inject_Z nanos / inject_Z (10 ^ 9).

(** [initialBackoff * math.Pow(2, retries) * jitter], in milliseconds and
    before the conversion to a whole [time.Duration]. *)
Definition backoff (retries nanos : Z) : Q :=
  1000 * inject_Z (2 ^ retries) * jitter nanos.

(** [for retries := 0; retries < maxRetries; retries++] *)
Fixpoint retryLoop (fuel : nat) (text : string) (maxRetries retries : Z)
    : M F (option Vector) :=
  match fuel with
  | O => outOfFuel
  | S fuel' =>
      if retries <? maxRetries then
        resp <- callEmbedContent env text ;;
        match resp with
        | None =>
            if retries =? maxRetries - 1 then ret None
            else
              nanos <- now ;;
              sleep (backoff retries nanos) ;;
              retryLoop fuel' text maxRetries (retries + 1)
        | Some values => ret (Some values)
        end
      else ret None
  end.

Definition generateEmbeddingWithRetry (text : string) (maxRetries : Z)
    : M F (option Vector) :=
  retryLoop (S (Z.to_nat maxRetries)) text maxRetries 0.

Definition generateEmbedding (text : string) : M F (option Vector) :=
  generateEmbeddingWithRetry text 5.

Variables workerID totalWorkers : Z.

(** The body of [for cursor.Next(ctx)].  A document is [None] when it is
    not of the shape of [Property] at all; [cursor.Decode] fails on it, as
    it fails on a room count that is no whole number.  An error of
    [FindOne] other than [ErrNoDocuments] is logged, and the record is
    embedded as if the target did not have it. *)
Definition scanOne (st : Worker.Loop F) (document : option (Property F))
    : M F (Worker.Loop F) :=
  let currentIndex := Worker.currentIndex st + 1 in
  if negb (Z.rem (currentIndex - 1) totalWorkers =? workerID - 1) then
    ret {| Worker.currentIndex := currentIndex;
           Worker.propertiesProcessed := Worker.propertiesProcessed st;
           Worker.batchDocuments := Worker.batchDocuments st |}
  else
    let propertiesProcessed := Worker.propertiesProcessed st + 1 in
    let continue :=
      {| Worker.currentIndex := currentIndex;
         Worker.propertiesProcessed := propertiesProcessed;
         Worker.batchDocuments := Worker.batchDocuments st |} in
    match document with
    | None =>
        consoleError (ErrorDecodingProperty workerID) ;;
        ret continue
    | Some document =>
        match Go.decode document with
        | None =>
            consoleError (ErrorDecodingProperty workerID) ;;
            ret continue
        | Some property =>
            existing <- findOne env (Go.ID property) ;;
            match existing with
            | Resolved (Some _) => ret continue
            | _ =>
                match existing with
                | Rejected _ => consoleError (ErrorCheckingExisting workerID)
                | Resolved _ => ret tt
                end ;;
                let description := Go.createPropertyDescription property in
                embedding <- generateEmbedding description ;;
                match embedding with
                | None =>
                    consoleError (ErrorGeneratingEmbedding workerID) ;;
                    ret continue
                | Some values =>
                    let documentWithEmbedding :=
                      {| metadata := document; embeddings := values |} in
                    batch <- push (Worker.batchDocuments st)
                               documentWithEmbedding ;;
                    if Z.of_nat (List.length batch) >=? batchSize then
                      ok <- insertMany env batch ;;
                      (if ok then ret tt
                       else consoleError (ErrorInsertingBatch workerID)) ;;
                      ret {| Worker.currentIndex := currentIndex;
                             Worker.propertiesProcessed := propertiesProcessed;
                             Worker.batchDocuments := [] |}
                    else
                      ret {| Worker.currentIndex := currentIndex;
                             Worker.propertiesProcessed := propertiesProcessed;
                             Worker.batchDocuments := batch |}
                end
            end
        end
    end.

Fixpoint scan (st : Worker.Loop F) (docs : list (option (Property F)))
    : M F (Worker.Loop F) :=
  match docs with
  | [] => ret st
  | document :: rest =>
      st' <- scanOne st document ;;
      scan st' rest
  end.

(** [fmt.Errorf("...: %w", err)] *)
Definition wrap (context err : string) : string :=
  (context ++ ": " ++ err)%string.

(** [processProperties]: the count and the error.  [docs] are the documents
    that [cursor.Next] delivers and [cursorErr] the error of [cursor.Err()]
    after them. *)
Definition processProperties (docs : list (option (Property F)))
    (cursorErr : option string) : M F (Z * option string) :=
  index <- driverCall env CreateIndex ;;
  match index with
  | Some err => ret (0, Some (wrap "error creating index" err))
  | None =>
      found <- driverCall env Find ;;
      match found with
      | Some err => ret (0, Some (wrap "error finding properties" err))
      | None =>
          st <- scan Worker.start docs ;;
          (if Z.of_nat (List.length (Worker.batchDocuments st)) >? 0 then
             ok <- insertMany env (Worker.batchDocuments st) ;;
             if ok then ret tt
             else consoleError (ErrorInsertingFinalBatch workerID)
           else ret tt) ;;
          match cursorErr with
          | Some err =>
              ret (Worker.propertiesProcessed st,
                   Some (wrap "cursor error" err))
          | None => ret (Worker.propertiesProcessed st, None)
          end
      end
  end.

End Worker.

(** [type WorkerResult struct] *)
Record WorkerResult : Type := {
  WorkerID : Z;
  PropertiesProcessed : Z;
  Error : option string
}.

(** The body of [for result := range results] in [main]. *)
Definition collectOne (workers : Z) (st : Primary.State) (result : WorkerResult)
    : Primary.State :=
  let completedWorkers := Primary.completedWorkers st + 1 in
  let totalProcessed :=
    match Error result with
    | Some _ => Primary.totalProcessed st
    | None => Primary.totalProcessed st + PropertiesProcessed result
    end in
  let line :=
    match Error result with
    | Some e => Primary.WorkerError (WorkerID result) (Some e)
    | None =>
        Primary.WorkerCompleted (WorkerID result)
          (Some (PropertiesProcessed result))
    end in
  {| Primary.completedWorkers := completedWorkers;
     Primary.totalProcessed := totalProcessed;
     Primary.console :=
       Primary.console st ++ [line] ++
       (if completedWorkers =? workers
        then [Primary.AllWorkersCompleted totalProcessed;
              Primary.ImportCompleted]
        else []);
     Primary.exited := Primary.exited st |}.

(** [main] from the collection of results on: the channel is closed once
    every worker has sent its result, the loop ends and [main] returns. *)
Definition main (workers : Z) (results : list WorkerResult) : Primary.State :=
  let st :=
    fold_left (collectOne workers) results
      {| Primary.completedWorkers := 0; Primary.totalProcessed := 0;
         Primary.console := []; Primary.exited := None |} in
  {| Primary.completedWorkers := Primary.completedWorkers st;
     Primary.totalProcessed := Primary.totalProcessed st;
     Primary.console := Primary.console st;
     Primary.exited := Some 0 |}.

End GoPort.

(** ** The whole script *)

Module Run.

(** What the primary sees of a worker: its message and, after an error,
    its exit with code 1. *)
Definition workerEvents (id : Z) (c : Worker.Completion)
    : list Primary.Event :=
  Primary.Message (Primary.report id c) ::
  match c with
  | Worker.Thrown _ => [Primary.Exit id 1]
  | Worker.Returned _ => []
  end.

Section Script.
Context {F : Type} `{Float64 F}.
Variable env : Env.

(** [workerProcess]: how its [try] block ends.  The worker connects, runs
    [processProperties] and closes the connection; the [catch] logs the
    error of any of the three. *)
Definition workerProcess (workerId totalWorkers : Z)
    (cursor : Worker.Cursor F) : M F Worker.Completion :=
  connected <- perform env Connect ;;
  match connected with
  | Rejected reason => consoleError WorkerFailed ;; ret (Worker.Thrown reason)
  | Resolved _ =>
      c <- Worker.processProperties env workerId totalWorkers cursor ;;
      match c with
      | Worker.Thrown reason =>
          consoleError WorkerFailed ;; ret (Worker.Thrown reason)
      | Worker.Returned propertiesProcessed =>
          closed <- perform env Close ;;
          match closed with
          | Rejected reason =>
              consoleError WorkerFailed ;; ret (Worker.Thrown reason)
          | Resolved _ => ret (Worker.Returned propertiesProcessed)
          end
      end
  end.

(** The forked workers, one after the other, and the events they cause. *)
Fixpoint workers (workerIds : list Z) (totalWorkers : Z)
    (cursor : Worker.Cursor F) : M F (list Primary.Event) :=
  match workerIds with
  | [] => ret []
  | workerId :: rest =>
      c <- workerProcess workerId totalWorkers cursor ;;
      events <- workers rest totalWorkers cursor ;;
      ret (workerEvents workerId c ++ events)
  end.

(** The script from the point where the primary has installed its handlers:
    it forks the workers, and handles what arrives, here in the order of the
    worker numbers. *)
Definition program (maxWorkers : nat) (cursor : Worker.Cursor F)
    : M F Primary.State :=
  events <- workers (Worker.workerIds maxWorkers) (Z.of_nat maxWorkers)
              cursor ;;
  ret (Primary.primaryProcess (Z.of_nat maxWorkers) events).

End Script.
End Run.

(** ** Vocabulary of the statements *)

(** The 0-based scan indices of a source of [m] records. *)
Definition scanIndices (m : nat) : list Z := map Z.of_nat (seq 0 m).

(** The scan indices a worker owns. *)
Definition ownedIndices (m : nat) (workerId totalWorkers : Z) : list Z :=
  filter (fun i => Worker.ownedBy i workerId totalWorkers) (scanIndices m).

(** The line feed that joins the lines of a description. *)
Definition LF : string := String (ascii_of_nat 10) "".

(** A record whose area and bedroom count are zero. *)
Definition emptyLot : Property SafeInteger :=
  {| _id := "lot-1"; region := Some "Centro"; city := Some "Recife";
     state := Some "PE";
     ad := Some {| title := Some "Lot"; description := None;
                   transactionType := Some "sale" |};
     area := Some (whole 0); rentPrice := None;
     askingPrice := Some (whole 90000); totalArea := Some (whole 300);
     suites := None; bedrooms := Some (whole 0); bathrooms := None;
     parkingSpots := None; isExclusive := Some true; building := None;
     features := None; propertyType := Some "Land"; attributes := [] |}.

(** A rental whose transaction type is capitalised. *)
Definition rental : Property SafeInteger :=
  {| _id := "flat-7"; region := Some "Boa Viagem"; city := Some "Recife";
     state := Some "PE";
     ad := Some {| title := Some "Flat"; description := Some "Sea view";
                   transactionType := Some "Rent" |};
     area := Some (whole 45); rentPrice := Some (whole 1500);
     askingPrice := Some (whole 450000); totalArea := Some (whole 60);
     suites := Some (whole 1); bedrooms := Some (whole 2);
     bathrooms := Some (whole 2); parkingSpots := Some (whole 1);
     isExclusive := Some false; building := Some "Atlantico";
     features := Some ["Pool"; "Gym"]; propertyType := Some "Apartment";
     attributes := [] |}.

(** The labels of the lines that both builders print from the same field
    in the same way: every label but Location, Area, Total Area and
    Price. *)
Definition sharedLabels : list string :=
  [ "Title: "; "Description: "; "Property Type: "; "Transaction Type: ";
    "Bedrooms: "; "Suites: "; "Bathrooms: "; "Parking Spots: ";
    "Building: "; "Exclusive: "; "Features: " ].

Definition isSharedLine (line : string) : bool :=
  existsb (fun label => String.prefix label line) sharedLabels.

(** The labels of the room counts. *)
Definition countLabels : list string :=
  [ "Bedrooms: "; "Suites: "; "Bathrooms: "; "Parking Spots: " ].

(** The line of a room count that reads zero or a negative number. *)
Definition idle (line : string) : bool :=
  existsb (fun label =>
             (line =? label ++ "0")%string || String.prefix (label ++ "-") line)
          countLabels.

(** A label of the template: it starts with an ASCII character that is no
    white space and ends in a colon and a space. *)
Definition isLabel (label : string) : bool :=
  match label with
  | String c _ => Str.isAscii c && negb (Str.isSpace c)
  | EmptyString => false
  end && Str.endsWith label ": ".

(** A text the TypeScript filter does not take for an empty field. *)
Definition plain (v : string) : bool := negb (Str.endsWith v ": ").

(** A room count that is absent, or a whole number of magnitude at most
    2^53 - 1. *)
Definition safeCount {F : Type} `{Float64 F} (n : option F) : bool :=
  match n with
  | Some v =>
      match toInt v with
      | Some k => Z.abs k <=? MAX_SAFE_INTEGER
      | None => false
      end
  | None => true
  end.

(** The records on which the shared lines are compared: no text field ends
    in a colon and a space, and the room counts are safe. *)
Definition comparable {F : Type} `{Float64 F} (p : Property F) : bool :=
  plain (TS.orEmpty (TS.adField title p))
  && plain (TS.orEmpty (TS.adField description p))
  && plain (TS.orEmpty (propertyType p))
  && plain (TS.orEmpty (TS.adField transactionType p))
  && plain (TS.orEmpty (building p))
  && plain (TS.featuresText p)
  && safeCount (bedrooms p) && safeCount (suites p)
  && safeCount (bathrooms p) && safeCount (parkingSpots p).

(** The provider fails on the calls number [from] to [from + count - 1],
    made with [text]. *)
Definition failsFrom (env : Env) (from count : nat) (text : string) : Prop :=
  forall i, (i < count)%nat -> embedContent env (from + i) text = None.

(** The loop body gets as far as the embedding client: the worker owns the
    scan position of the record, the lookup of the record resolves, and the
    target has no entry for it. *)
Definition reaches {F : Type} (env : Env) (workerId totalWorkers : Z)
    (st : Worker.Loop F) (p : Property F) (w : World F) : Prop :=
  Worker.ownedBy (Worker.currentIndex st) workerId totalWorkers = true
  /\ driverError env (List.length (driverCalls w)) (FindOne (_id p)) = None
  /\ find (fun d => (_id (metadata d) =? _id p)%string) (target w) = None.

(** The vector of the end-to-end scenario. *)
Definition unitVector : Vector := [1%Q; 0%Q; 0%Q].

(** A provider that fails on its first [k] calls and answers from then on;
    the driver's calls succeed. *)
Definition flakyProvider (k : nat) : Env :=
  {| embedContent := fun n _ => if (n <? k)%nat then None else Some unitVector;
     mathRandom := fun _ => 1 # 4;
     nanosecond := fun _ => 250000000;
     insertSucceeds := fun _ => true;
     driverError := fun _ _ => None |}.

(** A provider that always fails. *)
Definition failingProvider : Env :=
  {| embedContent := fun _ _ => None;
     mathRandom := fun _ => 1 # 4;
     nanosecond := fun _ => 250000000;
     insertSucceeds := fun _ => true;
     driverError := fun _ _ => None |}.

(** A provider that fails once and then answers, with a high random
    draw. *)
Definition highDraw : Env :=
  {| embedContent := fun n _ => if (n <? 1)%nat then None else Some unitVector;
     mathRandom := fun _ => 3 # 4;
     nanosecond := fun _ => 750000000;
     insertSucceeds := fun _ => true;
     driverError := fun _ _ => None |}.

(** A provider that always answers, and a target collection that rejects
    the first bulk insert and accepts the later ones. *)
Definition firstInsertFails : Env :=
  {| embedContent := fun _ _ => Some unitVector;
     mathRandom := fun _ => 1 # 4;
     nanosecond := fun _ => 250000000;
     insertSucceeds := fun n => negb (Nat.eqb n 0);
     driverError := fun _ _ => None |}.

(** A provider that always answers, and a target collection that fails
    every lookup and accepts everything else. *)
Definition lookupsFail : Env :=
  {| embedContent := fun _ _ => Some unitVector;
     mathRandom := fun _ => 1 # 4;
     nanosecond := fun _ => 250000000;
     insertSucceeds := fun _ => true;
     driverError := fun _ call =>
                      match call with
                      | FindOne _ => Some "lookup failed"
                      | _ => None
                      end |}.

(** The identifiers [a], [a + 1], ..., [count] of them, and a source of
    documents that have nothing but such an identifier. *)
Definition identifiers (a count : nat) : list ObjectId :=
  map (fun i => Str.ofZ (Z.of_nat i)) (seq a count).

Definition bareSource (count : nat) : list (Property SafeInteger) :=
  map bareProperty (identifiers 1 count).

(** The identifiers and the outcome of each bulk insert. *)
Definition insertedIds {F : Type} (w : World F)
    : list (list ObjectId * bool) :=
  map (fun call => (map (fun d => _id (metadata d)) (fst call), snd call))
      (insertCalls w).

(** A cursor that delivers its documents and ends. *)
Definition cursorOver {F : Type} (docs : list (Property F)) : Worker.Cursor F :=
  {| Worker.documents := docs; Worker.fault := None |}.

(** A record with its vector, as the worker hands it to the batch writer. *)
Definition enrichedWith {F : Type} (p : Property F) (v : Vector)
    : PropertyWithEmbedding F :=
  {| metadata := p; embeddings := v |}.

(** The target entry of a record in the scenarios. *)
Definition enriched {F : Type} (p : Property F) : PropertyWithEmbedding F :=
  enrichedWith p unitVector.

(** The target has an entry for every document of the source. *)
Definition allEnriched {F : Type} (docs : list (Property F)) (w : World F)
    : Prop :=
  forall p, In p docs ->
    find (fun d => (_id (metadata d) =? _id p)%string) (target w) <> None.

(** Four workers, of which the first reports a cursor fault and exits with
    code 1 and the others complete with ten records each. *)
Definition oneWorkerFails : list Primary.Event :=
  [ Primary.Message (Primary.report 1 (Worker.Thrown "cursor fault"));
    Primary.Exit 1 1;
    Primary.Message (Primary.report 2 (Worker.Returned 10));
    Primary.Message (Primary.report 3 (Worker.Returned 10));
    Primary.Message (Primary.report 4 (Worker.Returned 10)) ].

(** The same four results, as the Go workers send them. *)
Definition oneWorkerFailsGo : list GoPort.WorkerResult :=
  [ {| GoPort.WorkerID := 1; GoPort.PropertiesProcessed := 0;
       GoPort.Error := Some "cursor fault" |};
    {| GoPort.WorkerID := 2; GoPort.PropertiesProcessed := 10;
       GoPort.Error := None |};
    {| GoPort.WorkerID := 3; GoPort.PropertiesProcessed := 10;
       GoPort.Error := None |};
    {| GoPort.WorkerID := 4; GoPort.PropertiesProcessed := 10;
       GoPort.Error := None |} ].

(** The messages of type [complete] among the events. *)
Definition completions (events : list Primary.Event) : list Primary.Event :=
  filter (fun e =>
            match e with
            | Primary.Message m => (Primary.type m =? "complete")%string
            | Primary.Exit _ _ => false
            end) events.

(** The total of a list of delays. *)
Definition sumQ (delays : list Q) : Q := fold_right Qplus 0%Q delays.

(** [Math.random()] returns a number in [0, 1). *)
Definition unitInterval (env : Env) : Prop :=
  forall n, (0 <= mathRandom env n)%Q /\ (mathRandom env n < 1)%Q.

(** [Nanosecond()] returns the nanoseconds within a second. *)
Definition clockInRange (env : Env) : Prop :=
  forall n, 0 <= nanosecond env n <= 999999999.

(** Two worlds that saw the same traffic: the same provider calls, target,
    bulk inserts and handed records, and as many draws and sleeps. *)
Definition sameTraffic {F : Type} (w1 w2 : World F) : Prop :=
  embedCalls w1 = embedCalls w2 /\ target w1 = target w2
  /\ insertCalls w1 = insertCalls w2 /\ handed w1 = handed w2
  /\ draws w1 = draws w2
  /\ List.length (sleeps w1) = List.length (sleeps w2).

(** Bulk inserts, each with its outcome. *)
Definition Calls (F : Type) : Type :=
  list (list (PropertyWithEmbedding F) * bool).

(** The records of all the calls, and the records of the accepted ones. *)
Definition sent {F : Type} (calls : Calls F) : list (PropertyWithEmbedding F) :=
  List.concat (map fst calls).

Definition accepted {F : Type} (calls : Calls F)
    : list (PropertyWithEmbedding F) :=
  List.concat (map fst (filter snd calls)).

Definition sizeOf {F : Type} (call : list (PropertyWithEmbedding F) * bool) : Z :=
  Z.of_nat (List.length (fst call)).

(** The target accepts every bulk insert. *)
Definition neverRejects (env : Env) : Prop :=
  forall n, insertSucceeds env n = true.

(** No call of the driver other than a bulk insert fails: connecting and
    closing, the index, the Go port's [Find] and every lookup succeed. *)
Definition storeResponds (env : Env) : Prop :=
  forall n call, driverError env n call = None.

(** [reason] is the error of a call of the driver that failed. *)
Definition driverFailedWith (env : Env) (reason : string) : Prop :=
  exists n call, driverError env n call = Some reason.

(** The provider answers every call, with a vector that depends on the
    text alone. *)
Definition answersWith (env : Env) (f : string -> Vector) : Prop :=
  forall n text, embedContent env n text = Some (f text).

(** The documents at the scan positions a worker owns, the first document
    being at position [from]. *)
Fixpoint ownedFrom {F : Type} (workerId totalWorkers from : Z)
    (docs : list (Property F)) : list (Property F) :=
  match docs with
  | [] => []
  | p :: rest =>
      (if Worker.ownedBy from workerId totalWorkers then [p] else [])
      ++ ownedFrom workerId totalWorkers (from + 1) rest
  end.

(** The entry the TypeScript worker writes for a record. *)
Definition entryOf {F : Type} `{Float64 F} (f : string -> Vector)
    (p : Property F) : PropertyWithEmbedding F :=
  enrichedWith p (f (TS.createPropertyDescription p)).

(** None of the documents has an entry among [entries]. *)
Definition unknownTo {F : Type} (entries : list (PropertyWithEmbedding F))
    (docs : list (Property F)) : Prop :=
  forall p, In p docs ->
    find (fun d => (_id (metadata d) =? _id p)%string) entries = None.

(** The count a message of type [complete] adds to the total:
    [message.propertiesProcessed || 0]. *)
Definition countOf (e : Primary.Event) : Z :=
  match e with
  | Primary.Message m =>
      if (Primary.type m =? "complete")%string
      then match Primary.propertiesProcessed m with
           | Some n => n
           | None => 0
           end
      else 0
  | Primary.Exit _ _ => 0
  end.

Definition reported (events : list Primary.Event) : Z :=
  fold_right Z.add 0 (map countOf events).

(** The counts of the Go results that carry no error, added up. *)
Definition successes (results : list GoPort.WorkerResult) : Z :=
  fold_right Z.add 0
    (map (fun r => match GoPort.Error r with
                   | Some _ => 0
                   | None => GoPort.PropertiesProcessed r
                   end) results).

(** The number of scan positions a worker owns in a source of [m]
    records. *)
Definition ownedCount (m : nat) (workerId totalWorkers : Z) : Z :=
  Z.of_nat (List.length (ownedIndices m workerId totalWorkers)).

(** A rental whose transaction type is in lower case. *)
Definition forRent : Property SafeInteger :=
  {| _id := "flat-8"; region := None; city := Some "Olinda"; state := None;
     ad := Some {| title := None; description := None;
                   transactionType := Some "for rent" |};
     area := None; rentPrice := Some (whole 900); askingPrice := None;
     totalArea := None; suites := None; bedrooms := Some (whole 1);
     bathrooms := None; parkingSpots := None; isExclusive := None;
     building := None; features := None; propertyType := None;
     attributes := [] |}.

(** The record [forRent] as the Go port decodes it. *)
Definition forRentStruct : Go.PropertyStruct SafeInteger :=
  {| Go.ID := "flat-8"; Go.Region := ""; Go.City := "Olinda"; Go.State := "";
     Go.Ad := Some {| Go.Title := ""; Go.Description := "";
                      Go.TransactionType := "for rent" |};
     Go.Area := whole 0; Go.RentPrice := whole 900; Go.AskingPrice := whole 0;
     Go.TotalArea := whole 0; Go.Suites := 0; Go.Bedrooms := 1;
     Go.Bathrooms := 0; Go.ParkingSpots := 0; Go.IsExclusive := false;
     Go.Building := ""; Go.Features := None; Go.PropertyType := "" |}.

(** The zero value of the Go struct, with an identifier. *)
Definition zeroStruct (id : ObjectId) : Go.PropertyStruct SafeInteger :=
  {| Go.ID := id; Go.Region := ""; Go.City := ""; Go.State := "";
     Go.Ad := None; Go.Area := whole 0; Go.RentPrice := whole 0;
     Go.AskingPrice := whole 0; Go.TotalArea := whole 0; Go.Suites := 0;
     Go.Bedrooms := 0; Go.Bathrooms := 0; Go.ParkingSpots := 0;
     Go.IsExclusive := false; Go.Building := ""; Go.Features := None;
     Go.PropertyType := "" |}.

(** The no-break space U+00A0, the next line U+0085 and the byte order
    mark U+FEFF, in UTF-8. *)
Definition NBSP : string :=
  String (ascii_of_nat 194) (String (ascii_of_nat 160) "").

Definition NEL : string :=
  String (ascii_of_nat 194) (String (ascii_of_nat 133) "").

Definition BOM : string :=
  String (ascii_of_nat 239)
    (String (ascii_of_nat 187) (String (ascii_of_nat 191) "")).

(** Between two worlds nothing happened to the provider, to the batch
    writer or to the target. *)
Definition quiet {F : Type} (w w' : World F) : Prop :=
  embedCalls w' = embedCalls w /\ insertCalls w' = insertCalls w
  /\ handed w' = handed w /\ target w' = target w.
(** ** The partition *)

Section Partition.

Lemma remainder_range (i n : Z) :
  0 <= i -> 0 < n -> 0 <= Z.rem i n < n.
Proof.
  intros Hi Hn. apply Z.rem_bound_pos; lia.
Qed.

Lemma ownedBy_spec (i w n : Z) :
  0 < n -> Worker.ownedBy i w n = (Z.rem i n =? w - 1).
Proof.
  intros Hn. unfold Worker.ownedBy, Worker.remainder.
  destruct (n =? 0) eqn:E; [lia | reflexivity].
Qed.

(** Among the consecutive numbers [start .. start + len - 1], the ones
    equal to [r + 1]: one if it is in range, none otherwise. *)
Lemma owners_in_range (r : Z) (len start : nat) :
  List.length
    (filter (fun w => r =? w - 1) (map Z.of_nat (seq start len))) =
  if (Z.of_nat start <=? r + 1) && (r + 1 <? Z.of_nat (start + len))
  then 1%nat else 0%nat.
Proof.
  revert start. induction len as [|len IH]; intros start; simpl.
  - destruct (Z.of_nat start <=? r + 1) eqn:A;
      destruct (r + 1 <? Z.of_nat (start + 0)) eqn:B; simpl; try reflexivity.
    lia.
  - destruct (r =? Z.of_nat start - 1) eqn:E; simpl; rewrite IH.
    + replace (Z.of_nat (S start) <=? r + 1) with false by lia.
      replace (Z.of_nat start <=? r + 1) with true by lia.
      replace (r + 1 <? Z.of_nat (start + S len)) with true by lia.
      reflexivity.
    + destruct (Z.of_nat (S start) <=? r + 1) eqn:A;
        destruct (r + 1 <? Z.of_nat (S start + len)) eqn:B;
        destruct (Z.of_nat start <=? r + 1) eqn:C;
        destruct (r + 1 <? Z.of_nat (start + S len)) eqn:D;
        simpl; try reflexivity; lia.
Qed.

Lemma one_owner (i : Z) (n : nat) :
  0 <= i -> (1 <= n)%nat ->
  List.length
    (filter (fun w => Worker.ownedBy i w (Z.of_nat n)) (Worker.workerIds n))
  = 1%nat.
Proof.
  intros Hi Hn. unfold Worker.workerIds.
  rewrite (filter_ext _ (fun w => Z.rem i (Z.of_nat n) =? w - 1)).
  2:{ intros w. apply ownedBy_spec. lia. }
  rewrite owners_in_range.
  pose proof (remainder_range i (Z.of_nat n) Hi ltac:(lia)) as R.
  replace (Z.of_nat 1 <=? Z.rem i (Z.of_nat n) + 1) with true by lia.
  replace (Z.rem i (Z.of_nat n) + 1 <? Z.of_nat (1 + n)) with true by lia.
  reflexivity.
Qed.

Variable A B : Type.

Lemma concat_map_nil (ws : list B) :
  List.concat (map (fun _ : B => @nil A) ws) = [].
Proof. induction ws; simpl; auto. Qed.

Lemma filter_cons_if (p : A -> bool) (x : A) (l : list A) :
  filter p (x :: l) = if p x then x :: filter p l else filter p l.
Proof. reflexivity. Qed.

(** Adding [x] to the share of the only owner adds [x] to the union. *)
Lemma share_cons (own : B -> bool) (f : B -> list A) (x : A) (ws : list B) :
  (List.length (filter own ws) <= 1)%nat ->
  Permutation
    (List.concat (map (fun w => if own w then x :: f w else f w) ws))
    (if Nat.eqb (List.length (filter own ws)) 1
     then x :: List.concat (map f ws) else List.concat (map f ws)).
Proof.
  induction ws as [|w ws IH]; simpl; intros L.
  - constructor.
  - destruct (own w) eqn:E; simpl in *.
    + assert (Z0 : List.length (filter own ws) = 0%nat) by lia.
      rewrite Z0 in *. simpl in *. constructor.
      apply Permutation_app_head. apply IH. lia.
    + specialize (IH L).
      destruct (Nat.eqb (List.length (filter own ws)) 1).
      * eapply perm_trans.
        -- apply Permutation_app_head. exact IH.
        -- apply Permutation_sym, Permutation_middle.
      * apply Permutation_app_head. exact IH.
Qed.

Lemma shares_cover (own : A -> B -> bool) (ws : list B) (l : list A) :
  (forall x, In x l -> List.length (filter (own x) ws) = 1%nat) ->
  Permutation
    (List.concat (map (fun w => filter (fun x => own x w) l) ws)) l.
Proof.
  induction l as [|x l IH]; intros Huniq.
  - simpl. rewrite concat_map_nil. constructor.
  - assert (H1 : List.length (filter (own x) ws) = 1%nat)
      by (apply Huniq; left; reflexivity).
    eapply perm_trans.
    + rewrite (map_ext _
        (fun w => if own x w then x :: filter (fun y => own y w) l
                  else filter (fun y => own y w) l)) by reflexivity.
      apply share_cons. lia.
    + rewrite H1. simpl. constructor. apply IH.
      intros y Hy. apply Huniq. right. exact Hy.
Qed.

End Partition.

(** C8.  For a source of [m] records and [n >= 1] workers, every 0-based
    scan index below [m] is owned by exactly one of the workers [1 .. n],
    and the owned index lists of the workers, put together, are the indices
    [0 .. m-1], each exactly once. *)
Theorem partition_total_and_disjoint (m n : nat) :
  (1 <= n)%nat ->
  (forall i, 0 <= i < Z.of_nat m ->
     exists w, (1 <= w <= Z.of_nat n /\
                Worker.ownedBy i w (Z.of_nat n) = true) /\
               forall w', 1 <= w' <= Z.of_nat n ->
                          Worker.ownedBy i w' (Z.of_nat n) = true -> w' = w)
  /\ Permutation
       (List.concat (map (fun w => ownedIndices m w (Z.of_nat n))
                    (Worker.workerIds n)))
       (scanIndices m).
Proof.
  intros Hn. split.
  - intros i Hi.
    pose proof (remainder_range i (Z.of_nat n) ltac:(lia) ltac:(lia)) as R.
    exists (Z.rem i (Z.of_nat n) + 1). repeat split; try lia.
    + rewrite ownedBy_spec by lia. lia.
    + intros w' Hw' Own. rewrite ownedBy_spec in Own by lia. lia.
  - unfold ownedIndices. apply shares_cover.
    intros x Hx. apply one_owner; [|exact Hn].
    unfold scanIndices in Hx. apply in_map_iff in Hx.
    destruct Hx as [k [<- _]]. lia.
Qed.

Lemma partition_total_and_disjoint_witness :
  (forall i, 0 <= i < Z.of_nat 10 ->
     exists w, (1 <= w <= Z.of_nat 4 /\
                Worker.ownedBy i w (Z.of_nat 4) = true) /\
               forall w', 1 <= w' <= Z.of_nat 4 ->
                          Worker.ownedBy i w' (Z.of_nat 4) = true -> w' = w)
  /\ Permutation
       (List.concat (map (fun w => ownedIndices 10 w (Z.of_nat 4))
                    (Worker.workerIds 4)))
       (scanIndices 10).
Proof.
  apply (partition_total_and_disjoint 10 4). lia.
Defined.

(** ** Strings *)

Section StringFacts.
Local Open Scope string_scope.

Lemma length_append (s t : string) :
  String.length (s ++ t) = (String.length s + String.length t)%nat.
Proof. induction s as [|c s IH]; simpl; [reflexivity | now rewrite IH]. Qed.

Lemma append_empty (s : string) : s ++ "" = s.
Proof. induction s as [|c s IH]; simpl; [reflexivity | now rewrite IH]. Qed.

Lemma append_assoc (a b c : string) : (a ++ b) ++ c = a ++ (b ++ c).
Proof. induction a as [|x a IH]; cbn; [reflexivity | now rewrite IH]. Qed.

Lemma endsWith_length (s suffix : string) :
  Str.endsWith s suffix = true ->
  (String.length suffix <= String.length s)%nat.
Proof.
  induction s as [|c s IH]; cbn [Str.endsWith]; intros E.
  - rewrite orb_false_r in E. apply String.eqb_eq in E. subst. simpl. lia.
  - apply orb_true_iff in E. destruct E as [E | E].
    + apply String.eqb_eq in E. subst. simpl. lia.
    + apply IH in E. simpl. lia.
Qed.

Lemma endsWith_refl (s : string) : Str.endsWith s s = true.
Proof. destruct s; cbn [Str.endsWith]; now rewrite String.eqb_refl. Qed.

(** What ends with a suffix ends with the tail of the suffix. *)
Lemma endsWith_tail (s suffix : string) (c : ascii) :
  Str.endsWith s (String c suffix) = true -> Str.endsWith s suffix = true.
Proof.
  induction s as [|x s IH]; cbn [Str.endsWith]; intros E.
  - discriminate E.
  - apply orb_true_iff in E. apply orb_true_iff. right. destruct E as [E | E].
    + apply String.eqb_eq in E. injection E as _ ->. apply endsWith_refl.
    + exact (IH E).
Qed.

(** A label that ends in a colon and a space, followed by a plain text that
    is not empty, does not end in a colon and a space. *)
Lemma endsWith_label_text (label v : string) :
  Str.endsWith label ": " = true ->
  v <> "" ->
  Str.endsWith v ": " = false ->
  Str.endsWith (label ++ v) ": " = false.
Proof.
  intros Hl Hv Hp. induction label as [|a label IH].
  - discriminate Hl.
  - cbn [Str.endsWith String.append] in *.
    apply orb_true_iff in Hl. apply orb_false_iff. destruct Hl as [Hl | Hl].
    + apply String.eqb_eq in Hl. injection Hl as -> ->.
      destruct v as [|c v]; [congruence|].
      split; [reflexivity|]. simpl. simpl in Hp. exact Hp.
    + split; [|apply IH; exact Hl].
      apply String.eqb_neq. intros E.
      apply endsWith_length in Hl. simpl in Hl.
      apply (f_equal String.length) in E. simpl in E.
      rewrite length_append in E. lia.
Qed.

Lemma endsWith_long_tail (a t suffix : string) :
  Str.endsWith t suffix = false ->
  (String.length suffix <= String.length t)%nat ->
  Str.endsWith (a ++ t) suffix = false.
Proof.
  intros Ht Hl. induction a as [|x a IH]; cbn [String.append Str.endsWith].
  - exact Ht.
  - rewrite IH, orb_false_r. apply String.eqb_neq. intros E.
    apply (f_equal String.length) in E. cbn in E.
    rewrite length_append in E. lia.
Qed.

Lemma reverse_append (a b : string) :
  Str.reverse (a ++ b) = Str.reverse b ++ Str.reverse a.
Proof.
  induction a as [|x a IH]; cbn [String.append Str.reverse].
  - now rewrite append_empty.
  - now rewrite IH, append_assoc.
Qed.

Lemma reverse_involutive (a : string) : Str.reverse (Str.reverse a) = a.
Proof.
  induction a as [|x a IH]; cbn [Str.reverse]; [reflexivity|].
  rewrite reverse_append, IH. reflexivity.
Qed.

(** A byte that is part of no white space stops the stripping. *)
Lemma strip_keeps (w1 : ascii -> bool) (w2 : ascii -> ascii -> bool)
    (w3 : ascii -> ascii -> ascii -> bool) (c : ascii) :
  w1 c = false ->
  (forall x, w2 c x = false) -> (forall x, w2 x c = false) ->
  (forall x y, w3 c x y = false) -> (forall x y, w3 x c y = false) ->
  (forall x y, w3 x y c = false) ->
  forall a t,
    Str.strip w1 w2 w3 (a ++ String c t) = Str.strip w1 w2 w3 a ++ String c t.
Proof.
  intros H1 H2a H2b H3a H3b H3c a t.
  remember (String.length a) as n eqn:L.
  assert (Hn : (String.length a <= n)%nat) by lia. clear L.
  revert a Hn. induction n as [|n IH]; intros a Hn.
  - destruct a; [|cbn in Hn; lia].
    cbn [String.append Str.strip]. rewrite H1.
    destruct t as [|b t]; [reflexivity|]. rewrite H2a.
    destruct t as [|d t]; [reflexivity|]. now rewrite H3a.
  - destruct a as [|x a].
    { cbn [String.append Str.strip]. rewrite H1.
      destruct t as [|b t]; [reflexivity|]. rewrite H2a.
      destruct t as [|d t]; [reflexivity|]. now rewrite H3a. }
    cbn [String.length] in Hn.
    cbn [String.append Str.strip].
    destruct (w1 x); [apply IH; lia|].
    destruct a as [|y a].
    { cbn [String.append]. rewrite H2b.
      destruct t as [|d t]; [reflexivity|]. now rewrite H3b. }
    cbn [String.length] in Hn. cbn [String.append].
    destruct (w2 x y); [apply IH; lia|].
    destruct a as [|z a].
    { cbn [String.append]. now rewrite H3c. }
    cbn [String.length] in Hn. cbn [String.append].
    destruct (w3 x y z); [apply IH; lia | reflexivity].
Qed.

Variable l : Str.Language.
Variable c : ascii.
Hypothesis c_is_ascii : Str.isAscii c = true.
Hypothesis c_is_no_space : Str.isSpace c = false.

Lemma ascii_below_128 : (nat_of_ascii c < 128)%nat.
Proof. unfold Str.isAscii in c_is_ascii. apply Nat.ltb_lt. exact c_is_ascii. Qed.

Lemma isSpace2_ascii (x : ascii) :
  Str.isSpace2 l c x = false /\ Str.isSpace2 l x c = false.
Proof.
  pose proof ascii_below_128 as B. unfold Str.isSpace2.
  destruct l; split; lia.
Qed.

Lemma isSpace3_ascii (x y : ascii) :
  Str.isSpace3 l c x y = false /\ Str.isSpace3 l x c y = false
  /\ Str.isSpace3 l x y c = false.
Proof.
  pose proof ascii_below_128 as B. unfold Str.isSpace3. cbv zeta.
  destruct l; repeat split; lia.
Qed.

Lemma trimStart_keeps (a t : string) :
  Str.trimStartOf l (a ++ String c t) = Str.trimStartOf l a ++ String c t.
Proof.
  unfold Str.trimStartOf. apply strip_keeps; intros; try assumption;
    try apply isSpace2_ascii; apply isSpace3_ascii.
Qed.

Lemma trimEnd_keeps (a t : string) :
  Str.trimEndOf l (a ++ String c t) = a ++ String c (Str.trimEndOf l t).
Proof.
  unfold Str.trimEndOf.
  rewrite reverse_append. cbn [Str.reverse]. rewrite append_assoc.
  cbn [String.append].
  rewrite (strip_keeps _ _ _ c); intros; try assumption;
    try apply isSpace2_ascii; try apply isSpace3_ascii.
  rewrite reverse_append. cbn [Str.reverse].
  rewrite reverse_involutive, append_assoc. reflexivity.
Qed.

End StringFacts.

Section TrimFacts.
Local Open Scope string_scope.

(** A line that starts with an ASCII character other than white space does
    not trim to the empty string. *)
Lemma trim_keeps_head (c : ascii) (s : string) :
  Str.isAscii c = true -> Str.isSpace c = false ->
  (Str.trim (String c s) =? "") = false.
Proof.
  intros A S. unfold Str.trim.
  pose proof (trimStart_keeps Str.JavaScript c A S "" s) as E1.
  pose proof (trimEnd_keeps Str.JavaScript c A S "" s) as E2.
  change (Str.trimStartOf Str.JavaScript "") with "" in E1.
  cbn [String.append] in E1, E2. rewrite E1, E2. reflexivity.
Qed.

(** The trimmed location text keeps the two commas and what is between
    them. *)
Lemma trim_location (r c s : string) :
  Str.TrimSpace (r ++ ", " ++ c ++ ", " ++ s) =
  Str.trimStartOf Str.Golang r ++ ", " ++ c ++ ","
    ++ Str.trimEndOf Str.Golang (" " ++ s).
Proof.
  unfold Str.TrimSpace.
  change (r ++ ", " ++ c ++ ", " ++ s)
    with (r ++ String "," (" " ++ c ++ ", " ++ s)).
  rewrite trimStart_keeps by reflexivity.
  change (Str.trimStartOf Str.Golang r ++ String "," (" " ++ c ++ ", " ++ s))
    with (Str.trimStartOf Str.Golang r ++ ", " ++ (c ++ String "," (" " ++ s))).
  rewrite <- (append_assoc ", " c), <- append_assoc.
  rewrite trimEnd_keeps by reflexivity.
  rewrite !append_assoc. reflexivity.
Qed.

Lemma trim_location_guard (r c s : string) :
  negb (Str.TrimSpace (r ++ ", " ++ c ++ ", " ++ s) =? ",,") = true.
Proof.
  apply negb_true_iff, String.eqb_neq. rewrite trim_location. intros E.
  apply (f_equal String.length) in E.
  rewrite !length_append in E. cbn in E. lia.
Qed.

(** The white space that the two languages strip: both strip the no-break
    space, Go alone strips U+0085, JavaScript alone strips U+FEFF. *)
Lemma white_space_of_the_two_languages :
  Str.TrimSpace ("PE" ++ NBSP) = "PE" /\ Str.trim ("PE" ++ NBSP) = "PE"
  /\ Str.TrimSpace (NEL ++ "PE") = "PE" /\ Str.trim (NEL ++ "PE") = NEL ++ "PE"
  /\ Str.TrimSpace ("PE" ++ BOM) = "PE" ++ BOM /\ Str.trim ("PE" ++ BOM) = "PE".
Proof. repeat split; vm_compute; reflexivity. Qed.

End TrimFacts.

(** ** The description builders *)

Section BuilderFacts.
Context {F : Type} `{Float64 F}.
Local Open Scope string_scope.

Lemma keepLine_text (label v : string) :
  isLabel label = true -> plain v = true ->
  TS.keepLine (label ++ v) = Go.nonEmpty v.
Proof.
  unfold isLabel, plain, TS.keepLine, Go.nonEmpty. intros Hl Hv.
  destruct label as [|c label]; [discriminate|].
  apply andb_prop in Hl. destruct Hl as [Hc Hl].
  apply andb_prop in Hc. destruct Hc as [Ha Hc].
  apply negb_true_iff in Hc. apply negb_true_iff in Hv.
  change (String c label ++ v) with (String c (label ++ v)).
  rewrite trim_keeps_head by assumption. simpl negb at 1. rewrite andb_true_l.
  change (String c (label ++ v)) with (String c label ++ v).
  destruct (String.eqb_spec v "") as [-> | Hne].
  - rewrite append_empty, Hl. reflexivity.
  - rewrite endsWith_label_text by assumption. reflexivity.
Qed.

Lemma digits_plain (d : Decimal.uint) :
  Str.endsWith (NilEmpty.string_of_uint d) ": " = false.
Proof.
  induction d; cbn [NilEmpty.string_of_uint Str.endsWith]; try rewrite IHd;
    reflexivity.
Qed.

Lemma ofZ_plain (n : Z) : plain (Str.ofZ n) = true.
Proof.
  unfold plain, Str.ofZ. apply negb_true_iff.
  assert (U : forall d, Str.endsWith (NilZero.string_of_uint d) ": " = false).
  { intros d. destruct d; try apply (digits_plain (_ d)). reflexivity. }
  destruct n as [|p|p]; cbn [Z.to_int NilZero.string_of_int].
  - reflexivity.
  - apply U.
  - cbn [Str.endsWith]. rewrite U. reflexivity.
Qed.

Lemma ofZ_nonEmpty (n : Z) : Go.nonEmpty (Str.ofZ n) = true.
Proof.
  unfold Go.nonEmpty, Str.ofZ.
  assert (U : forall d, (NilZero.string_of_uint d =? "")%string = false).
  { intros d. destruct d; reflexivity. }
  destruct n as [|p|p]; cbn [Z.to_int NilZero.string_of_int].
  - reflexivity.
  - now rewrite U.
  - reflexivity.
Qed.

Lemma keepLine_count (label : string) (n : Z) :
  isLabel label = true -> TS.keepLine (label ++ Str.ofZ n) = true.
Proof.
  intros Hl. rewrite keepLine_text by (exact Hl || apply ofZ_plain).
  apply ofZ_nonEmpty.
Qed.

(** What [${x || 0}] prints is never empty and never ends in a space. *)
Lemma shown_text (x : option F) :
  TS.showOrZero x <> "" /\ Str.endsWith (TS.showOrZero x) " " = false.
Proof.
  destruct x as [v|]; cbn [TS.showOrZero]; [|split; [discriminate | reflexivity]].
  destruct (truthy v); [apply jsToString_text | split; [discriminate | reflexivity]].
Qed.

(** A line that ends with what [${x || 0}] prints is kept. *)
Lemma keepLine_shown (label : string) (x : option F) :
  isLabel label = true -> TS.keepLine (label ++ TS.showOrZero x) = true.
Proof.
  intros Hl. destruct (shown_text x) as [N E].
  assert (P : plain (TS.showOrZero x) = true).
  { unfold plain. apply negb_true_iff.
    destruct (Str.endsWith (TS.showOrZero x) ": ") eqn:K; [|reflexivity].
    apply endsWith_tail in K. congruence. }
  rewrite keepLine_text by assumption.
  unfold Go.nonEmpty. apply negb_true_iff, String.eqb_neq. exact N.
Qed.

(** A safe room count is read by the Go driver, and JavaScript prints it
    as Go does. *)
Lemma safeCount_decodes (x : option F) :
  safeCount x = true ->
  exists n, Go.countOrZero x = Some n /\ TS.showOrZero x = Str.ofZ n.
Proof.
  destruct x as [v|]; cbn [safeCount Go.countOrZero TS.showOrZero].
  - destruct (toInt v) as [n|] eqn:E; [|discriminate]. intros S.
    exists n. split; [reflexivity|].
    destruct (toInt_exact v n E ltac:(lia)) as [-> ->].
    destruct (Z.eqb_spec n 0) as [-> | _]; reflexivity.
  - intros _. exists 0. split; reflexivity.
Qed.

Lemma filter_thrice_cons (f g h : string -> bool) (x : string)
    (l : list string) :
  filter h (filter g (filter f (x :: l))) =
  ((if f x && g x && h x then [x] else [])
   ++ filter h (filter g (filter f l)))%list.
Proof.
  simpl. destruct (f x); simpl; [destruct (g x); simpl; [destruct (h x)|]|];
    reflexivity.
Qed.

Lemma filter_appendIf (g : string -> bool) (c : bool) (x : string)
    (rest : list string) :
  filter g (Go.appendIf c x ++ rest)%list =
  ((if c && g x then [x] else []) ++ filter g rest)%list.
Proof. destruct c; simpl; [destruct (g x)|]; reflexivity. Qed.

Lemma adText_decodeAd (p : Property F) (g : Go.PropertyStruct F) :
  Go.Ad g = option_map Go.decodeAd (ad p) ->
  Go.adText Go.Title g = TS.orEmpty (TS.adField title p)
  /\ Go.adText Go.Description g = TS.orEmpty (TS.adField description p)
  /\ Go.adText Go.TransactionType g =
       TS.orEmpty (TS.adField transactionType p).
Proof.
  unfold Go.adText, TS.adField. intros ->.
  destruct (ad p); repeat split; reflexivity.
Qed.

(** What the Go driver makes of a document it can read. *)
Lemma decode_fields (p : Property F) (g : Go.PropertyStruct F) :
  Go.decode p = Some g ->
  Go.ID g = _id p
  /\ Go.Region g = TS.orEmpty (region p) /\ Go.City g = TS.orEmpty (city p)
  /\ Go.State g = TS.orEmpty (state p)
  /\ Go.Ad g = option_map Go.decodeAd (ad p)
  /\ Go.Area g = Go.orZero (area p)
  /\ Go.RentPrice g = Go.orZero (rentPrice p)
  /\ Go.AskingPrice g = Go.orZero (askingPrice p)
  /\ Go.TotalArea g = Go.orZero (totalArea p)
  /\ Go.countOrZero (suites p) = Some (Go.Suites g)
  /\ Go.countOrZero (bedrooms p) = Some (Go.Bedrooms g)
  /\ Go.countOrZero (bathrooms p) = Some (Go.Bathrooms g)
  /\ Go.countOrZero (parkingSpots p) = Some (Go.ParkingSpots g)
  /\ Go.IsExclusive g = match isExclusive p with Some b => b | None => false end
  /\ Go.Building g = TS.orEmpty (building p)
  /\ Go.Features g = features p
  /\ Go.PropertyType g = TS.orEmpty (propertyType p).
Proof.
  unfold Go.decode.
  destruct (Go.countOrZero (suites p)); [|discriminate].
  destruct (Go.countOrZero (bedrooms p)); [|discriminate].
  destruct (Go.countOrZero (bathrooms p)); [|discriminate].
  destruct (Go.countOrZero (parkingSpots p)); [|discriminate].
  intros E. injection E as <-. cbn. repeat split; reflexivity.
Qed.

Lemma eqb_append_same (l a b : string) : (l ++ a =? l ++ b) = (a =? b).
Proof.
  induction l as [|c l IH]; cbn [String.append String.eqb]; [reflexivity|].
  now rewrite Ascii.eqb_refl.
Qed.

Lemma prefix_append_same (l a b : string) :
  String.prefix (l ++ a) (l ++ b) = String.prefix a b.
Proof.
  induction l as [|c l IH]; cbn [String.append String.prefix]; [reflexivity|].
  destruct (ascii_dec c c); [exact IH | congruence].
Qed.

Lemma prefix_of_append (l v : string) : String.prefix l (l ++ v) = true.
Proof.
  induction l as [|c l IH]; cbn [String.append String.prefix].
  - destruct v; reflexivity.
  - destruct (ascii_dec c c); [exact IH | congruence].
Qed.

(** The numeral of an integer is the digit 0, or starts with a minus sign,
    exactly when the integer is not positive. *)
Lemma ofZ_idle (n : Z) :
  (Str.ofZ n =? "0") || String.prefix "-" (Str.ofZ n) = negb (0 <? n)%Z.
Proof.
  unfold Str.ofZ. destruct n as [|p|p]; cbn [Z.to_int NilZero.string_of_int].
  - reflexivity.
  - replace (0 <? Z.pos p)%Z with true by lia. cbn [negb].
    apply orb_false_iff. split.
    + apply String.eqb_neq. intros E.
      assert (D : Pos.to_uint p = Decimal.D0 Decimal.Nil).
      { pose proof (NilZero.usu (Pos.to_uint p) (Unsigned.to_uint_nonnil p)) as U.
        rewrite E in U. cbn in U. congruence. }
      exact (Unsigned.to_uint_nonzero p D).
    + destruct (Pos.to_uint p); reflexivity.
  - replace (0 <? Z.neg p)%Z with false by lia. cbn [negb].
    apply orb_true_iff. right. apply (prefix_of_append "-").
Qed.

Lemma idle_count (label : string) (n : Z) :
  In label countLabels -> idle (label ++ Str.ofZ n) = negb (0 <? n)%Z.
Proof.
  intros L. rewrite <- ofZ_idle. generalize (Str.ofZ n). intros x.
  unfold idle, countLabels in *. cbn [existsb].
  destruct L as [<- | [<- | [<- | [<- | []]]]];
    rewrite eqb_append_same, prefix_append_same;
    repeat match goal with
           | |- context [String.eqb (?a ++ x) ?b] =>
               replace (String.eqb (a ++ x) b) with false by reflexivity
           | |- context [String.prefix ?a (?b ++ x)] =>
               replace (String.prefix a (b ++ x)) with false by reflexivity
           end;
    rewrite ?orb_false_r, ?orb_false_l; reflexivity.
Qed.

(** The line of a text field, in the two builders. *)
Lemma textLine (label v : string) (g : string -> bool) :
  isLabel label = true -> plain v = true -> idle (label ++ v) = false ->
  (if TS.keepLine (label ++ v) && g (label ++ v) && negb (idle (label ++ v))
   then [label ++ v] else []) =
  (if Go.nonEmpty v && g (label ++ v) then [label ++ v] else []).
Proof.
  intros Hl Hv Hi. rewrite keepLine_text, Hi by assumption.
  now rewrite andb_true_r.
Qed.

(** The line of a room count, in the two builders. *)
Lemma countLine (label : string) (x : option F) (n : Z)
    (g : string -> bool) :
  isLabel label = true -> In label countLabels ->
  TS.showOrZero x = Str.ofZ n ->
  (if TS.keepLine (label ++ TS.showOrZero x)
      && g (label ++ TS.showOrZero x)
      && negb (idle (label ++ TS.showOrZero x))
   then [label ++ TS.showOrZero x] else []) =
  (if (0 <? n)%Z && g (label ++ Str.ofZ n)
   then [label ++ Str.ofZ n] else []).
Proof.
  intros Hl Hc ->. rewrite keepLine_count, idle_count by assumption.
  rewrite negb_involutive, andb_true_l, andb_comm. reflexivity.
Qed.

Lemma price_filtered (c1 c2 : bool) (x y : string) (rest : list string) :
  filter isSharedLine
    ((if c1 then [("Price: Rent $" ++ x)%string]
      else Go.appendIf c2 ("Price: Sale $" ++ y)%string)
     ++ rest)%list =
  ([] ++ filter isSharedLine rest)%list.
Proof.
  destruct c1, c2; reflexivity.
Qed.

Lemma exclusive_line (b : option bool) (rest : list string) :
  ([("Exclusive: " ++
      Go.boolToYesNo match b with Some v => v | None => false end)%string]
   ++ rest)%list =
  (Go.appendIf true
     ("Exclusive: " ++ match b with Some true => "Yes" | _ => "No" end)%string
   ++ rest)%list.
Proof. destruct b as [[|]|]; reflexivity. Qed.

(** C10, as amended.  On a record whose text fields are plain and whose
    room counts are safe, the Go port reads the record, and the lines the Go
    builder prints under the labels other than Location, Area, Total Area
    and Price are, in the same order, the lines the TypeScript builder
    prints under these labels, less the lines of the room counts that read
    zero or a negative number. *)
Theorem shared_lines_agree (p : Property F) :
  comparable p = true ->
  exists g : Go.PropertyStruct F,
    Go.decode p = Some g
    /\ filter isSharedLine (Go.descriptionLines g) =
       filter (fun line => negb (idle line))
         (filter isSharedLine (TS.descriptionLines p)).
Proof.
  intros Hc. unfold comparable in Hc. rewrite !andb_true_iff in Hc.
  destruct Hc as [[[[[[[[[P1 P2] P3] P4] P5] P6] Cb] Cs] Cba] Cp].
  destruct (safeCount_decodes _ Cb) as (nb & Db & Sb).
  destruct (safeCount_decodes _ Cs) as (ns & Ds & Ss).
  destruct (safeCount_decodes _ Cba) as (nba & Dba & Sba).
  destruct (safeCount_decodes _ Cp) as (np & Dp & Sp).
  destruct (Go.decode p) as [g|] eqn:E.
  2:{ unfold Go.decode in E. rewrite Db, Ds, Dba, Dp in E. discriminate E. }
  exists g. split; [reflexivity|].
  destruct (decode_fields p g E)
    as (_ & _ & _ & _ & Ad & _ & _ & _ & _ & S1 & S2 & S3 & S4 & Ex & Bu & Fe
        & Pt).
  rewrite Ds in S1. injection S1 as ->. rewrite Db in S2. injection S2 as ->.
  rewrite Dba in S3. injection S3 as ->. rewrite Dp in S4. injection S4 as ->.
  destruct (adText_decodeAd p g Ad) as (T1 & T2 & T3).
  unfold TS.descriptionLines, TS.templateLines, Go.descriptionLines.
  cbv zeta. rewrite T1, T2, T3, Ex, Bu, Fe, Pt.
  rewrite !filter_thrice_cons.
  rewrite exclusive_line.
  rewrite <- (app_nil_r (Go.appendIf _ ("Features: " ++ _))).
  rewrite !filter_appendIf, price_filtered, !filter_appendIf.
  cbn [filter].
  repeat (apply (f_equal2 (@app string))); try reflexivity;
    try (symmetry; apply textLine; [reflexivity | assumption | reflexivity]);
    try (symmetry; apply countLine;
         [reflexivity | cbn; tauto | assumption]);
    try (destruct (isExclusive p) as [[|]|]; reflexivity);
    repeat match goal with
           | |- context [isSharedLine ?x] =>
               replace (isSharedLine x) with false by reflexivity
           end;
    rewrite ?andb_false_r; reflexivity.
Qed.

(** The TypeScript builder prints an area that is absent or zero. *)
Lemma ts_prints_zero_area (p : Property F) :
  TS.showOrZero (area p) = "0" ->
  In "Area: 0 mÂ²" (TS.descriptionLines p).
Proof.
  intros E. unfold TS.descriptionLines. apply filter_In. split.
  - unfold TS.templateLines. rewrite E. do 5 right. left. reflexivity.
  - reflexivity.
Qed.

(** The TypeScript builder prints a bedroom count that is absent or zero. *)
Lemma ts_prints_zero_bedrooms (p : Property F) :
  TS.showOrZero (bedrooms p) = "0" ->
  In "Bedrooms: 0" (TS.descriptionLines p).
Proof.
  intros E. unfold TS.descriptionLines. apply filter_In. split.
  - unfold TS.templateLines. rewrite E. do 8 right. left. reflexivity.
  - reflexivity.
Qed.

End BuilderFacts.

Lemma shared_lines_agree_witness :
  comparable emptyLot = true /\
  exists g : Go.PropertyStruct SafeInteger,
    Go.decode emptyLot = Some g
    /\ filter isSharedLine (Go.descriptionLines g) =
       filter (fun line => negb (idle line))
         (filter isSharedLine (TS.descriptionLines emptyLot)).
Proof.
  split; [reflexivity | apply (shared_lines_agree emptyLot); reflexivity].
Defined.

(** C10, as stated, fails: on a document that has nothing but its
    identifier the TypeScript builder prints nine lines and the Go builder
    two. *)
Lemma builders_differ :
  ~ (forall p : Property SafeInteger,
       Some (TS.createPropertyDescription p) =
       option_map Go.createPropertyDescription (Go.decode p)).
Proof.
  intros E. specialize (E (bareProperty "a")). vm_compute in E.
  discriminate E.
Qed.

(** C2.  A zero area and a zero bedroom count are printed by the TypeScript
    builder, as are the absent counts; the Go builder leaves all of them
    out. *)
Theorem zero_fields_are_printed :
  TS.createPropertyDescription emptyLot =
  Str.join LF
    [ "Title: Lot"; "Location: Centro, Recife, PE"; "Property Type: Land";
      "Transaction Type: sale"; "Area: 0 mÂ²"; "Total Area: 300 mÂ²";
      "Price: Sale $90000"; "Bedrooms: 0"; "Suites: 0"; "Bathrooms: 0";
      "Parking Spots: 0"; "Exclusive: Yes" ]
  /\ option_map Go.createPropertyDescription (Go.decode emptyLot) =
     Some
       (Str.join LF
          [ "Title: Lot"; "Location: Centro, Recife, PE";
            "Property Type: Land"; "Transaction Type: sale";
            "Total Area: 300.00 m²"; "Price: Sale $90000.00";
            "Exclusive: Yes" ]).
Proof. split; vm_compute; reflexivity. Qed.

(** C9.  The TypeScript builder tests the transaction type with the case it
    has: on [Rent] it prints the asking price as a sale price, where the Go
    builder prints the rent. *)
Theorem capitalised_rent_is_priced_as_sale :
  TS.isRent rental = false
  /\ In "Price: Sale $450000" (TS.descriptionLines rental)
  /\ ~ In "Price: Rent $1500" (TS.descriptionLines rental)
  /\ option_map Go.isRent (Go.decode rental) = Some true
  /\ exists g, Go.decode rental = Some g
               /\ In "Price: Rent $1500.00" (Go.descriptionLines g).
Proof.
  split; [reflexivity|]. split; [vm_compute; tauto|]. split.
  { vm_compute. intros K.
    repeat (destruct K as [K | K]; [discriminate K|]). exact K. }
  split; [reflexivity|].
  eexists. split; [reflexivity|]. vm_compute. tauto.
Qed.
(** ** The embedding client and the loop body *)

Section ClientFacts.
Context {F : Type}.
Variable env : Env.

(** One turn of the loop. *)
Lemma retryLoop_turn (fuel : nat) (text : string) (maxRetries retries : Z)
    (w : World F) :
  retries < maxRetries ->
  Client.retryLoop env (S fuel) text maxRetries retries w =
  match embedContent env (List.length (embedCalls w)) text with
  | Some values => Some (Some values, called text w)
  | None =>
      if retries + 1 >=? maxRetries
      then Some (None, logged (FailedAfterAttempts maxRetries) (called text w))
      else Client.retryLoop env fuel text maxRetries (retries + 1)
             (slept (Client.backoff (retries + 1)
                       (mathRandom env (draws (called text w))))
                (drew (called text w)))
  end.
Proof.
  intros Hlt. cbn [Client.retryLoop].
  replace (retries <? maxRetries) with true by lia.
  unfold bind, callEmbedContent.
  destruct (embedContent env (List.length (embedCalls w)) text); [reflexivity|].
  destruct (retries + 1 >=? maxRetries); reflexivity.
Qed.

(** The loop ends within [maxRetries - retries] turns. *)
Lemma retryLoop_total (fuel : nat) (text : string) (maxRetries retries : Z)
    (w : World F) :
  (0 < fuel)%nat ->
  maxRetries - retries < Z.of_nat fuel ->
  exists r w', Client.retryLoop env fuel text maxRetries retries w = Some (r, w').
Proof.
  revert retries w. induction fuel as [|fuel IH]; intros retries w H0 Hf; [lia|].
  destruct (Z.ltb_spec retries maxRetries) as [Hlt | Hge].
  - rewrite retryLoop_turn by exact Hlt.
    destruct (embedContent env _ text); [eauto|].
    destruct (retries + 1 >=? maxRetries) eqn:G; [eauto|].
    apply IH; lia.
  - cbn [Client.retryLoop]. replace (retries <? maxRetries) with false by lia.
    unfold ret. eauto.
Qed.

(** What the loop never touches. *)
Lemma retryLoop_frame (fuel : nat) (text : string) (maxRetries retries : Z)
    (w w' : World F) (r : option Vector) :
  Client.retryLoop env fuel text maxRetries retries w = Some (r, w') ->
  target w' = target w /\ insertCalls w' = insertCalls w /\
  handed w' = handed w /\ driverCalls w' = driverCalls w.
Proof.
  revert retries w. induction fuel as [|fuel IH]; intros retries w E;
    [discriminate E|].
  destruct (Z.ltb_spec retries maxRetries) as [Hlt | Hge].
  - rewrite retryLoop_turn in E by exact Hlt.
    destruct (embedContent env _ text).
    + injection E as _ <-. auto.
    + destruct (retries + 1 >=? maxRetries).
      * injection E as _ <-. auto.
      * apply IH in E. exact E.
  - cbn [Client.retryLoop] in E.
    replace (retries <? maxRetries) with false in E by lia.
    injection E as _ <-. auto.
Qed.

(** [k] failures and then a success: [k + 1] calls, [k] sleeps. *)
Lemma retryLoop_succeeds (k : nat) (fuel : nat) (text : string)
    (maxRetries retries : Z) (w : World F) (v : Vector) :
  retries + Z.of_nat k < maxRetries ->
  (k < fuel)%nat ->
  (forall i, (i < k)%nat ->
     embedContent env (List.length (embedCalls w) + i) text = None) ->
  embedContent env (List.length (embedCalls w) + k) text = Some v ->
  exists w',
    Client.retryLoop env fuel text maxRetries retries w = Some (Some v, w')
    /\ embedCalls w' = embedCalls w ++ repeat text (S k)
    /\ List.length (sleeps w') = (List.length (sleeps w) + k)%nat
    /\ stderr w' = stderr w.
Proof.
  revert fuel retries w. induction k as [|k IH]; intros fuel retries w Hk Hf Hfail Hok.
  - destruct fuel as [|fuel]; [lia|].
    rewrite retryLoop_turn by lia. rewrite Nat.add_0_r in Hok. rewrite Hok.
    eexists. split; [reflexivity|]. simpl. repeat split; lia.
  - destruct fuel as [|fuel]; [lia|].
    rewrite retryLoop_turn by lia.
    rewrite <- (Nat.add_0_r (List.length (embedCalls w))).
    rewrite Hfail by lia.
    replace (retries + 1 >=? maxRetries) with false by lia.
    edestruct (IH fuel (retries + 1)) as (w' & E & C & S & L); cycle 4.
    + rewrite E. exists w'. split; [reflexivity|]. simpl in C, S, L.
      rewrite C, S, L. rewrite <- app_assoc. simpl.
      repeat split; try lia. rewrite length_app. simpl. lia.
    + lia.
    + lia.
    + intros i Hi. simpl. rewrite length_app. simpl.
      replace (List.length (embedCalls w) + 1 + i)%nat
        with (List.length (embedCalls w) + S i)%nat by lia.
      apply Hfail. lia.
    + simpl. rewrite length_app. simpl.
      replace (List.length (embedCalls w) + 1 + k)%nat
        with (List.length (embedCalls w) + S k)%nat by lia.
      exact Hok.
Qed.

(** Nothing but failures: the loop gives up at the call that brings
    [retries] to [maxRetries]. *)
Lemma retryLoop_exhausts (n : nat) (fuel : nat) (text : string)
    (maxRetries retries : Z) (w : World F) :
  Z.of_nat n = maxRetries - retries ->
  (1 <= n <= fuel)%nat ->
  (forall i, (i < n)%nat ->
     embedContent env (List.length (embedCalls w) + i) text = None) ->
  exists w',
    Client.retryLoop env fuel text maxRetries retries w = Some (None, w')
    /\ embedCalls w' = embedCalls w ++ repeat text n
    /\ List.length (sleeps w') = (List.length (sleeps w) + (n - 1))%nat
    /\ stderr w' = stderr w ++ [FailedAfterAttempts maxRetries].
Proof.
  revert fuel retries w. induction n as [|n IH]; intros fuel retries w Hn Hf Hfail;
    [lia|].
  destruct fuel as [|fuel]; [lia|].
  rewrite retryLoop_turn by lia.
  rewrite <- (Nat.add_0_r (List.length (embedCalls w))).
  rewrite Hfail by lia.
  destruct n as [|n].
  - replace (retries + 1 >=? maxRetries) with true by lia.
    eexists. split; [reflexivity|]. simpl. repeat split; lia.
  - replace (retries + 1 >=? maxRetries) with false by lia.
    edestruct (IH fuel (retries + 1)) as (w' & E & C & S & L); cycle 3.
    + rewrite E. exists w'. split; [reflexivity|]. simpl in C, S, L.
      rewrite C, S, L. rewrite <- app_assoc. simpl.
      repeat split; try lia. rewrite length_app. simpl. lia.
    + lia.
    + lia.
    + intros i Hi. simpl. rewrite length_app. simpl.
      replace (List.length (embedCalls w) + 1 + i)%nat
        with (List.length (embedCalls w) + S i)%nat by lia.
      apply Hfail. lia.
Qed.

End ClientFacts.

Section WorkerFacts.
Context {F : Type} `{Float64 F}.
Variable env : Env.

Lemma client_exhaustion (text : string) (w : World F) :
  (forall i, (i < 5)%nat ->
     embedContent env (List.length (embedCalls w) + i) text = None) ->
  exists w',
    Client.generateEmbeddingWithRetry env text 5 w = Some (None, w')
    /\ embedCalls w' = embedCalls w ++ repeat text 5
    /\ List.length (sleeps w') = (List.length (sleeps w) + 4)%nat
    /\ handed w' = handed w /\ insertCalls w' = insertCalls w
    /\ target w' = target w.
Proof.
  intros Hfail. unfold Client.generateEmbeddingWithRetry.
  destruct (retryLoop_exhausts env 5 (S (Z.to_nat 5)) text 5 0 w)
    as (w' & E & C & S & _); [reflexivity | simpl; lia | exact Hfail |].
  exists w'. destruct (retryLoop_frame env _ _ _ _ _ _ _ E) as (T & I & Hh & _).
  repeat split; assumption.
Qed.

Lemma client_success (text : string) (w : World F) (k : nat) (v : Vector) :
  (k < 5)%nat ->
  (forall i, (i < k)%nat ->
     embedContent env (List.length (embedCalls w) + i) text = None) ->
  embedContent env (List.length (embedCalls w) + k) text = Some v ->
  exists w',
    Client.generateEmbeddingWithRetry env text 5 w = Some (Some v, w')
    /\ embedCalls w' = embedCalls w ++ repeat text (S k)
    /\ List.length (sleeps w') = (List.length (sleeps w) + k)%nat
    /\ handed w' = handed w /\ insertCalls w' = insertCalls w
    /\ target w' = target w.
Proof.
  intros Hk Hfail Hok. unfold Client.generateEmbeddingWithRetry.
  destruct (retryLoop_succeeds env k (S (Z.to_nat 5)) text 5 0 w v)
    as (w' & E & C & S & _); [lia | simpl; lia | exact Hfail | exact Hok |].
  exists w'. destruct (retryLoop_frame env _ _ _ _ _ _ _ E) as (T & I & Hh & _).
  repeat split; assumption.
Qed.

(** The loop body on a record the worker owns, whose lookup resolves and
    finds nothing, once the embedding client has answered: without a vector
    nothing changes for the batch writer; with a vector the record joins
    the batch, and the batch is sent when it has reached its size, emptied
    when the target accepts it and kept when it does not. *)
Lemma scanOne_fresh (workerId totalWorkers : Z) (st : Worker.Loop F)
    (p : Property F) (w w1 : World F) (r : option Vector) :
  reaches env workerId totalWorkers st p w ->
  Client.generateEmbeddingWithRetry env (TS.createPropertyDescription p) 5
    (requested (FindOne (_id p)) w) = Some (r, w1) ->
  exists st' w',
    Worker.scanOne env workerId totalWorkers st p w = Some (Resolved st', w')
    /\ embedCalls w' = embedCalls w1
    /\ Worker.propertiesProcessed st' = Worker.propertiesProcessed st + 1
    /\ match r with
       | Some v =>
           let batch := Worker.batchDocuments st ++ [enrichedWith p v] in
           handed w' = handed w1 ++ [enrichedWith p v]
           /\ if Z.of_nat (List.length batch) <? Worker.BATCH_SIZE
              then Worker.batchDocuments st' = batch
                   /\ insertCalls w' = insertCalls w1
                   /\ target w' = target w1
              else let ok := insertSucceeds env (List.length (insertCalls w1)) in
                   Worker.batchDocuments st' = (if ok then [] else batch)
                   /\ insertCalls w' = insertCalls w1 ++ [(batch, ok)]
                   /\ target w' = (if ok then target w1 ++ batch else target w1)
       | None =>
           handed w' = handed w1
           /\ Worker.batchDocuments st' = Worker.batchDocuments st
           /\ insertCalls w' = insertCalls w1
           /\ target w' = target w1
       end.
Proof.
  intros (Hown & Hres & Habs) E. unfold Worker.scanOne.
  rewrite Z.add_simpl_r, Hown. cbn [negb].
  unfold bind at 1. unfold findOne, bind, driverCall. rewrite Hres.
  unfold ret. cbn [target requested]. rewrite Habs, E.
  destruct r as [v|].
  - unfold push. fold (enrichedWith p v). cbv zeta.
    destruct (Z.ltb_spec
                (Z.of_nat (List.length (Worker.batchDocuments st ++ [enrichedWith p v])))
                Worker.BATCH_SIZE) as [Small | Full].
    + replace (Z.of_nat (List.length (Worker.batchDocuments st ++ [enrichedWith p v]))
                 >=? Worker.BATCH_SIZE) with false by lia.
      do 2 eexists. split; [reflexivity|]. cbn. repeat split.
    + replace (Z.of_nat (List.length (Worker.batchDocuments st ++ [enrichedWith p v]))
                 >=? Worker.BATCH_SIZE) with true by lia.
      unfold insertMany. cbn [insertCalls pushed].
      destruct (insertSucceeds env _); unfold consoleError;
        do 2 eexists; (split; [reflexivity|]); cbn; repeat split.
  - unfold consoleError. do 2 eexists. split; [reflexivity|].
    cbn. repeat split.
Qed.

(** C6.  When the provider fails five times in a row the embedding client
    has called it exactly five times and returns a failure, and the worker
    hands nothing to the batch writer for that record: the batch, the bulk
    inserts and the target stay as they were.  When the provider fails
    [k < 5] times and then answers, the client has called it exactly
    [k + 1] times and returns the answer, and the worker hands the record
    with that vector to the batch writer: the record joins the batch, and
    when the batch has reached its size the whole batch, the record last,
    is sent to the target in one bulk insert. *)
Theorem retry_exhaustion_and_success :
  (forall (text : string) (w : World F),
     failsFrom env (List.length (embedCalls w)) 5 text ->
     exists w',
       Client.generateEmbeddingWithRetry env text 5 w = Some (None, w')
       /\ embedCalls w' = embedCalls w ++ repeat text 5)
  /\ (forall (text : string) (w : World F) (k : nat) (v : Vector),
        (k < 5)%nat ->
        failsFrom env (List.length (embedCalls w)) k text ->
        embedContent env (List.length (embedCalls w) + k) text = Some v ->
        exists w',
          Client.generateEmbeddingWithRetry env text 5 w = Some (Some v, w')
          /\ embedCalls w' = embedCalls w ++ repeat text (S k))
  /\ (forall (workerId totalWorkers : Z) (st : Worker.Loop F)
             (p : Property F) (w : World F),
        reaches env workerId totalWorkers st p w ->
        failsFrom env (List.length (embedCalls w)) 5
          (TS.createPropertyDescription p) ->
        exists st' w',
          Worker.scanOne env workerId totalWorkers st p w
            = Some (Resolved st', w')
          /\ embedCalls w' =
             embedCalls w ++ repeat (TS.createPropertyDescription p) 5
          /\ handed w' = handed w
          /\ Worker.batchDocuments st' = Worker.batchDocuments st
          /\ insertCalls w' = insertCalls w
          /\ target w' = target w)
  /\ (forall (workerId totalWorkers : Z) (st : Worker.Loop F)
             (p : Property F) (w : World F) (k : nat) (v : Vector),
        reaches env workerId totalWorkers st p w ->
        (k < 5)%nat ->
        failsFrom env (List.length (embedCalls w)) k
          (TS.createPropertyDescription p) ->
        embedContent env (List.length (embedCalls w) + k)
          (TS.createPropertyDescription p) = Some v ->
        exists st' w',
          let batch :=
            Worker.batchDocuments st ++ [{| metadata := p; embeddings := v |}] in
          Worker.scanOne env workerId totalWorkers st p w
            = Some (Resolved st', w')
          /\ embedCalls w' =
             embedCalls w ++ repeat (TS.createPropertyDescription p) (S k)
          /\ handed w' = handed w ++ [{| metadata := p; embeddings := v |}]
          /\ if Z.of_nat (List.length batch) <? Worker.BATCH_SIZE
             then Worker.batchDocuments st' = batch
                  /\ insertCalls w' = insertCalls w
                  /\ target w' = target w
             else let ok := insertSucceeds env (List.length (insertCalls w)) in
                  Worker.batchDocuments st' = (if ok then [] else batch)
                  /\ insertCalls w' = insertCalls w ++ [(batch, ok)]
                  /\ target w' = (if ok then target w ++ batch else target w)).
Proof.
  repeat split.
  - intros text w Hfail.
    destruct (client_exhaustion text w Hfail) as (w' & E & C & _).
    exists w'. auto.
  - intros text w k v Hk Hfail Hok.
    destruct (client_success text w k v Hk Hfail Hok) as (w' & E & C & _).
    exists w'. auto.
  - intros workerId totalWorkers st p w R Hfail.
    destruct (client_exhaustion _ (requested (FindOne (_id p)) w) Hfail)
      as (w1 & E & C & _ & Hh & Hi & Ht).
    destruct (scanOne_fresh workerId totalWorkers st p w w1 None R E)
      as (st' & w' & E' & C' & _ & Hh' & Hb & Hi' & Ht').
    exists st', w'. cbn [requested embedCalls handed insertCalls target] in *.
    repeat split; congruence.
  - intros workerId totalWorkers st p w k v R Hk Hfail Hok.
    destruct (client_success _ (requested (FindOne (_id p)) w) k v Hk Hfail Hok)
      as (w1 & E & C & _ & Hh & Hi & Ht).
    destruct (scanOne_fresh workerId totalWorkers st p w w1 (Some v) R E)
      as (st' & w' & E' & C' & _ & Hh' & Hb).
    exists st', w'. cbn [requested embedCalls handed insertCalls target] in *.
    cbv zeta in *. fold (enrichedWith p v).
    rewrite Hi, Ht in Hb. rewrite Hh in Hh'.
    split; [exact E'|]. split; [congruence|]. split; [exact Hh'|]. exact Hb.
Qed.

End WorkerFacts.

Lemma retry_exhaustion_and_success_witness :
  (exists w',
     Client.generateEmbeddingWithRetry failingProvider "text" 5
       (freshWorld (F:=SafeInteger) []) = Some (None, w')
     /\ embedCalls w' = repeat "text" 5)
  /\ (exists w',
        Client.generateEmbeddingWithRetry (flakyProvider 2) "text" 5
          (freshWorld (F:=SafeInteger) []) = Some (Some unitVector, w')
        /\ embedCalls w' = repeat "text" 3)
  /\ (exists st' w',
        Worker.scanOne failingProvider 1 1 Worker.start rental (freshWorld [])
          = Some (Resolved st', w')
        /\ embedCalls w' = repeat (TS.createPropertyDescription rental) 5
        /\ handed w' = []
        /\ Worker.batchDocuments st' = []
        /\ insertCalls w' = []
        /\ target w' = [])
  /\ (exists st' w',
        Worker.scanOne (flakyProvider 2) 1 1 Worker.start rental
          (freshWorld []) = Some (Resolved st', w')
        /\ embedCalls w' = repeat (TS.createPropertyDescription rental) 3
        /\ handed w' = [{| metadata := rental; embeddings := unitVector |}]
        /\ Worker.batchDocuments st' =
           [{| metadata := rental; embeddings := unitVector |}]
        /\ insertCalls w' = []
        /\ target w' = []).
Proof.
  repeat split.
  - apply (proj1 (retry_exhaustion_and_success (F:=SafeInteger) failingProvider)
             "text" (freshWorld [])).
    intros i Hi. reflexivity.
  - apply (proj1 (proj2 (retry_exhaustion_and_success (F:=SafeInteger)
                           (flakyProvider 2)))
             "text" (freshWorld []) 2%nat unitVector).
    + lia.
    + intros i Hi. simpl. destruct i as [|[|i]]; [reflexivity | reflexivity | lia].
    + reflexivity.
  - apply (proj1 (proj2 (proj2 (retry_exhaustion_and_success failingProvider)))
             1 1 Worker.start rental (freshWorld [])).
    + repeat split.
    + intros i Hi. reflexivity.
  - apply (proj2 (proj2 (proj2 (retry_exhaustion_and_success (flakyProvider 2))))
             1 1 Worker.start rental (freshWorld []) 2%nat unitVector).
    + repeat split.
    + lia.
    + intros i Hi. simpl. destruct i as [|[|i]]; [reflexivity | reflexivity | lia].
    + reflexivity.
Defined.

(** ** The scan *)

Section ScanFacts.
Context {F : Type} `{Float64 F}.
Variable env : Env.
Variables workerId totalWorkers : Z.

Lemma client_total (text : string) (w : World F) :
  exists r w', Client.generateEmbeddingWithRetry env text 5 w = Some (r, w').
Proof.
  unfold Client.generateEmbeddingWithRetry.
  apply retryLoop_total; simpl; lia.
Qed.

(** The loop body always ends.  It leaves the loop only with the error of a
    lookup that failed; otherwise it moves the scan position by one and
    counts the record when the worker owns the position. *)
Lemma scanOne_counts (st : Worker.Loop F) (p : Property F) (w : World F) :
  exists r w',
    Worker.scanOne env workerId totalWorkers st p w = Some (r, w')
    /\ match r with
       | Resolved st' =>
           Worker.currentIndex st' = Worker.currentIndex st + 1
           /\ Worker.propertiesProcessed st' =
              Worker.propertiesProcessed st +
              (if Worker.ownedBy (Worker.currentIndex st) workerId totalWorkers
               then 1 else 0)
       | Rejected reason => driverFailedWith env reason
       end.
Proof.
  unfold Worker.scanOne. rewrite Z.add_simpl_r.
  destruct (Worker.ownedBy (Worker.currentIndex st) workerId totalWorkers);
    cbn [negb].
  2:{ unfold ret. do 2 eexists. split; [reflexivity|]. simpl. lia. }
  unfold bind at 1. unfold findOne, bind, driverCall.
  destruct (driverError env _ _) as [reason|] eqn:D.
  { unfold ret. do 2 eexists. split; [reflexivity|]. cbn. do 2 eexists. exact D. }
  unfold ret. destruct (find _ _).
  { do 2 eexists. split; [reflexivity|]. simpl. lia. }
  destruct (client_total (TS.createPropertyDescription p)
              (requested (FindOne (_id p)) w)) as (r & w1 & E).
  rewrite E. destruct r as [v|].
  - unfold push.
    destruct (Z.of_nat _ >=? Worker.BATCH_SIZE).
    + unfold insertMany.
      destruct (insertSucceeds env _); unfold consoleError;
        do 2 eexists; (split; [reflexivity|]); simpl; lia.
    + do 2 eexists. split; [reflexivity|]. simpl. lia.
  - unfold consoleError. do 2 eexists. split; [reflexivity|].
    simpl. lia.
Qed.

Lemma positions_cons (from : Z) (len : nat) :
  map (fun k => from + Z.of_nat k) (seq 0 (S len)) =
  from :: map (fun k => from + 1 + Z.of_nat k) (seq 0 len).
Proof.
  cbn [seq map]. f_equal; [lia|].
  rewrite <- seq_shift, map_map. apply map_ext. intros k. lia.
Qed.

(** The scan always ends: with the error of a lookup that failed, or having
    counted the owned positions it passed. *)
Lemma scan_counts (docs : list (Property F)) (st : Worker.Loop F)
    (w : World F) :
  exists r w',
    Worker.scan env workerId totalWorkers st docs w = Some (r, w')
    /\ match r with
       | Resolved st' =>
           Worker.currentIndex st' =
           Worker.currentIndex st + Z.of_nat (List.length docs)
           /\ Worker.propertiesProcessed st' =
              Worker.propertiesProcessed st +
              Z.of_nat
                (List.length
                   (filter (fun i => Worker.ownedBy i workerId totalWorkers)
                      (map (fun k => Worker.currentIndex st + Z.of_nat k)
                         (seq 0 (List.length docs)))))
       | Rejected reason => driverFailedWith env reason
       end.
Proof.
  revert st w. induction docs as [|p docs IH]; intros st w.
  - exists (Resolved st), w. simpl. repeat split; lia.
  - destruct (scanOne_counts st p w) as (r1 & w1 & E1 & R1).
    cbn [Worker.scan]. unfold bind at 1. rewrite E1.
    destruct r1 as [st1 | reason].
    2:{ unfold ret. do 2 eexists. split; [reflexivity | exact R1]. }
    destruct R1 as (I1 & P1).
    destruct (IH st1 w1) as (r & w' & E & R).
    exists r, w'. split; [exact E|].
    destruct r as [st' | reason]; [|exact R]. destruct R as (I & P).
    cbn [List.length]. rewrite positions_cons. cbn [filter].
    rewrite I, P, I1, P1.
    destruct (Worker.ownedBy (Worker.currentIndex st) workerId totalWorkers);
      cbn [List.length]; split; lia.
Qed.

(** How [processProperties] ends: it returns the count of the scan, or it
    throws the fault of the cursor or the error of a call of the driver. *)
Lemma processProperties_ends (cursor : Worker.Cursor F) (w : World F) :
  exists c w',
    Worker.processProperties env workerId totalWorkers cursor w = Some (c, w')
    /\ match c with
       | Worker.Returned count =>
           Worker.fault cursor = None
           /\ count =
              ownedCount (List.length (Worker.documents cursor))
                workerId totalWorkers
       | Worker.Thrown reason =>
           Worker.fault cursor = Some reason \/ driverFailedWith env reason
       end.
Proof.
  unfold Worker.processProperties, Worker.attempt.
  unfold bind at 1. unfold bind at 1. unfold perform, bind, driverCall.
  destruct (driverError env _ CreateIndex) as [reason|] eqn:D.
  { unfold ret, consoleError. do 2 eexists. split; [reflexivity|].
    right. do 2 eexists. exact D. }
  unfold ret.
  destruct (scan_counts (Worker.documents cursor) Worker.start
              (requested CreateIndex w)) as (r & w1 & E & R).
  rewrite E. destruct r as [st | reason].
  2:{ unfold consoleError. do 2 eexists. split; [reflexivity|]. right. exact R. }
  destruct (Worker.fault cursor) as [reason|].
  { unfold consoleError. do 2 eexists. split; [reflexivity|]. left. reflexivity. }
  destruct R as (_ & P).
  assert (Q : Worker.propertiesProcessed st =
              ownedCount (List.length (Worker.documents cursor))
                workerId totalWorkers) by exact P.
  destruct (Z.of_nat (List.length (Worker.batchDocuments st)) >? 0).
  - unfold insertMany.
    destruct (insertSucceeds env _); unfold consoleError;
      do 2 eexists; (split; [reflexivity|]); split; [reflexivity | exact Q
                                                     | reflexivity | exact Q].
  - do 2 eexists. split; [reflexivity|]. split; [reflexivity | exact Q].
Qed.

(** The loop body on a record that has a target entry: nothing happens to
    the provider, to the batch writer or to the target, and the batch stays
    as it is. *)
Lemma scanOne_enriched (st : Worker.Loop F) (p : Property F) (w : World F) :
  find (fun d => (_id (metadata d) =? _id p)%string) (target w) <> None ->
  exists r w',
    Worker.scanOne env workerId totalWorkers st p w = Some (r, w')
    /\ quiet w w'
    /\ match r with
       | Resolved st' => Worker.batchDocuments st' = Worker.batchDocuments st
       | Rejected _ => True
       end.
Proof.
  intros Hfound. unfold Worker.scanOne, quiet.
  destruct (negb _).
  - unfold ret. do 2 eexists. split; [reflexivity|]. repeat split.
  - unfold bind at 1. unfold findOne, bind, driverCall.
    destruct (driverError env _ _) as [reason|].
    { unfold ret. do 2 eexists. split; [reflexivity|]. repeat split. }
    unfold ret. cbn [target requested].
    destruct (find _ (target w)); [|congruence].
    do 2 eexists. split; [reflexivity|]. repeat split.
Qed.

Lemma scan_enriched (docs : list (Property F)) (st : Worker.Loop F)
    (w : World F) :
  allEnriched docs w ->
  exists r w',
    Worker.scan env workerId totalWorkers st docs w = Some (r, w')
    /\ quiet w w'
    /\ match r with
       | Resolved st' => Worker.batchDocuments st' = Worker.batchDocuments st
       | Rejected _ => True
       end.
Proof.
  revert st w. induction docs as [|p docs IH]; intros st w Hall.
  - exists (Resolved st), w. unfold quiet. repeat split.
  - destruct (scanOne_enriched st p w) as (r1 & w1 & E1 & Q1 & B1).
    { apply Hall. left. reflexivity. }
    cbn [Worker.scan]. unfold bind at 1. rewrite E1.
    destruct r1 as [st1 | reason].
    2:{ unfold ret. do 2 eexists. split; [reflexivity|]. split; [exact Q1 | exact I]. }
    destruct (IH st1 w1) as (r & w' & E & Q & B).
    { intros q Hq. destruct Q1 as (_ & _ & _ & T). rewrite T.
      apply Hall. right. exact Hq. }
    exists r, w'. split; [exact E|]. split.
    + unfold quiet in *. intuition congruence.
    + destruct r; [congruence | exact I].
Qed.

(** A worker over a source that is enriched already: no provider call, no
    bulk insert, nothing handed to the batch writer. *)
Lemma processProperties_enriched (cursor : Worker.Cursor F) (w : World F) :
  allEnriched (Worker.documents cursor) w ->
  exists c w',
    Worker.processProperties env workerId totalWorkers cursor w = Some (c, w')
    /\ quiet w w'.
Proof.
  intros Hall. unfold Worker.processProperties, Worker.attempt.
  unfold bind at 1. unfold bind at 1. unfold perform, bind, driverCall.
  destruct (driverError env _ CreateIndex) as [reason|].
  { unfold ret, consoleError. do 2 eexists. split; [reflexivity|].
    unfold quiet. repeat split. }
  unfold ret.
  destruct (scan_enriched (Worker.documents cursor) Worker.start
              (requested CreateIndex w) Hall) as (r & w1 & E & Q & B).
  rewrite E. destruct r as [st | reason].
  2:{ unfold consoleError. do 2 eexists. split; [reflexivity|]. exact Q. }
  destruct (Worker.fault cursor) as [reason|].
  { unfold consoleError. do 2 eexists. split; [reflexivity|]. exact Q. }
  rewrite B. cbn. do 2 eexists. split; [reflexivity|]. exact Q.
Qed.

End ScanFacts.

(** C1, as amended.  A worker that returns, which it does when its cursor
    ends without a fault and no call of the driver fails, returns the
    number of scan positions it owns, whatever became of the records at
    those positions; and a worker throws only the fault of its cursor or
    the error of a call of the driver. *)
Theorem processed_count_is_owned_count {F : Type} `{Float64 F} (env : Env)
    (workerId totalWorkers : Z) (cursor : Worker.Cursor F) (w : World F) :
  exists c w',
    Worker.processProperties env workerId totalWorkers cursor w = Some (c, w')
    /\ match c with
       | Worker.Returned count =>
           Worker.fault cursor = None
           /\ count =
              Z.of_nat
                (List.length
                   (ownedIndices (List.length (Worker.documents cursor))
                      workerId totalWorkers))
       | Worker.Thrown reason =>
           Worker.fault cursor = Some reason
           \/ exists n call, driverError env n call = Some reason
       end.
Proof.
  exact (processProperties_ends env workerId totalWorkers cursor w).
Qed.

(** C1, as stated, fails: a worker that owns one record, and skips it
    because the target has it already, returns 1 and has handed nothing to
    the batch writer. *)
Lemma processed_count_is_not_handed_count :
  ~ (forall (env : Env) (workerId totalWorkers : Z)
            (cursor : Worker.Cursor SafeInteger) (w w' : World SafeInteger)
            (count : Z),
       Worker.processProperties env workerId totalWorkers cursor w =
         Some (Worker.Returned count, w') ->
       count =
         Z.of_nat (List.length (handed w')) - Z.of_nat (List.length (handed w))).
Proof.
  intros K.
  assert (E : exists w',
             Worker.processProperties (flakyProvider 0) 1 1
               (cursorOver [rental]) (freshWorld [enriched rental])
             = Some (Worker.Returned 1, w') /\ handed w' = []).
  { eexists. split; vm_compute; reflexivity. }
  destruct E as (w' & E & Hh). apply K in E. rewrite Hh in E. discriminate E.
Qed.

(** ** A second run *)

Lemma runWorkers_enriched {F : Type} `{Float64 F} (env : Env)
    (ids : list Z) (totalWorkers : Z) (cursor : Worker.Cursor F)
    (w : World F) :
  allEnriched (Worker.documents cursor) w ->
  exists cs w',
    Worker.runWorkers env ids totalWorkers cursor w = Some (cs, w')
    /\ List.length cs = List.length ids
    /\ quiet w w'.
Proof.
  revert w. induction ids as [|id ids IH]; intros w Hall.
  - exists [], w. unfold quiet. repeat split.
  - destruct (processProperties_enriched env id totalWorkers cursor w Hall)
      as (c & w1 & E1 & Q1).
    destruct (IH w1) as (cs & w' & E & L & Q).
    { destruct Q1 as (_ & _ & _ & T1). unfold allEnriched in *. rewrite T1.
      exact Hall. }
    exists (c :: cs), w'. split.
    + cbn [Worker.runWorkers]. unfold bind. rewrite E1, E. reflexivity.
    + simpl. split; [congruence|]. unfold quiet in *. intuition congruence.
Qed.

(** C7.  When the target holds an entry for every document of the source,
    a run of the pipeline ends with every worker reporting, and it calls
    the embedding provider not once, performs no bulk insert, hands nothing
    to the batch writer and leaves the target as it is. *)
Theorem second_run_calls_nothing {F : Type} `{Float64 F} (env : Env)
    (maxWorkers : nat) (cursor : Worker.Cursor F) (w : World F) :
  allEnriched (Worker.documents cursor) w ->
  exists cs w',
    Worker.pipeline env maxWorkers cursor w = Some (cs, w')
    /\ List.length cs = maxWorkers
    /\ embedCalls w' = embedCalls w /\ insertCalls w' = insertCalls w
    /\ handed w' = handed w /\ target w' = target w.
Proof.
  intros Hall. unfold Worker.pipeline.
  destruct (runWorkers_enriched env (Worker.workerIds maxWorkers)
              (Z.of_nat maxWorkers) cursor w Hall)
    as (cs & w' & E & L & R).
  exists cs, w'. split; [exact E|]. split; [|exact R].
  rewrite L. unfold Worker.workerIds. rewrite length_map, length_seq.
  reflexivity.
Qed.

Lemma second_run_calls_nothing_witness :
  exists cs w',
    Worker.pipeline (flakyProvider 0) 4 (cursorOver [rental; emptyLot])
      (freshWorld [enriched rental; enriched emptyLot]) = Some (cs, w')
    /\ List.length cs = 4%nat
    /\ embedCalls w' = [] /\ insertCalls w' = []
    /\ handed w' = [] /\ target w' = [enriched rental; enriched emptyLot].
Proof.
  apply (second_run_calls_nothing (flakyProvider 0) 4
           (cursorOver [rental; emptyLot])
           (freshWorld [enriched rental; enriched emptyLot])).
  intros p [<- | [<- | []]]; simpl; discriminate.
Defined.
(** ** Backoff *)

(** The TypeScript jitter factor ranges over [0.5, 1.5). *)
Lemma ts_jitter_range (retries : Z) (r : Q) :
  (0 <= r)%Q -> (r < 1)%Q ->
  exists jitter : Q,
    (Client.backoff retries r ==
       1000 * inject_Z (2 ^ (retries - 1)) * jitter)%Q
    /\ (1 # 2 <= jitter)%Q /\ (jitter < 3 # 2)%Q.
Proof.
  intros H0 H1. exists ((1 # 2) + r)%Q. split; [|split].
  - unfold Client.backoff, Client.initialBackoff. reflexivity.
  - lra.
  - lra.
Qed.

(** The Go jitter factor ranges over [0.5, 1). *)
Lemma go_jitter_range (nanos : Z) :
  0 <= nanos <= 999999999 ->
  (1 # 2 <= GoPort.jitter nanos)%Q /\ (GoPort.jitter nanos < 1)%Q.
Proof.
  intros Hn. unfold GoPort.jitter.
  assert (A : (0 <= inject_Z nanos)%Q) by (unfold Qle; simpl; lia).
  assert (B : (inject_Z nanos < inject_Z (10 ^ 9))%Q)
    by (unfold Qlt; simpl; lia).
  assert (P : (0 < inject_Z (10 ^ 9))%Q) by reflexivity.
  assert (Y0 : (0 <= (1 # 2) * inject_Z nanos / inject_Z (10 ^ 9))%Q).
  { apply Qle_shift_div_l; [exact P | lra]. }
  assert (Y1 : ((1 # 2) * inject_Z nanos / inject_Z (10 ^ 9) < 1 # 2)%Q).
  { apply Qlt_shift_div_r; [exact P | lra]. }
  split; lra.
Qed.

(** C5.  After a first failed attempt and a random draw of 0.75 the
    TypeScript client sleeps 1250 ms, which is the base delay times 1.25:
    no jitter factor between 0.5 and 1 gives that delay.  The Go client, on
    the clock reading that stands for the same draw, sleeps 875 ms. *)
Theorem jitter_exceeds_one :
  (exists w',
     Client.generateEmbeddingWithRetry highDraw "text" 5
       (freshWorld (F:=SafeInteger) []) = Some (Some unitVector, w')
     /\ sleeps w' = [Client.backoff 1 (3 # 4)])
  /\ (Client.backoff 1 (3 # 4) == 1250)%Q
  /\ (forall jitter : Q,
        (1 # 2 <= jitter)%Q -> (jitter <= 1)%Q ->
        ~ (Client.backoff 1 (3 # 4) ==
             Client.initialBackoff * inject_Z (2 ^ (1 - 1)) * jitter)%Q)
  /\ (exists w',
        GoPort.generateEmbedding highDraw "text" (freshWorld (F:=SafeInteger) [])
          = Some (Some unitVector, w')
        /\ sleeps w' = [GoPort.backoff 0 750000000])
  /\ (GoPort.backoff 0 750000000 == 875)%Q.
Proof.
  split; [|split; [|split; [|split]]].
  - eexists. split; [lazy; reflexivity | reflexivity].
  - reflexivity.
  - intros jitter Hlo Hhi.
    unfold Client.backoff, Client.initialBackoff.
    change (inject_Z (2 ^ (1 - 1))) with 1%Q. lra.
  - eexists. split; [lazy; reflexivity | reflexivity].
  - reflexivity.
Qed.

(** ** The batch writer *)

(** C3.  With 51 records and a first bulk insert that fails, the TypeScript
    worker logs the failure, keeps the fifty records in the batch and sends
    them again, with the next record, in the second bulk insert.  The Go
    worker drops them: its second bulk insert holds the last record
    alone. *)
Theorem failed_batch_is_sent_again :
  (exists w',
     Worker.processProperties firstInsertFails 1 1 (cursorOver (bareSource 51))
       (freshWorld []) = Some (Worker.Returned 51, w')
     /\ insertedIds w' =
          [ (identifiers 1 50, false); (identifiers 1 51, true) ]
     /\ stderr w' = [ErrorInsertingBatch 1])
  /\ (exists w',
        GoPort.processProperties firstInsertFails 1 1
          (map Some (bareSource 51)) None (freshWorld [])
          = Some ((51, None), w')
        /\ insertedIds w' =
             [ (identifiers 1 50, false); (identifiers 51 1, true) ]
        /\ stderr w' = [ErrorInsertingBatch 1]).
Proof.
  split.
  - eexists. split; [vm_compute; reflexivity|]. split; vm_compute; reflexivity.
  - eexists. split; [vm_compute; reflexivity|]. split; vm_compute; reflexivity.
Qed.

(** ** The primary process *)

Section PrimaryFacts.
Variable maxWorkers : Z.

Lemma handle_invariant (events : list Primary.Event) (st : Primary.State) :
  let st' := fold_left (Primary.handle maxWorkers) events st in
  Primary.completedWorkers st' =
    Primary.completedWorkers st + Z.of_nat (List.length (completions events))
  /\ (Primary.exited st' = None \/ Primary.exited st' = Primary.exited st
      \/ (Primary.completedWorkers st < maxWorkers <=
          Primary.completedWorkers st'))%Z.
Proof.
  revert st. induction events as [|e events IH]; intros st; simpl.
  - split; [lia | auto].
  - destruct (IH (Primary.handle maxWorkers st e)) as [C X]. clear IH.
    destruct e as [m | id code]; simpl in *.
    + unfold Primary.onMessage in *.
      destruct (Primary.type m =? "complete")%string eqn:T; simpl.
      * destruct (Primary.completedWorkers st + 1 =? maxWorkers) eqn:Q;
          simpl in *; split; try lia;
          destruct X as [X | [X | X]]; auto; right; right; lia.
      * destruct (Primary.type m =? "error")%string; simpl in *;
          split; try lia; exact X.
    + unfold Primary.onExit in *.
      destruct (negb (code =? 0)); simpl in *; split; try lia; exact X.
Qed.

(** The primary schedules its exit only when [maxWorkers] messages of type
    [complete] have arrived. *)
Lemma exit_needs_all_completions (events : list Primary.Event) :
  Primary.exited (Primary.primaryProcess maxWorkers events) <> None ->
  maxWorkers <= Z.of_nat (List.length (completions events)).
Proof.
  unfold Primary.primaryProcess. intros E.
  destruct (handle_invariant events
              {| Primary.completedWorkers := 0; Primary.totalProcessed := 0;
                 Primary.console := []; Primary.exited := None |}) as [C X].
  simpl in *. destruct X as [X | [X | X]]; try congruence. lia.
Qed.

End PrimaryFacts.

(** C4.  Of four workers one reports an error and three complete: the
    TypeScript primary logs the error and adds up the three counts, but its
    count of completed workers stays at three and it never schedules its
    exit.  The Go [main] counts the failed worker too, reports the total and
    returns. *)
Theorem primary_never_exits_after_worker_error :
  Primary.primaryProcess 4 oneWorkerFails =
    {| Primary.completedWorkers := 3;
       Primary.totalProcessed := 30;
       Primary.console :=
         [ Primary.WorkerError 1 (Some "cursor fault");
           Primary.WorkerDied 1 1;
           Primary.WorkerCompleted 2 (Some 10);
           Primary.WorkerCompleted 3 (Some 10);
           Primary.WorkerCompleted 4 (Some 10) ];
       Primary.exited := None |}
  /\ (forall later : list Primary.Event,
        completions later = [] ->
        Primary.exited (Primary.primaryProcess 4 (oneWorkerFails ++ later))
          = None)
  /\ GoPort.main 4 oneWorkerFailsGo =
       {| Primary.completedWorkers := 4;
          Primary.totalProcessed := 30;
          Primary.console :=
            [ Primary.WorkerError 1 (Some "cursor fault");
              Primary.WorkerCompleted 2 (Some 10);
              Primary.WorkerCompleted 3 (Some 10);
              Primary.WorkerCompleted 4 (Some 10);
              Primary.AllWorkersCompleted 30;
              Primary.ImportCompleted ];
          Primary.exited := Some 0 |}.
Proof.
  repeat split.
  intros later Hl.
  destruct (Primary.exited (Primary.primaryProcess 4 (oneWorkerFails ++ later)))
    eqn:E; [|reflexivity].
  assert (N : Primary.exited
                (Primary.primaryProcess 4 (oneWorkerFails ++ later)) <> None)
    by congruence.
  apply exit_needs_all_completions in N.
  unfold completions in N. rewrite filter_app in N.
  fold (completions later) in N. rewrite Hl in N. simpl in N. lia.
Qed.

(** ** The embedding client, whatever the provider does *)

Section ClientBounds.
Context {F : Type}.
Variable env : Env.

Lemma retryLoop_calls (fuel : nat) (text : string) (maxRetries retries : Z)
    (w : World F) :
  retries < maxRetries ->
  maxRetries - retries < Z.of_nat fuel ->
  exists (r : option Vector) (w' : World F) (n : nat),
    Client.retryLoop env fuel text maxRetries retries w = Some (r, w')
    /\ embedCalls w' = embedCalls w ++ repeat text n
    /\ (1 <= n)%nat /\ Z.of_nat n <= maxRetries - retries
    /\ List.length (sleeps w') = (List.length (sleeps w) + (n - 1))%nat
    /\ draws w' = (draws w + (n - 1))%nat
    /\ match r with
       | Some v =>
           embedContent env (List.length (embedCalls w) + (n - 1)) text = Some v
           /\ stderr w' = stderr w
       | None =>
           Z.of_nat n = maxRetries - retries
           /\ stderr w' = stderr w ++ [FailedAfterAttempts maxRetries]
       end
    /\ (forall i, (i < n - 1)%nat ->
          embedContent env (List.length (embedCalls w) + i) text = None).
Proof.
  revert retries w. induction fuel as [|fuel IH]; intros retries w Hlt Hf; [lia|].
  rewrite retryLoop_turn by exact Hlt.
  destruct (embedContent env (List.length (embedCalls w)) text) as [v|] eqn:E.
  - exists (Some v), (called text w), 1%nat. simpl.
    rewrite !Nat.add_0_r. repeat split; try lia; auto.
  - destruct (retries + 1 >=? maxRetries) eqn:G.
    + exists None, (logged (FailedAfterAttempts maxRetries) (called text w)), 1%nat.
      simpl. repeat split; try lia; auto.
    + destruct (IH (retries + 1)
                  (slept (Client.backoff (retries + 1)
                            (mathRandom env (draws (called text w))))
                     (drew (called text w))))
        as (r & w' & n & R & C & N1 & N2 & Sl & D & O & P); try lia.
      exists r, w', (S n). split; [exact R|]. simpl in C, Sl, D, O, P.
      rewrite length_app in O, P. simpl in O, P.
      split; [rewrite C, <- app_assoc; reflexivity|].
      split; [lia|]. split; [lia|].
      split; [rewrite Sl, length_app; simpl; lia|].
      split; [lia|].
      split.
      * destruct r as [v|].
        -- replace (List.length (embedCalls w) + (S n - 1))%nat
             with (List.length (embedCalls w) + 1 + (n - 1))%nat by lia.
           exact O.
        -- destruct O as [O1 O2]. split; [lia | exact O2].
      * intros i Hi. destruct i as [|i].
        -- rewrite Nat.add_0_r. exact E.
        -- replace (List.length (embedCalls w) + S i)%nat
             with (List.length (embedCalls w) + 1 + i)%nat by lia.
           apply P. lia.
Qed.


End ClientBounds.

Section ClientDelays.
Context {F : Type}.
Variable env : Env.
Hypothesis draws_in_range : unitInterval env.

(** One delay, between half and one and a half times the doubled base. *)
Lemma backoff_range (retries : Z) (n : nat) :
  1 <= retries <= 4 ->
  (inject_Z (500 * 2 ^ (retries - 1)) <=
     Client.backoff retries (mathRandom env n))%Q
  /\ (Client.backoff retries (mathRandom env n) <=
        inject_Z (1500 * 2 ^ (retries - 1)))%Q.
Proof.
  intros Hr. destruct (draws_in_range n) as [L U].
  unfold Client.backoff, Client.initialBackoff.
  assert (C : retries = 1 \/ retries = 2 \/ retries = 3 \/ retries = 4) by lia.
  destruct C as [-> | [-> | [-> | ->]]].
  - change (inject_Z (2 ^ (1 - 1))) with 1%Q.
    change (inject_Z (500 * 2 ^ (1 - 1))) with 500%Q.
    change (inject_Z (1500 * 2 ^ (1 - 1))) with 1500%Q. split; lra.
  - change (inject_Z (2 ^ (2 - 1))) with 2%Q.
    change (inject_Z (500 * 2 ^ (2 - 1))) with 1000%Q.
    change (inject_Z (1500 * 2 ^ (2 - 1))) with 3000%Q. split; lra.
  - change (inject_Z (2 ^ (3 - 1))) with 4%Q.
    change (inject_Z (500 * 2 ^ (3 - 1))) with 2000%Q.
    change (inject_Z (1500 * 2 ^ (3 - 1))) with 6000%Q. split; lra.
  - change (inject_Z (2 ^ (4 - 1))) with 8%Q.
    change (inject_Z (500 * 2 ^ (4 - 1))) with 4000%Q.
    change (inject_Z (1500 * 2 ^ (4 - 1))) with 12000%Q. split; lra.
Qed.

Lemma retryLoop_delays (fuel : nat) (text : string) (retries : Z)
    (w : World F) :
  0 <= retries < 5 ->
  5 - retries < Z.of_nat fuel ->
  exists (r : option Vector) (w' : World F) (delays : list Q),
    Client.retryLoop env fuel text 5 retries w = Some (r, w')
    /\ sleeps w' = sleeps w ++ delays
    /\ Forall (fun d => (500 <= d)%Q) delays
    /\ (sumQ delays <= inject_Z (1500 * (16 - 2 ^ retries)))%Q.
Proof.
  revert retries w. induction fuel as [|fuel IH]; intros retries w Hr Hf; [lia|].
  rewrite retryLoop_turn by lia.
  assert (B0 : (0 <= inject_Z (1500 * (16 - 2 ^ retries)))%Q).
  { unfold Qle, inject_Z. cbn [Qnum Qden].
    assert (2 ^ retries <= 2 ^ 4) by (apply Z.pow_le_mono_r; lia). lia. }
  destruct (embedContent env (List.length (embedCalls w)) text) as [v|].
  - exists (Some v), (called text w), []. simpl.
    rewrite app_nil_r. repeat split; auto.
  - destruct (retries + 1 >=? 5) eqn:G.
    + exists None, (logged (FailedAfterAttempts 5) (called text w)), []. simpl.
      rewrite app_nil_r. repeat split; auto.
    + destruct (IH (retries + 1)
                  (slept (Client.backoff (retries + 1)
                            (mathRandom env (draws (called text w))))
                     (drew (called text w))))
        as (r & w' & delays & R & S & A & T); try lia.
      exists r, w', (Client.backoff (retries + 1)
                       (mathRandom env (draws (called text w))) :: delays).
      split; [exact R|]. simpl in S.
      split; [rewrite S, <- app_assoc; reflexivity|].
      destruct (backoff_range (retries + 1) (draws (called text w)))
        as [Lo Hi]; [lia|].
      rewrite Z.add_simpl_r in Lo, Hi.
      split.
      * constructor; [|exact A].
        eapply Qle_trans; [|exact Lo]. unfold Qle, inject_Z. cbn [Qnum Qden].
        assert (2 ^ 0 <= 2 ^ retries) by (apply Z.pow_le_mono_r; lia). lia.
      * simpl sumQ.
        eapply Qle_trans; [apply Qplus_le_compat; [exact Hi | exact T]|].
        rewrite <- inject_Z_plus. unfold Qle, inject_Z. cbn [Qnum Qden].
        rewrite Z.pow_add_r by lia. lia.
Qed.

End ClientDelays.

(** X2.  When the random draws lie in [0, 1), every delay the client sleeps
    is at least 500 ms and the delays of one call add up to at most
    22500 ms. *)
Theorem client_sleeps_at_most_22500 {F : Type} (env : Env) (text : string)
    (w : World F) :
  unitInterval env ->
  exists (r : option Vector) (w' : World F) (delays : list Q),
    Client.generateEmbeddingWithRetry env text 5 w = Some (r, w')
    /\ sleeps w' = sleeps w ++ delays
    /\ Forall (fun d => (500 <= d)%Q) delays
    /\ (sumQ delays <= 22500)%Q.
Proof.
  intros Hu. unfold Client.generateEmbeddingWithRetry.
  destruct (retryLoop_delays env Hu (S (Z.to_nat 5)) text 0 w)
    as (r & w' & delays & R & S & A & T); [lia | simpl; lia |].
  exists r, w', delays. auto.
Qed.

Lemma client_sleeps_at_most_22500_witness :
  exists (r : option Vector) (w' : World SafeInteger) (delays : list Q),
    Client.generateEmbeddingWithRetry failingProvider "text" 5 (freshWorld [])
      = Some (r, w')
    /\ sleeps w' = sleeps (freshWorld (F:=SafeInteger) []) ++ delays
    /\ Forall (fun d => (500 <= d)%Q) delays
    /\ (sumQ delays <= 22500)%Q.
Proof.
  apply (client_sleeps_at_most_22500 failingProvider "text" (freshWorld [])).
  intros n. simpl. split; [discriminate | reflexivity].
Defined.

Section GoClient.
Context {F : Type}.
Variable env : Env.

Lemma go_retryLoop_turn (fuel : nat) (text : string) (maxRetries retries : Z)
    (w : World F) :
  retries < maxRetries ->
  GoPort.retryLoop env (S fuel) text maxRetries retries w =
  match embedContent env (List.length (embedCalls w)) text with
  | Some values => Some (Some values, called text w)
  | None =>
      if retries =? maxRetries - 1
      then Some (None, called text w)
      else GoPort.retryLoop env fuel text maxRetries (retries + 1)
             (slept (GoPort.backoff retries
                       (nanosecond env (draws (called text w))))
                (drew (called text w)))
  end.
Proof.
  intros Hlt. cbn [GoPort.retryLoop].
  replace (retries <? maxRetries) with true by lia.
  unfold bind, callEmbedContent.
  destruct (embedContent env (List.length (embedCalls w)) text); [reflexivity|].
  destruct (retries =? maxRetries - 1); reflexivity.
Qed.

Lemma retryLoops_agree (fuel : nat) (text : string) (maxRetries retries : Z)
    (w wg : World F) :
  maxRetries - retries < Z.of_nat fuel -> (0 < fuel)%nat ->
  sameTraffic w wg ->
  exists r w' wg',
    Client.retryLoop env fuel text maxRetries retries w = Some (r, w')
    /\ GoPort.retryLoop env fuel text maxRetries retries wg = Some (r, wg')
    /\ sameTraffic w' wg'.
Proof.
  revert retries w wg.
  induction fuel as [|fuel IH]; intros retries w wg Hf H0 Hs; [lia|].
  destruct Hs as (C & T & I & Hh & D & S).
  destruct (Z.ltb_spec retries maxRetries) as [Hlt | Hge].
  - rewrite retryLoop_turn, go_retryLoop_turn by exact Hlt. rewrite <- C.
    destruct (embedContent env _ text) as [v|].
    + do 3 eexists. split; [reflexivity|]. split; [reflexivity|].
      unfold sameTraffic. simpl. repeat split; congruence.
    + replace (retries =? maxRetries - 1) with (retries + 1 >=? maxRetries)
        by lia.
      destruct (retries + 1 >=? maxRetries) eqn:G.
      * do 3 eexists. split; [reflexivity|]. split; [reflexivity|].
        unfold sameTraffic. simpl. repeat split; congruence.
      * apply IH; try lia.
        unfold sameTraffic. simpl. rewrite !length_app. simpl.
        repeat split; congruence.
  - cbn [Client.retryLoop GoPort.retryLoop].
    replace (retries <? maxRetries) with false by lia.
    do 3 eexists. split; [reflexivity|]. split; [reflexivity|].
    unfold sameTraffic. repeat split; assumption.
Qed.

(** X3.  On the same provider the Go client and the TypeScript client return
    the same result after the same provider calls and the same number of
    sleeps. *)
Theorem clients_agree (text : string) (w : World F) :
  exists r w1 w2,
    Client.generateEmbeddingWithRetry env text 5 w = Some (r, w1)
    /\ GoPort.generateEmbedding env text w = Some (r, w2)
    /\ sameTraffic w1 w2.
Proof.
  unfold Client.generateEmbeddingWithRetry, GoPort.generateEmbedding,
    GoPort.generateEmbeddingWithRetry.
  apply retryLoops_agree; [simpl; lia | simpl; lia |].
  unfold sameTraffic. repeat split.
Qed.

End GoClient.

Section GoDelays.
Context {F : Type}.
Variable env : Env.
Hypothesis clock_in_range : clockInRange env.

Lemma go_backoff_range (retries : Z) (n : nat) :
  0 <= retries <= 3 ->
  (inject_Z (500 * 2 ^ retries) <= GoPort.backoff retries (nanosecond env n))%Q
  /\ (GoPort.backoff retries (nanosecond env n) <=
        inject_Z (1000 * 2 ^ retries))%Q.
Proof.
  intros Hr. destruct (go_jitter_range (nanosecond env n) (clock_in_range n))
    as [L U].
  unfold GoPort.backoff.
  assert (C : retries = 0 \/ retries = 1 \/ retries = 2 \/ retries = 3) by lia.
  destruct C as [-> | [-> | [-> | ->]]].
  - change (inject_Z (2 ^ 0)) with 1%Q.
    change (inject_Z (500 * 2 ^ 0)) with 500%Q.
    change (inject_Z (1000 * 2 ^ 0)) with 1000%Q. split; lra.
  - change (inject_Z (2 ^ 1)) with 2%Q.
    change (inject_Z (500 * 2 ^ 1)) with 1000%Q.
    change (inject_Z (1000 * 2 ^ 1)) with 2000%Q. split; lra.
  - change (inject_Z (2 ^ 2)) with 4%Q.
    change (inject_Z (500 * 2 ^ 2)) with 2000%Q.
    change (inject_Z (1000 * 2 ^ 2)) with 4000%Q. split; lra.
  - change (inject_Z (2 ^ 3)) with 8%Q.
    change (inject_Z (500 * 2 ^ 3)) with 4000%Q.
    change (inject_Z (1000 * 2 ^ 3)) with 8000%Q. split; lra.
Qed.

Lemma go_retryLoop_delays (fuel : nat) (text : string) (retries : Z)
    (w : World F) :
  0 <= retries < 5 ->
  5 - retries < Z.of_nat fuel ->
  exists (r : option Vector) (w' : World F) (delays : list Q),
    GoPort.retryLoop env fuel text 5 retries w = Some (r, w')
    /\ sleeps w' = sleeps w ++ delays
    /\ Forall (fun d => (500 <= d)%Q) delays
    /\ (sumQ delays <= inject_Z (1000 * (16 - 2 ^ retries)))%Q.
Proof.
  revert retries w. induction fuel as [|fuel IH]; intros retries w Hr Hf; [lia|].
  rewrite go_retryLoop_turn by lia.
  assert (B0 : (0 <= inject_Z (1000 * (16 - 2 ^ retries)))%Q).
  { unfold Qle, inject_Z. cbn [Qnum Qden].
    assert (2 ^ retries <= 2 ^ 4) by (apply Z.pow_le_mono_r; lia). lia. }
  destruct (embedContent env (List.length (embedCalls w)) text) as [v|].
  - exists (Some v), (called text w), []. simpl.
    rewrite app_nil_r. repeat split; auto.
  - destruct (retries =? 5 - 1) eqn:G.
    + exists None, (called text w), []. simpl.
      rewrite app_nil_r. repeat split; auto.
    + destruct (IH (retries + 1)
                  (slept (GoPort.backoff retries
                            (nanosecond env (draws (called text w))))
                     (drew (called text w))))
        as (r & w' & delays & R & S & A & T); try lia.
      exists r, w', (GoPort.backoff retries
                       (nanosecond env (draws (called text w))) :: delays).
      split; [exact R|]. simpl in S.
      split; [rewrite S, <- app_assoc; reflexivity|].
      destruct (go_backoff_range retries (draws (called text w)))
        as [Lo Hi]; [lia|].
      split.
      * constructor; [|exact A].
        eapply Qle_trans; [|exact Lo]. unfold Qle, inject_Z. cbn [Qnum Qden].
        assert (2 ^ 0 <= 2 ^ retries) by (apply Z.pow_le_mono_r; lia). lia.
      * simpl sumQ.
        eapply Qle_trans; [apply Qplus_le_compat; [exact Hi | exact T]|].
        rewrite <- inject_Z_plus. unfold Qle, inject_Z. cbn [Qnum Qden].
        rewrite Z.pow_add_r by lia. lia.
Qed.

End GoDelays.

(** X4.  When the clock readings are nanoseconds of a second, every delay
    the Go client sleeps is at least 500 ms and the delays of one call add
    up to at most 15000 ms. *)
Theorem go_client_sleeps_at_most_15000 {F : Type} (env : Env) (text : string)
    (w : World F) :
  clockInRange env ->
  exists (r : option Vector) (w' : World F) (delays : list Q),
    GoPort.generateEmbedding env text w = Some (r, w')
    /\ sleeps w' = sleeps w ++ delays
    /\ Forall (fun d => (500 <= d)%Q) delays
    /\ (sumQ delays <= 15000)%Q.
Proof.
  intros Hc. unfold GoPort.generateEmbedding, GoPort.generateEmbeddingWithRetry.
  destruct (go_retryLoop_delays env Hc (S (Z.to_nat 5)) text 0 w)
    as (r & w' & delays & R & S & A & T); [lia | simpl; lia |].
  exists r, w', delays. auto.
Qed.

Lemma go_client_sleeps_at_most_15000_witness :
  exists (r : option Vector) (w' : World SafeInteger) (delays : list Q),
    GoPort.generateEmbedding failingProvider "text" (freshWorld [])
      = Some (r, w')
    /\ sleeps w' = sleeps (freshWorld (F:=SafeInteger) []) ++ delays
    /\ Forall (fun d => (500 <= d)%Q) delays
    /\ (sumQ delays <= 15000)%Q.
Proof.
  apply (go_client_sleeps_at_most_15000 failingProvider "text" (freshWorld [])).
  intros n. simpl. lia.
Defined.

(** ** The books of the batch writer *)

Section Ledger.
Context {F : Type} `{Float64 F}.
Variable env : Env.
Variables workerId totalWorkers : Z.

Lemma accepted_app (c1 c2 : Calls F) :
  accepted (c1 ++ c2) = accepted c1 ++ accepted c2.
Proof. unfold accepted. now rewrite filter_app, map_app, concat_app. Qed.

Lemma sent_app (c1 c2 : Calls F) : sent (c1 ++ c2) = sent c1 ++ sent c2.
Proof. unfold sent. now rewrite map_app, concat_app. Qed.

Lemma accepted_all (calls : Calls F) :
  Forall (fun c => snd c = true) calls -> accepted calls = sent calls.
Proof.
  unfold accepted, sent. induction 1 as [|[b ok] calls Hok _ IH]; [reflexivity|].
  cbn in Hok. subst ok. cbn. now rewrite IH.
Qed.

Lemma client_frame (text : string) (w : World F) :
  exists r w',
    Client.generateEmbeddingWithRetry env text 5 w = Some (r, w')
    /\ target w' = target w /\ insertCalls w' = insertCalls w
    /\ handed w' = handed w /\ driverCalls w' = driverCalls w.
Proof.
  destruct (client_total env text w) as (r & w' & E).
  exists r, w'. split; [exact E|].
  exact (retryLoop_frame env _ _ _ _ _ _ _ E).
Qed.

(** [processProperties], step by step. *)
Lemma processProperties_steps (cursor : Worker.Cursor F) (w : World F) :
  Worker.processProperties env workerId totalWorkers cursor w =
  match driverError env (List.length (driverCalls w)) CreateIndex with
  | Some reason =>
      Some (Worker.Thrown reason,
            logged (ErrorProcessingProperties workerId)
              (requested CreateIndex w))
  | None =>
      match Worker.scan env workerId totalWorkers Worker.start
              (Worker.documents cursor) (requested CreateIndex w) with
      | None => None
      | Some (Rejected reason, w1) =>
          Some (Worker.Thrown reason,
                logged (ErrorProcessingProperties workerId) w1)
      | Some (Resolved st, w1) =>
          match Worker.fault cursor with
          | Some reason =>
              Some (Worker.Thrown reason,
                    logged (ErrorProcessingProperties workerId) w1)
          | None =>
              if Z.of_nat (List.length (Worker.batchDocuments st)) >? 0 then
                if insertSucceeds env (List.length (insertCalls w1)) then
                  Some (Worker.Returned (Worker.propertiesProcessed st),
                        inserted (Worker.batchDocuments st) true w1)
                else
                  Some (Worker.Returned (Worker.propertiesProcessed st),
                        logged (ErrorInsertingFinalBatch workerId)
                          (inserted (Worker.batchDocuments st) false w1))
              else Some (Worker.Returned (Worker.propertiesProcessed st), w1)
          end
      end
  end.
Proof.
  unfold Worker.processProperties, Worker.attempt.
  unfold bind at 1. unfold bind at 1. unfold perform, bind, driverCall.
  destruct (driverError env _ CreateIndex); [reflexivity|].
  unfold ret. destruct (Worker.scan _ _ _ _ _ _) as [[[st | reason] w1]|];
    try reflexivity.
  destruct (Worker.fault cursor); [reflexivity|].
  destruct (Z.of_nat (List.length (Worker.batchDocuments st)) >? 0);
    [|reflexivity].
  unfold insertMany. destruct (insertSucceeds env _); reflexivity.
Qed.

(** The books of one turn of the TypeScript loop: what was handed over is
    either accepted by the target or still in the batch, [pending]. *)
Lemma scanOne_ledger (st : Worker.Loop F) (p : Property F) (w : World F) :
  exists r w' newHanded (newCalls : Calls F) pending,
    Worker.scanOne env workerId totalWorkers st p w = Some (r, w')
    /\ handed w' = handed w ++ newHanded
    /\ insertCalls w' = insertCalls w ++ newCalls
    /\ target w' = target w ++ accepted newCalls
    /\ accepted newCalls ++ pending = Worker.batchDocuments st ++ newHanded
    /\ match r with
       | Resolved st' => pending = Worker.batchDocuments st'
       | Rejected reason => driverFailedWith env reason
       end
    /\ (neverRejects env ->
        Z.of_nat (List.length (Worker.batchDocuments st)) < Worker.BATCH_SIZE ->
        Z.of_nat (List.length pending) < Worker.BATCH_SIZE
        /\ Forall (fun c => sizeOf c = Worker.BATCH_SIZE /\ snd c = true)
             newCalls).
Proof.
  unfold Worker.scanOne.
  destruct (negb _).
  { eexists _, w, [], [], (Worker.batchDocuments st). split; [reflexivity|].
    cbn. rewrite !app_nil_r. repeat split; auto. }
  unfold bind at 1. unfold findOne, bind, driverCall.
  destruct (driverError env _ _) as [reason|] eqn:D.
  { unfold ret. eexists _, _, [], [], (Worker.batchDocuments st).
    split; [reflexivity|]. cbn. rewrite !app_nil_r. repeat split; auto.
    do 2 eexists. exact D. }
  unfold ret. cbn [target requested].
  destruct (find _ (target w)).
  { eexists _, _, [], [], (Worker.batchDocuments st). split; [reflexivity|].
    cbn. rewrite !app_nil_r. repeat split; auto. }
  destruct (client_frame (TS.createPropertyDescription p)
              (requested (FindOne (_id p)) w))
    as (r & w1 & E & T1 & I1 & H1 & _).
  cbn [target insertCalls handed requested] in T1, I1, H1.
  rewrite E. destruct r as [v|].
  - unfold push.
    destruct (Z.of_nat _ >=? Worker.BATCH_SIZE) eqn:Full.
    + unfold insertMany. cbn [insertCalls pushed].
      destruct (insertSucceeds env _) eqn:Ok; unfold consoleError.
      * eexists _, _, [enrichedWith p v],
          [(Worker.batchDocuments st ++ [enrichedWith p v], true)], [].
        split; [reflexivity|]. cbn. rewrite !app_nil_r, T1, I1, H1.
        repeat split; auto.
        constructor; [|constructor]. split; [|reflexivity].
        unfold sizeOf. cbn [fst].
        rewrite length_app in *. cbn [List.length] in *.
        unfold Worker.BATCH_SIZE in *. lia.
      * eexists _, _, [enrichedWith p v],
          [(Worker.batchDocuments st ++ [enrichedWith p v], false)],
          (Worker.batchDocuments st ++ [enrichedWith p v]).
        split; [reflexivity|]. cbn. rewrite !app_nil_r, T1, I1, H1.
        repeat split; auto;
          exfalso;
          match goal with
          | Hn : neverRejects env |- _ => rewrite Hn in Ok; discriminate Ok
          end.
    + eexists _, _, [enrichedWith p v], [],
        (Worker.batchDocuments st ++ [enrichedWith p v]).
      split; [reflexivity|]. cbn. rewrite !app_nil_r, ?T1, ?I1, ?H1.
      repeat split; auto. unfold enrichedWith in *. lia.
  - unfold consoleError. eexists _, _, [], [], (Worker.batchDocuments st).
    split; [reflexivity|]. cbn. rewrite !app_nil_r, ?T1, ?I1, ?H1.
    repeat split; auto.
Qed.

Lemma scan_ledger (docs : list (Property F)) (st : Worker.Loop F)
    (w : World F) :
  exists r w' newHanded (newCalls : Calls F) pending,
    Worker.scan env workerId totalWorkers st docs w = Some (r, w')
    /\ handed w' = handed w ++ newHanded
    /\ insertCalls w' = insertCalls w ++ newCalls
    /\ target w' = target w ++ accepted newCalls
    /\ accepted newCalls ++ pending = Worker.batchDocuments st ++ newHanded
    /\ match r with
       | Resolved st' => pending = Worker.batchDocuments st'
       | Rejected reason => driverFailedWith env reason
       end
    /\ (neverRejects env ->
        Z.of_nat (List.length (Worker.batchDocuments st)) < Worker.BATCH_SIZE ->
        Z.of_nat (List.length pending) < Worker.BATCH_SIZE
        /\ Forall (fun c => sizeOf c = Worker.BATCH_SIZE /\ snd c = true)
             newCalls).
Proof.
  revert st w. induction docs as [|p docs IH]; intros st w.
  - exists (Resolved st), w, [], [], (Worker.batchDocuments st).
    cbn. rewrite !app_nil_r. repeat split; auto.
  - destruct (scanOne_ledger st p w)
      as (r1 & w1 & h1 & c1 & p1 & E1 & H1 & I1 & T1 & B1 & R1 & S1).
    cbn [Worker.scan]. unfold bind at 1. rewrite E1.
    destruct r1 as [st1 | reason].
    2:{ unfold ret. exists (Rejected reason), w1, h1, c1, p1.
        split; [reflexivity|]. auto 10. }
    subst p1.
    destruct (IH st1 w1)
      as (r & w' & h2 & c2 & p2 & E2 & H2 & I2 & T2 & B2 & R2 & S2).
    exists r, w', (h1 ++ h2), (c1 ++ c2), p2.
    split; [exact E2|].
    split; [rewrite H2, H1, app_assoc; reflexivity|].
    split; [rewrite I2, I1, app_assoc; reflexivity|].
    split; [rewrite T2, T1, accepted_app, app_assoc; reflexivity|].
    split.
    { rewrite accepted_app, <- app_assoc, B2, app_assoc, B1, app_assoc.
      reflexivity. }
    split; [exact R2|].
    intros Hn Hb. destruct (S1 Hn Hb) as (Sa & Sb).
    destruct (S2 Hn Sa) as (Sd & Se).
    split; [exact Sd | apply Forall_app; auto].
Qed.

(** X5.  The target gains exactly the records of the accepted bulk inserts.
    For a worker that returns, these are all the records handed to the
    batch writer unless its last bulk insert was rejected: then the records
    of that last call, and no others, are missing.  For a worker that
    throws, they are the first of the records handed over; the others, the
    batch it held, are lost. *)
Theorem worker_loses_only_a_rejected_last_batch (cursor : Worker.Cursor F)
    (w : World F) :
  exists c w' newHanded (newCalls : Calls F),
    Worker.processProperties env workerId totalWorkers cursor w = Some (c, w')
    /\ handed w' = handed w ++ newHanded
    /\ insertCalls w' = insertCalls w ++ newCalls
    /\ target w' = target w ++ accepted newCalls
    /\ match c with
       | Worker.Returned _ =>
           accepted newCalls = newHanded
           \/ exists earlier lost,
                newCalls = earlier ++ [(lost, false)]
                /\ accepted newCalls ++ lost = newHanded
       | Worker.Thrown _ =>
           exists pending, accepted newCalls ++ pending = newHanded
       end.
Proof.
  rewrite processProperties_steps.
  destruct (driverError env _ CreateIndex) as [reason|].
  { eexists _, _, [], []. split; [reflexivity|]. cbn. rewrite !app_nil_r.
    repeat split. exists []. reflexivity. }
  destruct (scan_ledger (Worker.documents cursor) Worker.start
              (requested CreateIndex w))
    as (r & w1 & h & c & pending & E & Hh & Hi & Ht & Hb & R & _).
  cbn [handed insertCalls target requested] in Hh, Hi, Ht.
  cbn [Worker.start Worker.batchDocuments app] in Hb.
  rewrite E. destruct r as [st | reason].
  2:{ eexists _, _, h, c. split; [reflexivity|]. cbn.
      repeat split; auto. exists pending. exact Hb. }
  subst pending.
  destruct (Worker.fault cursor) as [reason|].
  { eexists _, _, h, c. split; [reflexivity|]. cbn.
    repeat split; auto. exists (Worker.batchDocuments st). exact Hb. }
  destruct (Z.of_nat (List.length (Worker.batchDocuments st)) >? 0) eqn:G.
  - destruct (insertSucceeds env _) eqn:Ok.
    + eexists _, _, h, (c ++ [(Worker.batchDocuments st, true)]).
      split; [reflexivity|]. cbn.
      rewrite Hh, Hi, Ht, accepted_app, <- !app_assoc. cbn.
      rewrite app_nil_r. repeat split. left. exact Hb.
    + eexists _, _, h, (c ++ [(Worker.batchDocuments st, false)]).
      split; [reflexivity|]. cbn.
      rewrite Hh, Hi, Ht, accepted_app, <- !app_assoc. cbn.
      rewrite !app_nil_r. repeat split. right.
      exists c, (Worker.batchDocuments st). split; [reflexivity | exact Hb].
  - eexists _, _, h, c. split; [reflexivity|].
    repeat split; auto. left.
    destruct (Worker.batchDocuments st); [|cbn in G; lia].
    rewrite app_nil_r in Hb. exact Hb.
Qed.

(** When no call of the driver fails, the scan runs to its end. *)
Lemma scan_resolves (docs : list (Property F)) (st : Worker.Loop F)
    (w : World F) :
  storeResponds env ->
  exists st' w',
    Worker.scan env workerId totalWorkers st docs w = Some (Resolved st', w').
Proof.
  intros Hs.
  destruct (scan_counts env workerId totalWorkers docs st w)
    as ([st' | reason] & w' & E & R); [eauto|].
  destruct R as (n & call & D). rewrite Hs in D. discriminate D.
Qed.

(** X6.  When the cursor ends without a fault, no call of the driver fails
    and no bulk insert is rejected, the worker returns, and every record
    handed to the batch writer has been sent once, in order: every bulk
    insert but the last holds exactly 50 records and a last one holds the
    1 to 49 that remain, and the target gains all of them. *)
Theorem batches_of_fifty (docs : list (Property F)) (w : World F) :
  neverRejects env -> storeResponds env ->
  exists count w' newHanded (full rest : Calls F),
    Worker.processProperties env workerId totalWorkers (cursorOver docs) w
      = Some (Worker.Returned count, w')
    /\ handed w' = handed w ++ newHanded
    /\ insertCalls w' = insertCalls w ++ full ++ rest
    /\ Forall (fun call => sizeOf call = 50 /\ snd call = true) full
    /\ (rest = [] \/
        exists batch, rest = [(batch, true)]
                      /\ 0 < Z.of_nat (List.length batch) < 50)
    /\ sent (full ++ rest) = newHanded
    /\ target w' = target w ++ newHanded.
Proof.
  intros Hn Hs. rewrite processProperties_steps, Hs.
  cbn [cursorOver Worker.documents Worker.fault].
  destruct (scan_ledger docs Worker.start (requested CreateIndex w))
    as (r & w1 & h & c & pending & E & Hh & Hi & Ht & Hb & R & Sz).
  cbn [handed insertCalls target requested] in Hh, Hi, Ht.
  destruct (Sz Hn) as (Small & Sizes); [cbn; unfold Worker.BATCH_SIZE; lia|].
  destruct r as [st | reason].
  2:{ destruct R as (n & call & D). rewrite Hs in D. discriminate D. }
  subst pending.
  assert (Acc : accepted c = sent c).
  { apply accepted_all. eapply Forall_impl; [|exact Sizes]. cbn. tauto. }
  rewrite E. cbn [Worker.start Worker.batchDocuments app] in Hb.
  unfold Worker.BATCH_SIZE in *.
  destruct (Z.of_nat (List.length (Worker.batchDocuments st)) >? 0) eqn:G.
  - rewrite Hn.
    eexists _, _, h, c, [(Worker.batchDocuments st, true)].
    split; [reflexivity|]. cbn.
    rewrite Hh, Hi, Ht, sent_app, <- Acc, <- !app_assoc. cbn.
    rewrite app_nil_r. repeat split; auto.
    + right. exists (Worker.batchDocuments st). split; [reflexivity | lia].
    + rewrite Hb. reflexivity.
  - eexists _, _, h, c, []. split; [reflexivity|].
    destruct (Worker.batchDocuments st); [|cbn in G; lia].
    rewrite !app_nil_r in *. rewrite <- Acc, Hb.
    repeat split; auto. congruence.
Qed.

Lemma sent_length (calls : Calls F) :
  Forall (fun c => sizeOf c = Worker.BATCH_SIZE /\ snd c = true) calls ->
  Z.of_nat (List.length (sent calls)) = 50 * Z.of_nat (List.length calls).
Proof.
  unfold sent. induction 1 as [|[b ok] calls [Hsize _] _ IH]; [reflexivity|].
  cbn [map fst List.concat List.length]. rewrite length_app.
  unfold sizeOf, Worker.BATCH_SIZE in Hsize. cbn [fst] in Hsize. lia.
Qed.


End Ledger.

(** ** The batch writer of the Go port *)

Section GoLedger.
Context {F : Type} `{Float64 F}.
Variable env : Env.
Variables workerID totalWorkers : Z.

Lemma go_client_frame (text : string) (w : World F) :
  exists r w',
    GoPort.generateEmbedding env text w = Some (r, w')
    /\ target w' = target w /\ insertCalls w' = insertCalls w
    /\ handed w' = handed w.
Proof.
  unfold GoPort.generateEmbedding, GoPort.generateEmbeddingWithRetry.
  destruct (retryLoops_agree env (S (Z.to_nat 5)) text 5 0 w w)
    as (r & w1 & w2 & E1 & E2 & S); [simpl; lia | simpl; lia | |].
  { unfold sameTraffic. repeat split. }
  exists r, w2. split; [exact E2|].
  destruct (retryLoop_frame env _ _ _ _ _ _ _ E1) as (T & I & Hh & _).
  destruct S as (_ & T2 & I2 & H2 & _). repeat split; congruence.
Qed.

(** The lookup of the Go loop body, whatever it returns, leaves the target,
    the bulk inserts and the handed records as they are. *)
Lemma go_lookup_frame (id : ObjectId) (w : World F) :
  exists r w',
    findOne env id w = Some (r, w')
    /\ target w' = target w /\ insertCalls w' = insertCalls w
    /\ handed w' = handed w.
Proof.
  unfold findOne, bind, driverCall.
  destruct (driverError env _ _); unfold ret; do 2 eexists;
    (split; [reflexivity|]); repeat split.
Qed.

(** The books of one turn of the Go loop: what was handed over has been
    sent in a bulk insert or is still in the batch. *)
Lemma go_scanOne_ledger (st : Worker.Loop F) (document : option (Property F))
    (w : World F) :
  exists st' w' newHanded (newCalls : Calls F),
    GoPort.scanOne env workerID totalWorkers st document w = Some (st', w')
    /\ handed w' = handed w ++ newHanded
    /\ insertCalls w' = insertCalls w ++ newCalls
    /\ target w' = target w ++ accepted newCalls
    /\ sent newCalls ++ Worker.batchDocuments st' =
       Worker.batchDocuments st ++ newHanded
    /\ (Z.of_nat (List.length (Worker.batchDocuments st)) < GoPort.batchSize ->
        Z.of_nat (List.length (Worker.batchDocuments st')) < GoPort.batchSize
        /\ Forall (fun c => sizeOf c = GoPort.batchSize) newCalls).
Proof.
  unfold GoPort.scanOne.
  destruct (negb _).
  { eexists _, w, [], []. split; [reflexivity|].
    cbn. rewrite !app_nil_r. repeat split; auto. }
  assert (Skip : forall line,
    exists st' w' newHanded (newCalls : Calls F),
      (consoleError line ;;
       ret {| Worker.currentIndex := Worker.currentIndex st + 1;
              Worker.propertiesProcessed := Worker.propertiesProcessed st + 1;
              Worker.batchDocuments := Worker.batchDocuments st |}) w
        = Some (st', w')
      /\ handed w' = handed w ++ newHanded
      /\ insertCalls w' = insertCalls w ++ newCalls
      /\ target w' = target w ++ accepted newCalls
      /\ sent newCalls ++ Worker.batchDocuments st' =
         Worker.batchDocuments st ++ newHanded
      /\ (Z.of_nat (List.length (Worker.batchDocuments st)) < GoPort.batchSize ->
          Z.of_nat (List.length (Worker.batchDocuments st')) < GoPort.batchSize
          /\ Forall (fun c => sizeOf c = GoPort.batchSize) newCalls)).
  { intros line. unfold bind, consoleError, ret. eexists _, _, [], [].
    split; [reflexivity|]. cbn. rewrite !app_nil_r. repeat split; auto. }
  destruct document as [p|]; [|apply Skip].
  destruct (Go.decode p) as [g|]; [|apply Skip].
  unfold bind at 1.
  destruct (go_lookup_frame (Go.ID g) w) as (found & w0 & E0 & T0 & I0 & H0).
  rewrite E0.
  assert (Embed : forall w0',
    target w0' = target w -> insertCalls w0' = insertCalls w ->
    handed w0' = handed w ->
    exists st' w' newHanded (newCalls : Calls F),
      (embedding <- GoPort.generateEmbedding env
                      (Go.createPropertyDescription g) ;;
       match embedding with
       | None =>
           consoleError (ErrorGeneratingEmbedding workerID) ;;
           ret {| Worker.currentIndex := Worker.currentIndex st + 1;
                  Worker.propertiesProcessed :=
                    Worker.propertiesProcessed st + 1;
                  Worker.batchDocuments := Worker.batchDocuments st |}
       | Some values =>
           batch <- push (Worker.batchDocuments st)
                      {| metadata := p; embeddings := values |} ;;
           if Z.of_nat (List.length batch) >=? GoPort.batchSize then
             ok <- insertMany env batch ;;
             (if ok then ret tt
              else consoleError (ErrorInsertingBatch workerID)) ;;
             ret {| Worker.currentIndex := Worker.currentIndex st + 1;
                    Worker.propertiesProcessed :=
                      Worker.propertiesProcessed st + 1;
                    Worker.batchDocuments := [] |}
           else
             ret {| Worker.currentIndex := Worker.currentIndex st + 1;
                    Worker.propertiesProcessed :=
                      Worker.propertiesProcessed st + 1;
                    Worker.batchDocuments := batch |}
       end) w0' = Some (st', w')
      /\ handed w' = handed w ++ newHanded
      /\ insertCalls w' = insertCalls w ++ newCalls
      /\ target w' = target w ++ accepted newCalls
      /\ sent newCalls ++ Worker.batchDocuments st' =
         Worker.batchDocuments st ++ newHanded
      /\ (Z.of_nat (List.length (Worker.batchDocuments st)) < GoPort.batchSize ->
          Z.of_nat (List.length (Worker.batchDocuments st')) < GoPort.batchSize
          /\ Forall (fun c => sizeOf c = GoPort.batchSize) newCalls)).
  { intros w0' T0' I0' H0'. unfold bind at 1.
    destruct (go_client_frame (Go.createPropertyDescription g) w0')
      as (r & w1 & E & T1 & I1 & H1).
    rewrite T0' in T1. rewrite I0' in I1. rewrite H0' in H1.
    rewrite E. destruct r as [v|].
    - unfold bind at 1. unfold push.
      destruct (Z.of_nat _ >=? GoPort.batchSize) eqn:Full.
      + unfold bind at 1. unfold insertMany. cbn [insertCalls pushed].
        destruct (insertSucceeds env _) eqn:Ok; unfold bind, consoleError, ret.
        * eexists _, _, [enrichedWith p v],
            [(Worker.batchDocuments st ++ [enrichedWith p v], true)].
          split; [reflexivity|]. cbn. rewrite !app_nil_r, T1, I1, H1.
          repeat split; auto.
          constructor; [|constructor]. unfold sizeOf. cbn [fst].
          rewrite length_app in *. cbn [List.length] in *.
          unfold GoPort.batchSize in *. lia.
        * eexists _, _, [enrichedWith p v],
            [(Worker.batchDocuments st ++ [enrichedWith p v], false)].
          split; [reflexivity|]. cbn. rewrite !app_nil_r, T1, I1, H1.
          repeat split; auto.
          constructor; [|constructor]. unfold sizeOf. cbn [fst].
          rewrite length_app in *. cbn [List.length] in *.
          unfold GoPort.batchSize in *. lia.
      + unfold ret. eexists _, _, [enrichedWith p v], [].
        split; [reflexivity|]. cbn. rewrite !app_nil_r, ?T1, ?I1, ?H1.
        repeat split; auto. lia.
    - unfold bind, consoleError, ret. eexists _, _, [], [].
      split; [reflexivity|]. cbn. rewrite !app_nil_r, ?T1, ?I1, ?H1.
      repeat split; auto. }
  destruct found as [[entry|] | failure].
  - unfold ret. eexists _, _, [], []. split; [reflexivity|].
    cbn. rewrite !app_nil_r. repeat split; auto.
  - unfold bind at 1. unfold ret at 1. apply Embed; assumption.
  - unfold bind at 1. unfold consoleError at 1. apply Embed; assumption.
Qed.

Lemma go_scan_ledger (docs : list (option (Property F))) (st : Worker.Loop F)
    (w : World F) :
  exists st' w' newHanded (newCalls : Calls F),
    GoPort.scan env workerID totalWorkers st docs w = Some (st', w')
    /\ handed w' = handed w ++ newHanded
    /\ insertCalls w' = insertCalls w ++ newCalls
    /\ target w' = target w ++ accepted newCalls
    /\ sent newCalls ++ Worker.batchDocuments st' =
       Worker.batchDocuments st ++ newHanded
    /\ (Z.of_nat (List.length (Worker.batchDocuments st)) < GoPort.batchSize ->
        Z.of_nat (List.length (Worker.batchDocuments st')) < GoPort.batchSize
        /\ Forall (fun c => sizeOf c = GoPort.batchSize) newCalls).
Proof.
  revert st w. induction docs as [|p docs IH]; intros st w.
  - exists st, w, [], []. cbn. rewrite !app_nil_r. repeat split; auto.
  - destruct (go_scanOne_ledger st p w)
      as (st1 & w1 & h1 & c1 & E1 & H1 & I1 & T1 & B1 & S1).
    destruct (IH st1 w1) as (st' & w' & h2 & c2 & E2 & H2 & I2 & T2 & B2 & S2).
    exists st', w', (h1 ++ h2), (c1 ++ c2).
    split; [cbn [GoPort.scan]; unfold bind; rewrite E1; exact E2|].
    split; [rewrite H2, H1, app_assoc; reflexivity|].
    split; [rewrite I2, I1, app_assoc; reflexivity|].
    split; [rewrite T2, T1, accepted_app, app_assoc; reflexivity|].
    split.
    { rewrite sent_app, <- app_assoc, B2, app_assoc, B1, app_assoc.
      reflexivity. }
    intros Hb. destruct (S1 Hb) as (Sa & Sb).
    destruct (S2 Sa) as (Sd & Se).
    split; [exact Sd | apply Forall_app; auto].
Qed.

(** The Go [processProperties], step by step. *)
Lemma go_processProperties_steps (docs : list (option (Property F)))
    (cursorErr : option string) (w : World F) :
  GoPort.processProperties env workerID totalWorkers docs cursorErr w =
  match driverError env (List.length (driverCalls w)) CreateIndex with
  | Some err =>
      Some ((0, Some (GoPort.wrap "error creating index" err)),
            requested CreateIndex w)
  | None =>
      match driverError env (S (List.length (driverCalls w))) Find with
      | Some err =>
          Some ((0, Some (GoPort.wrap "error finding properties" err)),
                requested Find (requested CreateIndex w))
      | None =>
          match GoPort.scan env workerID totalWorkers Worker.start docs
                  (requested Find (requested CreateIndex w)) with
          | None => None
          | Some (st, w1) =>
              let result :=
                (Worker.propertiesProcessed st,
                 option_map (GoPort.wrap "cursor error") cursorErr) in
              if Z.of_nat (List.length (Worker.batchDocuments st)) >? 0 then
                if insertSucceeds env (List.length (insertCalls w1)) then
                  Some (result, inserted (Worker.batchDocuments st) true w1)
                else
                  Some (result,
                        logged (ErrorInsertingFinalBatch workerID)
                          (inserted (Worker.batchDocuments st) false w1))
              else Some (result, w1)
          end
      end
  end.
Proof.
  unfold GoPort.processProperties.
  unfold bind at 1. unfold driverCall at 1.
  destruct (driverError env _ CreateIndex); [reflexivity|].
  unfold bind at 1. unfold driverCall at 1.
  cbn [driverCalls requested]. rewrite length_app, Nat.add_1_r.
  destruct (driverError env _ Find); [reflexivity|].
  unfold bind at 1.
  destruct (GoPort.scan _ _ _ _ _ _) as [[st w1]|]; [|reflexivity].
  cbv zeta.
  destruct (Z.of_nat (List.length (Worker.batchDocuments st)) >? 0).
  - unfold bind at 1. unfold bind at 1. unfold insertMany.
    destruct (insertSucceeds env _); destruct cursorErr; reflexivity.
  - destruct cursorErr; reflexivity.
Qed.

(** X8.  The Go worker sends every record it hands to the batch writer in
    exactly one bulk insert, in order, whether the insert is accepted or
    not and whether or not the cursor ends with an error; every bulk insert
    but the last holds exactly 50 records, and the target gains the records
    of the accepted ones.  When no call of the driver fails, the error it
    returns is the error of the cursor, wrapped, if there is one. *)
Theorem go_sends_each_record_once (docs : list (option (Property F)))
    (cursorErr : option string) (w : World F) :
  exists n err w' newHanded (full rest : Calls F),
    GoPort.processProperties env workerID totalWorkers docs cursorErr w
      = Some ((n, err), w')
    /\ (storeResponds env ->
        err = option_map (GoPort.wrap "cursor error") cursorErr)
    /\ handed w' = handed w ++ newHanded
    /\ insertCalls w' = insertCalls w ++ full ++ rest
    /\ Forall (fun call => sizeOf call = 50) full
    /\ (rest = [] \/
        exists batch ok, rest = [(batch, ok)]
                         /\ 0 < Z.of_nat (List.length batch) < 50)
    /\ sent (full ++ rest) = newHanded
    /\ target w' = target w ++ accepted (full ++ rest).
Proof.
  rewrite go_processProperties_steps.
  destruct (driverError env _ CreateIndex) eqn:D1.
  { eexists _, _, _, [], [], []. split; [reflexivity|]. cbn.
    rewrite !app_nil_r.
    split; [intros Hs; rewrite Hs in D1; discriminate D1|].
    repeat split; auto. }
  destruct (driverError env _ Find) eqn:D2.
  { eexists _, _, _, [], [], []. split; [reflexivity|]. cbn.
    rewrite !app_nil_r.
    split; [intros Hs; rewrite Hs in D2; discriminate D2|].
    repeat split; auto. }
  destruct (go_scan_ledger docs Worker.start
              (requested Find (requested CreateIndex w)))
    as (st & w1 & h & c & E & Hh & Hi & Ht & Hb & Hs).
  cbn [handed insertCalls target requested] in Hh, Hi, Ht.
  destruct Hs as (Small & Sizes); [cbn; unfold GoPort.batchSize; lia|].
  rewrite E. cbn [Worker.start Worker.batchDocuments app] in Hb.
  unfold GoPort.batchSize in *. cbv zeta.
  destruct (Z.of_nat (List.length (Worker.batchDocuments st)) >? 0) eqn:G.
  - destruct (insertSucceeds env _) eqn:Ok.
    + eexists _, _, _, h, c, [(Worker.batchDocuments st, true)].
      split; [reflexivity|]. split; [reflexivity|]. cbn.
      rewrite Hh, Hi, Ht, sent_app, accepted_app, <- !app_assoc. cbn.
      rewrite !app_nil_r. repeat split; auto.
      right. exists (Worker.batchDocuments st), true.
      split; [reflexivity | lia].
    + eexists _, _, _, h, c, [(Worker.batchDocuments st, false)].
      split; [reflexivity|]. split; [reflexivity|]. cbn.
      rewrite Hh, Hi, Ht, sent_app, accepted_app, <- !app_assoc. cbn.
      rewrite !app_nil_r. repeat split; auto.
      right. exists (Worker.batchDocuments st), false.
      split; [reflexivity | lia].
  - eexists _, _, _, h, c, []. split; [reflexivity|]. split; [reflexivity|].
    destruct (Worker.batchDocuments st); [|cbn in G; lia].
    rewrite !app_nil_r in *. repeat split; auto.
Qed.

End GoLedger.

Lemma batches_of_fifty_witness :
  exists count w' newHanded (full rest : Calls SafeInteger),
    Worker.processProperties (flakyProvider 0) 1 1 (cursorOver (bareSource 51))
      (freshWorld []) = Some (Worker.Returned count, w')
    /\ handed w' = handed (freshWorld (F:=SafeInteger) []) ++ newHanded
    /\ insertCalls w' =
       insertCalls (freshWorld (F:=SafeInteger) []) ++ full ++ rest
    /\ Forall (fun call => sizeOf call = 50 /\ snd call = true) full
    /\ (rest = [] \/
        exists batch, rest = [(batch, true)]
                      /\ 0 < Z.of_nat (List.length batch) < 50)
    /\ sent (full ++ rest) = newHanded
    /\ target w' = target (freshWorld (F:=SafeInteger) []) ++ newHanded.
Proof.
  apply (batches_of_fifty (flakyProvider 0) 1 1 (bareSource 51) (freshWorld [])).
  - intros n. reflexivity.
  - intros n call. reflexivity.
Defined.


(** ** A first run *)

Section FirstRun.
Context {F : Type} `{Float64 F}.
Variable env : Env.
Variable f : string -> Vector.
Hypothesis provider_answers : answersWith env f.
Hypothesis store_responds : storeResponds env.
Variables workerId totalWorkers : Z.

Lemma unknown_iff (entries : list (PropertyWithEmbedding F)) (id : ObjectId) :
  find (fun d => (_id (metadata d) =? id)%string) entries = None <->
  forall d, In d entries -> _id (metadata d) <> id.
Proof.
  split.
  - intros N d Hd E. apply (find_none _ _ N) in Hd. cbn in Hd.
    apply String.eqb_neq in Hd. contradiction.
  - intros N. destruct (find _ entries) as [d|] eqn:E; [|reflexivity].
    apply find_some in E. destruct E as [Hd E]. apply String.eqb_eq in E.
    exfalso. exact (N d Hd E).
Qed.

Lemma ownedFrom_incl (from : Z) (docs : list (Property F)) (q : Property F) :
  In q (ownedFrom workerId totalWorkers from docs) -> In q docs.
Proof.
  revert from. induction docs as [|p docs IH]; intros from Hq; [exact Hq|].
  cbn [ownedFrom] in Hq. apply in_app_or in Hq. destruct Hq as [Hq | Hq].
  - destruct (Worker.ownedBy _ _ _); [|contradiction].
    destruct Hq as [<- | []]. left. reflexivity.
  - right. exact (IH _ Hq).
Qed.

Lemma scanOne_skips (st : Worker.Loop F) (p : Property F) (w : World F) :
  Worker.ownedBy (Worker.currentIndex st) workerId totalWorkers = false ->
  exists st',
    Worker.scanOne env workerId totalWorkers st p w = Some (Resolved st', w)
    /\ Worker.batchDocuments st' = Worker.batchDocuments st
    /\ Worker.currentIndex st' = Worker.currentIndex st + 1.
Proof.
  intros Hown. unfold Worker.scanOne. rewrite Z.add_simpl_r, Hown. cbn [negb].
  unfold ret. eexists. repeat split.
Qed.

(** The scan of records that are new to the target and to the batch: the
    worker hands over its share, each record with the vector of its
    description. *)
Lemma scan_new_records (docs : list (Property F)) (st : Worker.Loop F)
    (w : World F) :
  NoDup (map _id docs) ->
  unknownTo (target w ++ Worker.batchDocuments st)
    (ownedFrom workerId totalWorkers (Worker.currentIndex st) docs) ->
  exists st' w',
    Worker.scan env workerId totalWorkers st docs w = Some (Resolved st', w')
    /\ handed w' =
       handed w ++
       map (entryOf f)
         (ownedFrom workerId totalWorkers (Worker.currentIndex st) docs).
Proof.
  revert st w. induction docs as [|p docs IH]; intros st w Hnd Hun.
  - exists st, w. cbn. rewrite app_nil_r. split; reflexivity.
  - cbn [map] in Hnd. apply NoDup_cons_iff in Hnd. destruct Hnd as [Hp Hnd].
    assert (Hrest : unknownTo (target w ++ Worker.batchDocuments st)
                      (ownedFrom workerId totalWorkers
                         (Worker.currentIndex st + 1) docs)).
    { intros q Hq. apply Hun. cbn [ownedFrom]. apply in_or_app. right.
      exact Hq. }
    cbn [Worker.scan]. unfold bind.
    destruct (Worker.ownedBy (Worker.currentIndex st) workerId totalWorkers)
      eqn:Hown.
    + assert (Habs : find (fun d => (_id (metadata d) =? _id p)%string)
                       (target w) = None).
      { apply unknown_iff. intros d Hd.
        assert (U : find (fun d => (_id (metadata d) =? _id p)%string)
                      (target w ++ Worker.batchDocuments st) = None).
        { apply Hun. cbn [ownedFrom]. rewrite Hown. left. reflexivity. }
        rewrite unknown_iff in U. apply U. apply in_or_app. left. exact Hd. }
      destruct (client_success env (TS.createPropertyDescription p)
                  (requested (FindOne (_id p)) w) 0
                  (f (TS.createPropertyDescription p)))
        as (w1 & E & _ & _ & Hh1 & _);
        [lia | intros i Hi; lia | apply provider_answers |].
      cbn [handed requested] in Hh1.
      destruct (scanOne_fresh env workerId totalWorkers st p w w1 _
                  (conj Hown (conj (store_responds _ _) Habs)) E)
        as (st1 & w2 & E1 & _ & _ & Hh2 & _).
      destruct (scanOne_ledger env workerId totalWorkers st p w)
        as (r & w2' & h & c & pending & E1' & Hh & _ & Ht & Hb & R & _).
      rewrite E1 in E1'. injection E1' as <- <-. subst pending.
      rewrite E1.
      destruct (scanOne_counts env workerId totalWorkers st p w)
        as (rx & wx & Ex & Rx).
      rewrite E1 in Ex. injection Ex as <- <-. destruct Rx as (Ix & _).
      assert (Hnew : h = [entryOf f p]).
      { rewrite Hh2, Hh1 in Hh. apply app_inv_head in Hh. symmetry. exact Hh. }
      subst h.
      destruct (IH st1 w2) as (st' & w' & E2 & Hh'); [exact Hnd | |].
      { rewrite Ix. intros q Hq. apply unknown_iff. intros d Hd.
        rewrite Ht, <- app_assoc, Hb, app_assoc in Hd.
        apply in_app_or in Hd. destruct Hd as [Hd | Hd].
        - assert (U := Hrest q Hq). rewrite unknown_iff in U. exact (U d Hd).
        - destruct Hd as [<- | []]. cbn. intros Eid. apply Hp.
          rewrite Eid. apply in_map. apply ownedFrom_incl in Hq. exact Hq. }
      exists st', w'. split; [exact E2|].
      rewrite Hh', Hh2, Hh1, <- app_assoc. cbn [ownedFrom]. rewrite Hown, Ix.
      reflexivity.
    + destruct (scanOne_skips st p w Hown) as (st1 & E1 & B1 & I1).
      rewrite E1.
      destruct (IH st1 w) as (st' & w' & E2 & Hh'); [exact Hnd | |].
      { rewrite B1, I1. exact Hrest. }
      exists st', w'. split; [exact E2|].
      rewrite Hh', I1. cbn [ownedFrom]. rewrite Hown. reflexivity.
Qed.

(** With no rejected bulk insert, what the scan handed over ends up in the
    target. *)
Lemma processProperties_flushes (docs : list (Property F)) (w : World F) :
  neverRejects env ->
  exists st w1 w' newHanded,
    Worker.scan env workerId totalWorkers Worker.start docs
      (requested CreateIndex w) = Some (Resolved st, w1)
    /\ handed w1 = handed w ++ newHanded
    /\ Worker.processProperties env workerId totalWorkers (cursorOver docs) w
       = Some (Worker.Returned (Worker.propertiesProcessed st), w')
    /\ handed w' = handed w1
    /\ target w' = target w ++ newHanded.
Proof.
  intros Hn. rewrite processProperties_steps, store_responds.
  cbn [cursorOver Worker.documents Worker.fault].
  destruct (scan_ledger env workerId totalWorkers docs Worker.start
              (requested CreateIndex w))
    as (r & w1 & h & c & pending & E & Hh & Hi & Ht & Hb & R & Hs).
  cbn [handed insertCalls target requested] in Hh, Hi, Ht.
  destruct (Hs Hn) as (Small & Sizes); [cbn; unfold Worker.BATCH_SIZE; lia|].
  destruct r as [st | reason].
  2:{ destruct R as (n & call & D). rewrite store_responds in D.
      discriminate D. }
  subst pending.
  assert (Acc : accepted c = sent c).
  { apply accepted_all. eapply Forall_impl; [|exact Sizes]. cbn. tauto. }
  exists st, w1. rewrite E.
  cbn [Worker.start Worker.batchDocuments app] in Hb.
  destruct (Z.of_nat (List.length (Worker.batchDocuments st)) >? 0) eqn:G.
  - rewrite Hn.
    eexists _, h. split; [reflexivity|]. split; [exact Hh|].
    split; [reflexivity|]. cbn. split; [reflexivity|].
    rewrite Ht, <- app_assoc, Hb. reflexivity.
  - eexists _, h. split; [reflexivity|]. split; [exact Hh|].
    split; [reflexivity|]. split; [reflexivity|].
    destruct (Worker.batchDocuments st); [|cbn in G; lia].
    rewrite app_nil_r in Hb. rewrite Ht, Hb. reflexivity.
Qed.

Lemma worker_first_run (docs : list (Property F)) (w : World F) :
  neverRejects env ->
  NoDup (map _id docs) ->
  unknownTo (target w) (ownedFrom workerId totalWorkers 0 docs) ->
  exists c w',
    Worker.processProperties env workerId totalWorkers (cursorOver docs) w
      = Some (c, w')
    /\ target w' =
       target w ++ map (entryOf f) (ownedFrom workerId totalWorkers 0 docs).
Proof.
  intros Hn Hnd Hun.
  destruct (processProperties_flushes docs w Hn)
    as (st & w1 & w' & h & E & Hh & P & _ & Ht).
  destruct (scan_new_records docs Worker.start (requested CreateIndex w) Hnd)
    as (st2 & w2 & E2 & Hh2).
  { cbn [Worker.start Worker.batchDocuments Worker.currentIndex target
         requested].
    rewrite app_nil_r. exact Hun. }
  rewrite E in E2. injection E2 as <- <-.
  cbn [Worker.start Worker.currentIndex handed requested] in Hh2.
  rewrite Hh2 in Hh. apply app_inv_head in Hh. subst h.
  eexists _, w'. split; [exact P | exact Ht].
Qed.

End FirstRun.
Section Positions.
Context {F : Type}.
Variable totalWorkers : Z.

Lemma ownedFrom_position (workerId from : Z) (docs : list (Property F))
    (q : Property F) :
  In q (ownedFrom workerId totalWorkers from docs) ->
  exists k, nth_error docs k = Some q
            /\ Worker.ownedBy (from + Z.of_nat k) workerId totalWorkers = true.
Proof.
  revert from. induction docs as [|p docs IH]; intros from Hq; [contradiction|].
  cbn [ownedFrom] in Hq. apply in_app_or in Hq. destruct Hq as [Hq | Hq].
  - destruct (Worker.ownedBy from workerId totalWorkers) eqn:O; [|contradiction].
    destruct Hq as [<- | []]. exists 0%nat. split; [reflexivity|].
    rewrite Z.add_0_r. exact O.
  - destruct (IH _ Hq) as (k & Hk & O). exists (S k). split; [exact Hk|].
    replace (from + Z.of_nat (S k)) with (from + 1 + Z.of_nat k) by lia.
    exact O.
Qed.

Lemma one_owner_at_most (i w1 w2 : Z) :
  Worker.ownedBy i w1 totalWorkers = true ->
  Worker.ownedBy i w2 totalWorkers = true -> w1 = w2.
Proof.
  unfold Worker.ownedBy. destruct (Worker.remainder i totalWorkers);
    [lia | discriminate].
Qed.

(** Two workers never own records with the same identifier, when the
    identifiers of the source are distinct. *)
Lemma shares_have_distinct_ids (w1 w2 : Z) (docs : list (Property F))
    (p q : Property F) :
  NoDup (map _id docs) -> w1 <> w2 ->
  In p (ownedFrom w1 totalWorkers 0 docs) ->
  In q (ownedFrom w2 totalWorkers 0 docs) ->
  _id p <> _id q.
Proof.
  intros Hnd Hne Hp Hq Eid.
  destruct (ownedFrom_position _ _ _ _ Hp) as (k1 & N1 & O1).
  destruct (ownedFrom_position _ _ _ _ Hq) as (k2 & N2 & O2).
  assert (K : k1 = k2).
  { apply (proj1 (NoDup_nth_error (map _id docs)) Hnd).
    - rewrite length_map. apply nth_error_Some. congruence.
    - rewrite !nth_error_map, N1, N2. cbn. congruence. }
  subst k2. apply Hne. exact (one_owner_at_most _ _ _ O1 O2).
Qed.

Lemma shares_cover_positions (ids : list Z) (from : Z)
    (docs : list (Property F)) :
  (forall k, (k < List.length docs)%nat ->
     List.length
       (filter (fun w => Worker.ownedBy (from + Z.of_nat k) w totalWorkers) ids)
     = 1%nat) ->
  Permutation
    (List.concat (map (fun w => ownedFrom w totalWorkers from docs) ids)) docs.
Proof.
  revert from. induction docs as [|p docs IH]; intros from Hone.
  - cbn [ownedFrom]. rewrite concat_map_nil. constructor.
  - assert (H1 := Hone 0%nat ltac:(cbn; lia)). rewrite Z.add_0_r in H1.
    eapply perm_trans.
    + rewrite (map_ext _
          (fun w => if Worker.ownedBy from w totalWorkers
                    then p :: ownedFrom w totalWorkers (from + 1) docs
                    else ownedFrom w totalWorkers (from + 1) docs)).
      2:{ intros w. cbn [ownedFrom]. destruct (Worker.ownedBy _ _ _); reflexivity. }
      apply share_cons. lia.
    + rewrite H1. cbn. constructor. apply IH.
      intros k Hk.
      replace (from + 1 + Z.of_nat k) with (from + Z.of_nat (S k)) by lia.
      apply Hone. cbn. lia.
Qed.

End Positions.

Section FirstPipeline.
Context {F : Type} `{Float64 F}.
Variable env : Env.
Variable f : string -> Vector.
Hypothesis provider_answers : answersWith env f.
Hypothesis inserts_accepted : neverRejects env.
Hypothesis store_responds : storeResponds env.

Lemma runWorkers_first_run (ids : list Z) (totalWorkers : Z)
    (docs : list (Property F)) (w : World F) :
  NoDup ids ->
  NoDup (map _id docs) ->
  (forall id, In id ids ->
     unknownTo (target w) (ownedFrom id totalWorkers 0 docs)) ->
  exists cs w',
    Worker.runWorkers env ids totalWorkers (cursorOver docs) w = Some (cs, w')
    /\ target w' =
       target w ++
       map (entryOf f)
         (List.concat (map (fun id => ownedFrom id totalWorkers 0 docs) ids)).
Proof.
  revert w. induction ids as [|id ids IH]; intros w Hids Hnd Hun.
  - exists [], w. cbn. rewrite app_nil_r. split; reflexivity.
  - apply NoDup_cons_iff in Hids. destruct Hids as [Hid Hids].
    destruct (worker_first_run env f provider_answers store_responds id
                totalWorkers docs w
                inserts_accepted Hnd (Hun id (or_introl eq_refl)))
      as (c & w1 & E1 & T1).
    destruct (IH w1 Hids Hnd) as (cs & w' & E & T).
    { intros id' Hid' q Hq. apply unknown_iff. intros d Hd.
      rewrite T1 in Hd. apply in_app_or in Hd. destruct Hd as [Hd | Hd].
      - assert (U := Hun id' (or_intror Hid') q Hq).
        rewrite unknown_iff in U. exact (U d Hd).
      - apply in_map_iff in Hd. destruct Hd as (p & <- & Hp). cbn.
        apply (shares_have_distinct_ids totalWorkers id id' docs p q Hnd);
          [intros ->; contradiction | exact Hp | exact Hq]. }
    exists (c :: cs), w'. split.
    + cbn [Worker.runWorkers]. unfold bind. rewrite E1, E. reflexivity.
    + rewrite T, T1. cbn [map List.concat]. rewrite map_app, app_assoc.
      reflexivity.
Qed.

End FirstPipeline.


(** ** The primary, whatever arrives *)

Section PrimaryOutcome.
Variable maxWorkers : Z.

Lemma handle_outcome (events : list Primary.Event) (st : Primary.State) :
  let st' := fold_left (Primary.handle maxWorkers) events st in
  let n := Z.of_nat (List.length (completions events)) in
  Primary.completedWorkers st' = Primary.completedWorkers st + n
  /\ Primary.totalProcessed st' = Primary.totalProcessed st + reported events
  /\ Primary.exited st' =
     if (Primary.completedWorkers st <? maxWorkers)
        && (maxWorkers <=? Primary.completedWorkers st + n)
     then Some 0 else Primary.exited st.
Proof.
  revert st. induction events as [|e events IH]; intros st; cbn zeta.
  - cbn. repeat split; try lia.
    destruct (Primary.completedWorkers st <? maxWorkers) eqn:A;
      destruct (maxWorkers <=? Primary.completedWorkers st + 0) eqn:B;
      cbn; try reflexivity; lia.
  - cbn [fold_left]. destruct (IH (Primary.handle maxWorkers st e))
      as (C & T & X). clear IH.
    rewrite C, T, X. unfold reported, completions. cbn [map filter fold_right].
    destruct e as [m | id code]; cbn [Primary.handle countOf].
    + unfold Primary.onMessage.
      destruct (Primary.type m =? "complete")%string eqn:Ty.
      * cbn [List.length].
        destruct (Primary.completedWorkers st + 1 =? maxWorkers) eqn:Q;
          cbn [Primary.completedWorkers Primary.totalProcessed Primary.exited];
          (split; [lia|]); (split; [lia|]).
        -- replace (Primary.completedWorkers st + 1 <? maxWorkers) with false
             by lia.
           replace (Primary.completedWorkers st <? maxWorkers) with true by lia.
           cbn [andb].
           match goal with
           | |- _ = (if ?b then _ else _) => replace b with true by lia
           end. reflexivity.
        -- match goal with
           | |- (if ?a then _ else _) = (if ?b then _ else _) =>
               replace b with a by lia
           end. reflexivity.
      * destruct (Primary.type m =? "error")%string;
          cbn [Primary.completedWorkers Primary.totalProcessed Primary.exited];
          repeat split; try lia; reflexivity.
    + unfold Primary.onExit. destruct (negb (code =? 0));
        cbn [Primary.completedWorkers Primary.totalProcessed Primary.exited];
        repeat split; try lia; reflexivity.
Qed.


End PrimaryOutcome.

Lemma completions_perm (e1 e2 : list Primary.Event) :
  Permutation e1 e2 ->
  List.length (completions e1) = List.length (completions e2).
Proof.
  intros P. unfold completions. apply Permutation_length.
  induction P; cbn.
  - constructor.
  - destruct (match x with Primary.Message m => _ | Primary.Exit _ _ => false end);
      [constructor|]; exact IHP.
  - destruct (match x with Primary.Message m => _ | Primary.Exit _ _ => false end);
      destruct (match y with Primary.Message m => _ | Primary.Exit _ _ => false end);
      try constructor; apply Permutation_refl.
  - eapply perm_trans; eassumption.
Qed.

Lemma reported_perm (e1 e2 : list Primary.Event) :
  Permutation e1 e2 -> reported e1 = reported e2.
Proof.
  unfold reported. induction 1; cbn; lia.
Qed.

(** X11.  The count of completed workers, the total and the exit of the
    primary do not depend on the order in which the events arrive. *)
Theorem primary_outcome_ignores_order (maxWorkers : Z)
    (e1 e2 : list Primary.Event) :
  Permutation e1 e2 ->
  Primary.completedWorkers (Primary.primaryProcess maxWorkers e1) =
    Primary.completedWorkers (Primary.primaryProcess maxWorkers e2)
  /\ Primary.totalProcessed (Primary.primaryProcess maxWorkers e1) =
     Primary.totalProcessed (Primary.primaryProcess maxWorkers e2)
  /\ Primary.exited (Primary.primaryProcess maxWorkers e1) =
     Primary.exited (Primary.primaryProcess maxWorkers e2).
Proof.
  intros P. unfold Primary.primaryProcess.
  set (st0 := {| Primary.completedWorkers := 0; Primary.totalProcessed := 0;
                 Primary.console := []; Primary.exited := None |}).
  destruct (handle_outcome maxWorkers e1 st0) as (C1 & T1 & X1).
  destruct (handle_outcome maxWorkers e2 st0) as (C2 & T2 & X2).
  rewrite C1, C2, T1, T2, X1, X2.
  rewrite (completions_perm e1 e2 P), (reported_perm e1 e2 P).
  repeat split.
Qed.

Lemma primary_outcome_ignores_order_witness :
  Primary.completedWorkers (Primary.primaryProcess 4 oneWorkerFails) =
    Primary.completedWorkers (Primary.primaryProcess 4 (rev oneWorkerFails))
  /\ Primary.totalProcessed (Primary.primaryProcess 4 oneWorkerFails) =
     Primary.totalProcessed (Primary.primaryProcess 4 (rev oneWorkerFails))
  /\ Primary.exited (Primary.primaryProcess 4 oneWorkerFails) =
     Primary.exited (Primary.primaryProcess 4 (rev oneWorkerFails)).
Proof.
  apply (primary_outcome_ignores_order 4 oneWorkerFails (rev oneWorkerFails)).
  apply Permutation_rev.
Defined.

(** ** The Go [main], whatever the workers report *)

Lemma collect_outcome (workers : Z) (results : list GoPort.WorkerResult)
    (st : Primary.State) :
  let st' := fold_left (GoPort.collectOne workers) results st in
  Primary.completedWorkers st' =
    Primary.completedWorkers st + Z.of_nat (List.length results)
  /\ Primary.totalProcessed st' = Primary.totalProcessed st + successes results.
Proof.
  revert st. induction results as [|r results IH]; intros st; cbn zeta.
  - cbn. split; lia.
  - cbn [fold_left]. destruct (IH (GoPort.collectOne workers st r)) as (C & T).
    rewrite C, T. unfold successes. cbn [map fold_right List.length].
    unfold GoPort.collectOne.
    cbn [Primary.completedWorkers Primary.totalProcessed].
    destruct (GoPort.Error r); split; lia.
Qed.

(** X12.  The Go [main] counts every result, failed or not, adds up the
    counts of the results without an error, and returns. *)
Theorem go_main_outcome (workers : Z) (results : list GoPort.WorkerResult) :
  Primary.completedWorkers (GoPort.main workers results) =
    Z.of_nat (List.length results)
  /\ Primary.totalProcessed (GoPort.main workers results) = successes results
  /\ Primary.exited (GoPort.main workers results) = Some 0.
Proof.
  unfold GoPort.main.
  cbn [Primary.completedWorkers Primary.totalProcessed Primary.exited].
  destruct (collect_outcome workers results
              {| Primary.completedWorkers := 0; Primary.totalProcessed := 0;
                 Primary.console := []; Primary.exited := None |}) as (C & T).
  cbn zeta in C, T. rewrite C, T. repeat split.
Qed.

(** ** The whole script *)

Section WholeRun.
Context {F : Type} `{Float64 F}.
Variable env : Env.
Variable totalWorkers : Z.

(** How [workerProcess] ends: with the count of [processProperties], or
    with the fault of the cursor or the error of a call of the driver. *)
Lemma workerProcess_ends (workerId : Z) (cursor : Worker.Cursor F)
    (w : World F) :
  exists c w',
    Run.workerProcess env workerId totalWorkers cursor w = Some (c, w')
    /\ match c with
       | Worker.Returned count =>
           Worker.fault cursor = None
           /\ count =
              ownedCount (List.length (Worker.documents cursor))
                workerId totalWorkers
       | Worker.Thrown reason =>
           Worker.fault cursor = Some reason \/ driverFailedWith env reason
       end.
Proof.
  unfold Run.workerProcess.
  unfold bind at 1. unfold perform at 1. unfold bind, driverCall.
  destruct (driverError env _ Connect) as [reason|] eqn:D.
  { unfold ret, consoleError. do 2 eexists. split; [reflexivity|].
    right. do 2 eexists. exact D. }
  unfold ret.
  destruct (processProperties_ends env workerId totalWorkers cursor
              (requested Connect w)) as (c & w1 & E & R).
  rewrite E. destruct c as [count | reason].
  - unfold perform, bind, driverCall.
    destruct (driverError env _ Close) as [reason|] eqn:D';
      unfold ret, consoleError; do 2 eexists; (split; [reflexivity|]).
    + right. do 2 eexists. exact D'.
    + exact R.
  - unfold consoleError. do 2 eexists. split; [reflexivity | exact R].
Qed.

Lemma completions_app (e1 e2 : list Primary.Event) :
  completions (e1 ++ e2) = completions e1 ++ completions e2.
Proof. apply filter_app. Qed.

Lemma reported_app (e1 e2 : list Primary.Event) :
  reported (e1 ++ e2) = reported e1 + reported e2.
Proof.
  unfold reported. induction e1 as [|e e1 IH]; cbn [app map fold_right]; lia.
Qed.

(** When the cursors end and no call of the driver fails, every worker
    sends a message of type [complete], with the count of its share. *)
Lemma workers_complete (docs : list (Property F)) (ids : list Z)
    (w : World F) :
  storeResponds env ->
  exists events w',
    Run.workers env ids totalWorkers (cursorOver docs) w = Some (events, w')
    /\ List.length (completions events) = List.length ids
    /\ reported events =
       Z.of_nat
         (List.length
            (List.concat
               (map (fun id => ownedIndices (List.length docs) id totalWorkers)
                  ids))).
Proof.
  intros Hs. revert w. induction ids as [|id ids IH]; intros w.
  - exists [], w. repeat split.
  - destruct (workerProcess_ends id (cursorOver docs) w) as (c & w1 & E1 & R).
    destruct (IH w1) as (events & w' & E & N & T).
    cbn [Run.workers]. unfold bind. rewrite E1, E. unfold ret.
    do 2 eexists. split; [reflexivity|].
    destruct c as [count | reason].
    + destruct R as (_ & ->).
      rewrite completions_app, reported_app, !length_app, N, T.
      cbn [map List.concat]. rewrite length_app.
      unfold ownedCount. cbn [cursorOver Worker.documents].
      split; [reflexivity|].
      change (reported (Run.workerEvents id (Worker.Returned ?n))) with (n + 0).
      lia.
    + exfalso. destruct R as [R | (n & call & D)]; [discriminate R|].
      rewrite Hs in D. discriminate D.
Qed.

(** When the cursors fault, no worker sends a message of type
    [complete]. *)
Lemma workers_fail (cursor : Worker.Cursor F) (ids : list Z) (w : World F) :
  Worker.fault cursor <> None ->
  exists events w',
    Run.workers env ids totalWorkers cursor w = Some (events, w')
    /\ completions events = [] /\ reported events = 0.
Proof.
  intros Hf. revert w. induction ids as [|id ids IH]; intros w.
  - exists [], w. repeat split.
  - destruct (workerProcess_ends id cursor w) as (c & w1 & E1 & R).
    destruct (IH w1) as (events & w' & E & N & T).
    cbn [Run.workers]. unfold bind. rewrite E1, E. unfold ret.
    do 2 eexists. split; [reflexivity|].
    destruct c as [count | reason].
    + exfalso. destruct R as (R & _). contradiction.
    + rewrite completions_app, reported_app, N, T. split; reflexivity.
Qed.

End WholeRun.

(** X13.  When the cursors end without a fault and no call of the driver
    fails, a run with at least one worker ends with every worker counted,
    the exit scheduled with code 0, and a reported total that is the number
    of records of the source, whatever the provider answered and whichever
    bulk inserts the target rejected. *)
Theorem whole_run_reports_the_source_size {F : Type} `{Float64 F} (env : Env)
    (maxWorkers : nat) (docs : list (Property F)) (w : World F) :
  storeResponds env ->
  (1 <= maxWorkers)%nat ->
  exists st w',
    Run.program env maxWorkers (cursorOver docs) w = Some (st, w')
    /\ Primary.completedWorkers st = Z.of_nat maxWorkers
    /\ Primary.totalProcessed st = Z.of_nat (List.length docs)
    /\ Primary.exited st = Some 0.
Proof.
  intros Hs Hw. unfold Run.program.
  destruct (workers_complete env (Z.of_nat maxWorkers) docs
              (Worker.workerIds maxWorkers) w Hs) as (events & w' & E & N & R).
  unfold bind. rewrite E. unfold ret. eexists _, w'. split; [reflexivity|].
  unfold Primary.primaryProcess.
  match goal with
  | |- context [fold_left _ ?ev ?st0] =>
      destruct (handle_outcome (Z.of_nat maxWorkers) ev st0) as (C & T & X)
  end.
  cbn zeta in C, T, X.
  rewrite C, T, X, N, R.
  cbn [Primary.completedWorkers Primary.totalProcessed Primary.exited].
  assert (L : List.length (Worker.workerIds maxWorkers) = maxWorkers).
  { unfold Worker.workerIds. now rewrite length_map, length_seq. }
  rewrite L. split; [lia|]. split.
  - f_equal.
    assert (P : Permutation
                  (List.concat
                     (map (fun id => ownedIndices (List.length docs) id
                                       (Z.of_nat maxWorkers))
                        (Worker.workerIds maxWorkers)))
                  (scanIndices (List.length docs))).
    { unfold ownedIndices. apply shares_cover. intros x Hx.
      apply one_owner; [|exact Hw].
      unfold scanIndices in Hx. apply in_map_iff in Hx.
      destruct Hx as (k & <- & _). lia. }
    rewrite (Permutation_length P). unfold scanIndices.
    now rewrite length_map, length_seq.
  - replace (0 <? Z.of_nat maxWorkers) with true by lia.
    replace (Z.of_nat maxWorkers <=? 0 + Z.of_nat maxWorkers) with true by lia.
    reflexivity.
Qed.

Lemma whole_run_reports_the_source_size_witness :
  exists st w',
    Run.program failingProvider 4 (cursorOver [rental; emptyLot; forRent])
      (freshWorld []) = Some (st, w')
    /\ Primary.completedWorkers st = Z.of_nat 4
    /\ Primary.totalProcessed st =
       Z.of_nat (List.length [rental; emptyLot; forRent])
    /\ Primary.exited st = Some 0.
Proof.
  apply (whole_run_reports_the_source_size failingProvider 4
           [rental; emptyLot; forRent] (freshWorld [])).
  - intros n call. reflexivity.
  - lia.
Defined.

(** X14.  When the cursors fault, every worker reports an error and exits:
    the primary counts no worker, reports nothing and never schedules its
    exit. *)
Theorem whole_run_hangs_on_a_cursor_fault {F : Type} `{Float64 F} (env : Env)
    (maxWorkers : nat) (docs : list (Property F)) (reason : string)
    (w : World F) :
  exists st w',
    Run.program env maxWorkers
      {| Worker.documents := docs; Worker.fault := Some reason |} w
      = Some (st, w')
    /\ Primary.completedWorkers st = 0
    /\ Primary.totalProcessed st = 0
    /\ Primary.exited st = None.
Proof.
  unfold Run.program.
  destruct (workers_fail env (Z.of_nat maxWorkers)
              {| Worker.documents := docs; Worker.fault := Some reason |}
              (Worker.workerIds maxWorkers) w) as (events & w' & E & N & R);
    [discriminate|].
  unfold bind. rewrite E. unfold ret. eexists _, w'. split; [reflexivity|].
  unfold Primary.primaryProcess.
  match goal with
  | |- context [fold_left _ ?ev ?st0] =>
      destruct (handle_outcome (Z.of_nat maxWorkers) ev st0) as (C & T & X)
  end.
  cbn zeta in C, T, X. rewrite C, T, X, N, R.
  cbn [Primary.completedWorkers Primary.totalProcessed Primary.exited
       List.length].
  repeat split.
  destruct (0 <? Z.of_nat maxWorkers) eqn:P; cbn [andb]; [|reflexivity].
  replace (Z.of_nat maxWorkers <=? 0 + Z.of_nat 0) with false by lia.
  reflexivity.
Qed.

(** ** More on the description builders *)

Section MoreBuilderFacts.
Context {F : Type} `{Float64 F}.
Local Open Scope string_scope.

(** X15.  The Go builder prints a Location line for every record: the test
    against two bare commas never fails, and a record without region, city
    and state gets the line of the commas alone. *)
Theorem go_always_prints_location (p : Go.PropertyStruct F) :
  In ("Location: " ++
      Str.TrimSpace (Go.Region p ++ ", " ++ Go.City p ++ ", " ++ Go.State p))
     (Go.descriptionLines p)
  /\ (Go.Region p = "" -> Go.City p = "" -> Go.State p = "" ->
      In "Location: , ," (Go.descriptionLines p)).
Proof.
  assert (A : In ("Location: " ++
      Str.TrimSpace (Go.Region p ++ ", " ++ Go.City p ++ ", " ++ Go.State p))
     (Go.descriptionLines p)).
  { unfold Go.descriptionLines. cbv zeta. rewrite trim_location_guard.
    apply in_or_app. right. apply in_or_app. right. apply in_or_app. left.
    left. reflexivity. }
  split; [exact A|]. intros R C S. rewrite R, C, S in A. exact A.
Qed.

Lemma endsWith_one (a v : string) (c : ascii) :
  v <> "" ->
  Str.endsWith (a ++ v) (String c "") = Str.endsWith v (String c "").
Proof.
  intros Hv. induction a as [|x a IH]; cbn [String.append]; [reflexivity|].
  cbn [Str.endsWith]. rewrite IH.
  replace (String x (a ++ v) =? String c "") with false; [reflexivity|].
  symmetry. apply String.eqb_neq. intros E. injection E as _ E.
  destruct a; cbn in E; [contradiction | discriminate E].
Qed.

(** A line that starts with an ASCII character other than white space, and
    ends with a text that is not empty and does not end in a space, is
    kept. *)
Lemma keepLine_ending (c : ascii) (a v : string) :
  Str.isAscii c = true -> Str.isSpace c = false ->
  v <> "" -> Str.endsWith v " " = false ->
  TS.keepLine (String c a ++ v) = true.
Proof.
  intros Ha Hs Hv He. unfold TS.keepLine.
  change (String c a ++ v) with (String c (a ++ v)).
  rewrite trim_keeps_head by assumption.
  change (String c (a ++ v)) with (String c a ++ v).
  destruct (Str.endsWith (String c a ++ v) ": ") eqn:K; [|reflexivity].
  apply endsWith_tail in K. rewrite endsWith_one in K by exact Hv. congruence.
Qed.

Lemma keepLine_unit (label x : string) (c : ascii) :
  Str.isAscii c = true -> Str.isSpace c = false ->
  TS.keepLine (String c label ++ x ++ " mÂ²") = true.
Proof.
  intros Ha Hc. rewrite <- append_assoc.
  apply keepLine_ending; try assumption; [discriminate | reflexivity].
Qed.

(** X16.  The TypeScript builder prints the Area line, the Total Area line,
    the four count lines and the Exclusive line for every record, whatever
    the fields hold. *)
Theorem ts_always_prints_seven_lines (p : Property F) :
  In ("Area: " ++ TS.showOrZero (area p) ++ " mÂ²") (TS.descriptionLines p)
  /\ In ("Total Area: " ++ TS.showOrZero (totalArea p) ++ " mÂ²")
        (TS.descriptionLines p)
  /\ In ("Bedrooms: " ++ TS.showOrZero (bedrooms p)) (TS.descriptionLines p)
  /\ In ("Suites: " ++ TS.showOrZero (suites p)) (TS.descriptionLines p)
  /\ In ("Bathrooms: " ++ TS.showOrZero (bathrooms p)) (TS.descriptionLines p)
  /\ In ("Parking Spots: " ++ TS.showOrZero (parkingSpots p))
        (TS.descriptionLines p)
  /\ In ("Exclusive: " ++ match isExclusive p with
                          | Some true => "Yes"
                          | _ => "No"
                          end) (TS.descriptionLines p).
Proof.
  unfold TS.descriptionLines.
  repeat split; apply filter_In; (split; [unfold TS.templateLines; cbn [In]; tauto|]).
  - apply (keepLine_unit "rea: " _ "A"); reflexivity.
  - apply (keepLine_unit "otal Area: " _ "T"); reflexivity.
  - apply keepLine_shown. reflexivity.
  - apply keepLine_shown. reflexivity.
  - apply keepLine_shown. reflexivity.
  - apply keepLine_shown. reflexivity.
  - destruct (isExclusive p) as [[|]|]; reflexivity.
Qed.

Ltac decide_prefixes :=
  rewrite ?prefix_of_append;
  repeat match goal with
         | |- context [String.prefix ?l ?s] =>
             first
               [ replace (String.prefix l s) with false by reflexivity
               | replace (String.prefix l s) with true by reflexivity ]
         end.

Lemma price_lines_labelled (g : string -> bool) (c1 c2 : bool) (x y : string)
    (rest : list string) :
  g ("Price: Rent $" ++ x) = false -> g ("Price: Sale $" ++ y) = false ->
  filter g
    ((if c1 then [("Price: Rent $" ++ x)%string]
      else Go.appendIf c2 ("Price: Sale $" ++ y)%string) ++ rest)%list =
  filter g rest.
Proof.
  intros G1 G2. destruct c1, c2; cbn [Go.appendIf app filter];
    rewrite ?G1, ?G2; reflexivity.
Qed.

Lemma lines_with_label (label : string) (p : Go.PropertyStruct F) :
  label = "Bedrooms: " \/ label = "Suites: " \/ label = "Bathrooms: "
  \/ label = "Parking Spots: " ->
  filter (String.prefix label) (Go.descriptionLines p) =
  (Go.appendIf ((0 <? Go.Bedrooms p)%Z && String.prefix label "Bedrooms: ")
     ("Bedrooms: " ++ Str.ofZ (Go.Bedrooms p))
   ++ Go.appendIf ((0 <? Go.Suites p)%Z && String.prefix label "Suites: ")
        ("Suites: " ++ Str.ofZ (Go.Suites p))
   ++ Go.appendIf ((0 <? Go.Bathrooms p)%Z && String.prefix label "Bathrooms: ")
        ("Bathrooms: " ++ Str.ofZ (Go.Bathrooms p))
   ++ Go.appendIf
        ((0 <? Go.ParkingSpots p)%Z && String.prefix label "Parking Spots: ")
        ("Parking Spots: " ++ Str.ofZ (Go.ParkingSpots p)))%list.
Proof.
  intros L. unfold Go.descriptionLines. cbv zeta.
  change ([("Exclusive: " ++ Go.boolToYesNo (Go.IsExclusive p))%string] ++ ?r)%list
    with (Go.appendIf true ("Exclusive: " ++ Go.boolToYesNo (Go.IsExclusive p)) ++ r)%list.
  rewrite <- (app_nil_r (Go.appendIf _ ("Features: " ++ _))).
  destruct L as [-> | [-> | [-> | ->]]];
    rewrite !filter_appendIf, price_lines_labelled, !filter_appendIf
      by reflexivity;
    decide_prefixes; rewrite ?andb_false_r, ?andb_true_r;
    cbn [app filter Go.appendIf]; rewrite ?app_nil_r; reflexivity.
Qed.

(** X17.  The Go builder prints a count line exactly when the count is
    positive: under each of the four count labels the description has the
    one line of a positive count and no line otherwise. *)
Theorem go_prints_positive_counts_only (p : Go.PropertyStruct F) :
  filter (String.prefix "Bedrooms: ") (Go.descriptionLines p) =
    Go.appendIf (0 <? Go.Bedrooms p)%Z ("Bedrooms: " ++ Str.ofZ (Go.Bedrooms p))
  /\ filter (String.prefix "Suites: ") (Go.descriptionLines p) =
     Go.appendIf (0 <? Go.Suites p)%Z ("Suites: " ++ Str.ofZ (Go.Suites p))
  /\ filter (String.prefix "Bathrooms: ") (Go.descriptionLines p) =
     Go.appendIf (0 <? Go.Bathrooms p)%Z
       ("Bathrooms: " ++ Str.ofZ (Go.Bathrooms p))
  /\ filter (String.prefix "Parking Spots: ") (Go.descriptionLines p) =
     Go.appendIf (0 <? Go.ParkingSpots p)%Z
       ("Parking Spots: " ++ Str.ofZ (Go.ParkingSpots p)).
Proof.
  repeat split; rewrite lines_with_label by tauto;
    cbn [String.prefix]; decide_prefixes;
    rewrite ?andb_false_r, ?andb_true_r; cbn [Go.appendIf app];
    rewrite ?app_nil_r; reflexivity.
Qed.

Lemma prefix_toLower (sub s : string) :
  Str.toLower sub = sub ->
  String.prefix sub s = true -> String.prefix sub (Str.toLower s) = true.
Proof.
  revert s. induction sub as [|a sub IH]; intros s Hl Hp.
  - destruct s; reflexivity.
  - destruct s as [|b s]; [discriminate Hp|].
    cbn [Str.toLower] in Hl. injection Hl as Ha Hs.
    cbn [String.prefix Str.toLower] in *.
    destruct (ascii_dec a b) as [<- | ]; [|discriminate Hp].
    rewrite Ha. destruct (ascii_dec a a); [|congruence].
    apply IH; assumption.
Qed.

Lemma includes_toLower (sub s : string) :
  Str.toLower sub = sub ->
  Str.includes s sub = true -> Str.includes (Str.toLower s) sub = true.
Proof.
  intros Hl. induction s as [|b s IH]; cbn [Str.includes Str.toLower]; intros Hi.
  - rewrite orb_false_r in *. exact (prefix_toLower sub "" Hl Hi).
  - apply orb_true_iff in Hi. apply orb_true_iff. destruct Hi as [Hi | Hi].
    + left. exact (prefix_toLower sub (String b s) Hl Hi).
    + right. exact (IH Hi).
Qed.

Lemma filter_twice_cons (f g : string -> bool) (x : string) (l : list string) :
  filter g (filter f (x :: l)) =
  ((if f x && g x then [x] else []) ++ filter g (filter f l))%list.
Proof. simpl. destruct (f x); simpl; [destruct (g x)|]; reflexivity. Qed.

(** The price line of the TypeScript builder is always printed, and it is
    the only line under its label. *)
Lemma ts_price_line (p : Property F) :
  filter (String.prefix "Price: ") (TS.descriptionLines p) =
  [ "Price: " ++ (if TS.isRent p
                  then "Rent $" ++ TS.showOrZero (rentPrice p)
                  else "Sale $" ++ TS.showOrZero (askingPrice p)) ].
Proof.
  unfold TS.descriptionLines, TS.templateLines.
  rewrite !filter_twice_cons. cbn [filter].
  assert (K : TS.keepLine
                ("Price: " ++ (if TS.isRent p
                               then "Rent $" ++ TS.showOrZero (rentPrice p)
                               else "Sale $" ++ TS.showOrZero (askingPrice p)))
              = true).
  { destruct (TS.isRent p).
    - destruct (shown_text (rentPrice p)) as [N E].
      apply (keepLine_ending "P" "rice: Rent $"); auto.
    - destruct (shown_text (askingPrice p)) as [N E].
      apply (keepLine_ending "P" "rice: Sale $"); auto. }
  rewrite K.
  decide_prefixes. rewrite ?andb_false_r. reflexivity.
Qed.

(** The price lines of the Go builder. *)
Lemma go_price_lines (g : Go.PropertyStruct F) :
  filter (String.prefix "Price: ") (Go.descriptionLines g) =
  if Go.isRent g && greaterThanZero (Go.RentPrice g)
  then ["Price: Rent $" ++ fmt2f (Go.RentPrice g)]
  else Go.appendIf (greaterThanZero (Go.AskingPrice g))
         ("Price: Sale $" ++ fmt2f (Go.AskingPrice g)).
Proof.
  unfold Go.descriptionLines. cbv zeta.
  change ([("Exclusive: " ++ Go.boolToYesNo (Go.IsExclusive g))%string] ++ ?r)%list
    with (Go.appendIf true ("Exclusive: " ++ Go.boolToYesNo (Go.IsExclusive g)) ++ r)%list.
  rewrite <- (app_nil_r (Go.appendIf _ ("Features: " ++ _))).
  rewrite !filter_appendIf, filter_app, !filter_appendIf.
  decide_prefixes. rewrite ?andb_false_r. cbn [app filter].
  rewrite app_nil_r.
  destruct (Go.isRent g && greaterThanZero (Go.RentPrice g)).
  - cbn [filter].
    now rewrite (prefix_of_append "Price: " ("Rent $" ++ fmt2f (Go.RentPrice g))).
  - destruct (greaterThanZero (Go.AskingPrice g)); cbn [Go.appendIf filter];
      [|reflexivity].
    now rewrite
      (prefix_of_append "Price: " ("Sale $" ++ fmt2f (Go.AskingPrice g))).
Qed.


End MoreBuilderFacts.


Lemma go_always_prints_location_witness :
  In ("Location: " ++
      Str.TrimSpace (Go.Region (zeroStruct "a") ++ ", " ++
                     Go.City (zeroStruct "a") ++ ", " ++
                     Go.State (zeroStruct "a")))%string
     (Go.descriptionLines (zeroStruct "a"))
  /\ In "Location: , ,"%string (Go.descriptionLines (zeroStruct "a")).
Proof.
  destruct (go_always_prints_location (zeroStruct "a")) as [A B].
  split; [exact A | apply B; reflexivity].
Defined.

(** ** The count of the Go worker *)

Section GoCount.
Context {F : Type} `{Float64 F}.
Variable env : Env.
Variables workerID totalWorkers : Z.
Hypothesis some_workers : totalWorkers <> 0.

Lemma go_test_is_ownedBy (i : Z) :
  (Z.rem i totalWorkers =? workerID - 1) =
  Worker.ownedBy i workerID totalWorkers.
Proof.
  unfold Worker.ownedBy, Worker.remainder.
  destruct (Z.eqb_spec totalWorkers 0); [contradiction | reflexivity].
Qed.

Lemma go_scanOne_counts (st : Worker.Loop F) (document : option (Property F))
    (w : World F) :
  exists st' w',
    GoPort.scanOne env workerID totalWorkers st document w = Some (st', w')
    /\ Worker.currentIndex st' = Worker.currentIndex st + 1
    /\ Worker.propertiesProcessed st' =
       Worker.propertiesProcessed st +
       (if Worker.ownedBy (Worker.currentIndex st) workerID totalWorkers
        then 1 else 0).
Proof.
  unfold GoPort.scanOne. rewrite Z.add_simpl_r, go_test_is_ownedBy.
  destruct (Worker.ownedBy (Worker.currentIndex st) workerID totalWorkers);
    cbn [negb].
  2:{ unfold ret. do 2 eexists. split; [reflexivity|]. simpl. lia. }
  destruct document as [p|].
  2:{ unfold bind, consoleError, ret. do 2 eexists.
      split; [reflexivity|]. simpl. lia. }
  destruct (Go.decode p) as [g|].
  2:{ unfold bind, consoleError, ret. do 2 eexists.
      split; [reflexivity|]. simpl. lia. }
  unfold bind at 1.
  destruct (go_lookup_frame env (Go.ID g) w) as (found & w0 & E0 & _).
  rewrite E0.
  assert (Embed : forall w0' : World F,
    exists st' w',
      (embedding <- GoPort.generateEmbedding env
                      (Go.createPropertyDescription g) ;;
       match embedding with
       | None =>
           consoleError (ErrorGeneratingEmbedding workerID) ;;
           ret {| Worker.currentIndex := Worker.currentIndex st + 1;
                  Worker.propertiesProcessed :=
                    Worker.propertiesProcessed st + 1;
                  Worker.batchDocuments := Worker.batchDocuments st |}
       | Some values =>
           batch <- push (Worker.batchDocuments st)
                      {| metadata := p; embeddings := values |} ;;
           if Z.of_nat (List.length batch) >=? GoPort.batchSize then
             ok <- insertMany env batch ;;
             (if ok then ret tt
              else consoleError (ErrorInsertingBatch workerID)) ;;
             ret {| Worker.currentIndex := Worker.currentIndex st + 1;
                    Worker.propertiesProcessed :=
                      Worker.propertiesProcessed st + 1;
                    Worker.batchDocuments := [] |}
           else
             ret {| Worker.currentIndex := Worker.currentIndex st + 1;
                    Worker.propertiesProcessed :=
                      Worker.propertiesProcessed st + 1;
                    Worker.batchDocuments := batch |}
       end) w0' = Some (st', w')
      /\ Worker.currentIndex st' = Worker.currentIndex st + 1
      /\ Worker.propertiesProcessed st' = Worker.propertiesProcessed st + 1).
  { intros w0'. unfold bind at 1.
    destruct (go_client_frame env (Go.createPropertyDescription g) w0')
      as (r & w1 & E & _).
    rewrite E. destruct r as [v|].
    - unfold bind at 1. unfold push.
      destruct (Z.of_nat _ >=? GoPort.batchSize).
      + unfold bind at 1. unfold insertMany.
        destruct (insertSucceeds env _); unfold bind, consoleError, ret;
          do 2 eexists; (split; [reflexivity|]); simpl; lia.
      + unfold ret. do 2 eexists. split; [reflexivity|]. simpl. lia.
    - unfold bind, consoleError, ret. do 2 eexists. split; [reflexivity|].
      simpl. lia. }
  destruct found as [[entry|] | failure].
  - unfold ret. do 2 eexists. split; [reflexivity|]. simpl. lia.
  - unfold bind at 1. unfold ret at 1. apply Embed.
  - unfold bind at 1. unfold consoleError at 1. apply Embed.
Qed.

Lemma go_scan_counts (docs : list (option (Property F))) (st : Worker.Loop F)
    (w : World F) :
  exists st' w',
    GoPort.scan env workerID totalWorkers st docs w = Some (st', w')
    /\ Worker.currentIndex st' =
       Worker.currentIndex st + Z.of_nat (List.length docs)
    /\ Worker.propertiesProcessed st' =
       Worker.propertiesProcessed st +
       Z.of_nat
         (List.length
            (filter (fun i => Worker.ownedBy i workerID totalWorkers)
               (map (fun k => Worker.currentIndex st + Z.of_nat k)
                  (seq 0 (List.length docs))))).
Proof.
  revert st w. induction docs as [|p docs IH]; intros st w.
  - exists st, w. simpl. repeat split; lia.
  - destruct (go_scanOne_counts st p w) as (st1 & w1 & E1 & I1 & P1).
    destruct (IH st1 w1) as (st' & w' & E & I & P).
    exists st', w'. split.
    + cbn [GoPort.scan]. unfold bind. rewrite E1. exact E.
    + cbn [List.length]. rewrite positions_cons. cbn [filter].
      rewrite I, P, I1, P1.
      destruct (Worker.ownedBy (Worker.currentIndex st) workerID totalWorkers);
        cbn [List.length]; split; lia.
Qed.

(** X19.  The Go worker always returns.  When creating the index or the
    query fails it returns 0 and the error; otherwise it returns the number
    of scan positions it owns, documents it could not decode and records
    whose lookup failed included, together with the error of the cursor if
    there is one. *)
Theorem go_count_is_owned_count (docs : list (option (Property F)))
    (cursorErr : option string) (w : World F) :
  exists w',
    GoPort.processProperties env workerID totalWorkers docs cursorErr w =
    Some
      (match driverError env (List.length (driverCalls w)) CreateIndex with
       | Some err => (0, Some (GoPort.wrap "error creating index" err))
       | None =>
           match driverError env (S (List.length (driverCalls w))) Find with
           | Some err =>
               (0, Some (GoPort.wrap "error finding properties" err))
           | None =>
               (Z.of_nat
                  (List.length
                     (ownedIndices (List.length docs) workerID totalWorkers)),
                option_map (GoPort.wrap "cursor error") cursorErr)
           end
       end, w').
Proof.
  rewrite go_processProperties_steps.
  destruct (driverError env _ CreateIndex); [eexists; reflexivity|].
  destruct (driverError env _ Find); [eexists; reflexivity|].
  destruct (go_scan_counts docs Worker.start
              (requested Find (requested CreateIndex w)))
    as (st & w1 & E & _ & P).
  rewrite E. cbv zeta.
  assert (R : Worker.propertiesProcessed st =
              Z.of_nat (List.length
                (ownedIndices (List.length docs) workerID totalWorkers)))
    by exact P.
  rewrite <- R.
  destruct (Z.of_nat (List.length (Worker.batchDocuments st)) >? 0).
  - destruct (insertSucceeds env _); eexists; reflexivity.
  - eexists. reflexivity.
Qed.

End GoCount.

Lemma go_count_is_owned_count_witness :
  exists w',
    GoPort.processProperties lookupsFail 2 4
      [Some rental; None; Some emptyLot; None; Some rental; None]
      (Some "cursor fault") (freshWorld []) =
    Some
      (match driverError lookupsFail
               (List.length (driverCalls (freshWorld (F:=SafeInteger) [])))
               CreateIndex with
       | Some err => (0, Some (GoPort.wrap "error creating index" err))
       | None =>
           match driverError lookupsFail
                   (S (List.length
                         (driverCalls (freshWorld (F:=SafeInteger) []))))
                   Find with
           | Some err =>
               (0, Some (GoPort.wrap "error finding properties" err))
           | None =>
               (Z.of_nat (List.length (ownedIndices 6 2 4)),
                option_map (GoPort.wrap "cursor error") (Some "cursor fault"))
           end
       end, w').
Proof.
  apply (go_count_is_owned_count lookupsFail 2 4 ltac:(lia)
           [Some rental; None; Some emptyLot; None; Some rental; None]
           (Some "cursor fault") (freshWorld [])).
Defined.

(** ** Two runs in a row *)

Lemma entries_are_found {F : Type} `{Float64 F} (f : string -> Vector)
    (docs : list (Property F)) (entries : list (PropertyWithEmbedding F))
    (p : Property F) :
  In p docs -> incl (map (entryOf f) docs) entries ->
  find (fun d => (_id (metadata d) =? _id p)%string) entries <> None.
Proof.
  intros Hp Hincl N.
  assert (E := find_none _ _ N (entryOf f p)
                 (Hincl _ (in_map (entryOf f) docs p Hp))).
  cbn in E. rewrite String.eqb_refl in E. discriminate E.
Qed.


